(** * The render-extract-reason-submit pipeline of [main.py]

    A shallow embedding of [download_file], [extract_text_from_pdf_bytes],
    [_extract_text_from_gemini_response], [call_gemini_for_solution],
    [render_page_and_collect] and [quiz_endpoint], and the properties of
    the pipeline that the specification states about them.

    Conventions.
    - A Python [str] is a [string]; every [ascii] stands for one character.
    - A Python exception is an [exn]: its class and the text of [str(e)].
    - Python objects that the handler mutates or shares (the dicts and
      lists produced by [json.loads]) live in a [heap]; a [val] is either
      a scalar or a reference into it.
    - Every call that leaves the process (browser, HTTP, PDF library,
      inference backend) is answered by a [World] and logged in a trace.
    - Library functions whose behaviour is not fixed by [main.py]
      ([json.loads], [urljoin], [urlparse], UTF-8 decoding, base64) are
      the fields of a [Lib], and the properties hold for every [Lib];
      [py_lib] at the end of the definitions is an executable instance,
      used where an example is evaluated. *)

From stdpp Require Import gmap strings list fin_maps.
From Stdlib Require Import ZArith Ascii.
From Stdlib Require Strings.Byte DecimalString.

Local Set Warnings "-register-all".

(* ===================================================================== *)
(** * Exceptions *)
(* ===================================================================== *)

Inductive exn_class :=
  | AttributeError
  | TypeError
  | ValueError
  | JSONDecodeError
  | HTTPError
  | RequestException
  | PWTimeout
  | PWError
  | OSError
  | OtherError.

#[global] Instance exn_class_eq_dec : EqDecision exn_class.
Proof. solve_decision. Defined.

Record exn := Exn { exn_cls : exn_class; exn_msg : string }.

(** [str(e)] *)
Definition str_of_exn (e : exn) : string := exn_msg e.

(** [r] is the result of a call that may raise. *)
Abbreviation result A := (sum exn A).

(* ===================================================================== *)
(** * Python string operations used by the pipeline *)
(* ===================================================================== *)

Module PyStr.

Definition len (s : string) : Z := Z.of_nat (String.length s).

(** [s.find(c)] for a one-character needle: the lowest index, or -1. *)
Fixpoint find_from (c : ascii) (s : string) (i : Z) : Z :=
  match s with
  | EmptyString => (-1)%Z
  | String x r => if Ascii.eqb x c then i else find_from c r (i + 1)%Z
  end.

Definition find (s : string) (c : ascii) : Z := find_from c s 0.

(** [s.rfind(c)] for a one-character needle: the highest index, or -1. *)
Fixpoint rfind_from (c : ascii) (s : string) (i : Z) : Z :=
  match s with
  | EmptyString => (-1)%Z
  | String x r =>
      let k := rfind_from c r (i + 1)%Z in
      if (k =? -1)%Z then (if Ascii.eqb x c then i else (-1)%Z) else k
  end.

Definition rfind (s : string) (c : ascii) : Z := rfind_from c s 0.

(** Slice bounds: a negative index counts from the end, and every index
    is clamped to the string. *)
Definition clamp (n i : Z) : Z :=
  if (i <? 0)%Z then Z.max 0 (n + i) else Z.min i n.

(** [s[a:b]] *)
Definition slice (s : string) (a b : Z) : string :=
  let a' := clamp (len s) a in
  let b' := clamp (len s) b in
  String.substring (Z.to_nat a') (Z.to_nat (b' - a')) s.

(** [s[:n]] *)
Definition prefix (s : string) (n : Z) : string := slice s 0 n.

(** [s.startswith(p)] *)
Fixpoint startswith (s p : string) : bool :=
  match p, s with
  | EmptyString, _ => true
  | String _ _, EmptyString => false
  | String a p', String b s' => Ascii.eqb a b && startswith s' p'
  end.

(** [s.endswith(p)] *)
Definition endswith (s p : string) : bool :=
  (String.length p <=? String.length s)%nat
  && String.eqb (String.substring (String.length s - String.length p)
                                  (String.length p) s) p.

(** [s.lower()] on the 8-bit alphabet: A-Z and the upper-case letters of
    Latin-1 (0xC0-0xDE without 0xD7) move by 0x20. *)
Definition lower_ascii (a : ascii) : ascii :=
  let n := Ascii.nat_of_ascii a in
  if ((65 <=? n) && (n <=? 90))%nat
     || ((192 <=? n) && (n <=? 222) && negb (n =? 215))%nat
  then Ascii.ascii_of_nat (n + 32) else a.

Fixpoint lower (s : string) : string :=
  match s with
  | EmptyString => EmptyString
  | String a r => String (lower_ascii a) (lower r)
  end.

(** [sep.join(parts)] *)
Fixpoint join (sep : string) (parts : list string) : string :=
  match parts with
  | [] => EmptyString
  | [p] => p
  | p :: rest => p +:+ sep +:+ join sep rest
  end.

(** [c in s] for a character. *)
Fixpoint mem (c : ascii) (s : string) : bool :=
  match s with
  | EmptyString => false
  | String x r => Ascii.eqb x c || mem c r
  end.

(** [os.path.basename(p)] (posixpath): what follows the last slash. *)
Definition basename (p : string) : string :=
  slice p (rfind p "/" + 1) (len p).

Definition apostrophe : ascii := Ascii.ascii_of_nat 39.
Definition double_quote : ascii := Ascii.ascii_of_nat 34.
Definition backslash : ascii := Ascii.ascii_of_nat 92.

Definition hex_digit (n : nat) : ascii :=
  match String.get n "0123456789abcdef" with
  | Some c => c
  | None => "0"%char
  end.

(** How [repr] writes one character of a [str] of code points below
    256, between quotes [q]: the quote and the backslash are escaped, tab,
    newline and carriage return have their letters, and what is not
    printable (the control characters, the no-break space and the soft
    hyphen) is written in hexadecimal. *)
Definition repr_char (q c : ascii) : string :=
  let n := Ascii.nat_of_ascii c in
  if Ascii.eqb c q || Ascii.eqb c backslash then String backslash (String c EmptyString)
  else if (n =? 9)%nat then String backslash "t"
  else if (n =? 10)%nat then String backslash "n"
  else if (n =? 13)%nat then String backslash "r"
  else if ((n <? 32) || (127 <=? n) && (n <=? 160) || (n =? 173))%nat then
    String backslash
      (String "x" (String (hex_digit (n / 16)) (String (hex_digit (n mod 16))
                                                       EmptyString)))
  else String c EmptyString.

Fixpoint repr_chars (q : ascii) (s : string) : string :=
  match s with
  | EmptyString => EmptyString
  | String c r => repr_char q c +:+ repr_chars q r
  end.

(** [repr(s)]: between apostrophes, or between double quotes when [s]
    has an apostrophe and no double quote. *)
Definition repr (s : string) : string :=
  let q := if mem apostrophe s && negb (mem double_quote s)
           then double_quote else apostrophe in
  String q (repr_chars q s +:+ String q EmptyString).

End PyStr.

(** The span that [call_gemini_for_solution] hands to [json.loads]
    (main.py, lines 144-150). *)
Definition json_span (text_out : string) : string :=
  let start := PyStr.find text_out "{" in
  let end_ := PyStr.rfind text_out "}" in
  if negb (start =? -1)%Z && negb (end_ =? -1)%Z && (end_ >? start)%Z
  then PyStr.slice text_out start (end_ + 1)
  else text_out.

(* ===================================================================== *)
(** * Values, objects and the heap *)
(* ===================================================================== *)

(** A Python float, kept as the decimal number [m * 10^e] that its
    literal denotes, or one of the specials. Rounding to binary64 is not
    modelled; the pipeline only ever asks a float whether it is zero. *)
Inductive pyfloat :=
  | FNum (m e : Z)
  | FNaN
  | FInf (negative : bool).

(** What [json.loads] and [Response.json] decode: a JSON document, its
    objects as the decoder reads them (pairs in document order). *)
Inductive json :=
  | JNull
  | JBool (b : bool)
  | JInt (n : Z)
  | JFloat (f : pyfloat)
  | JStr (s : string)
  | JArr (xs : list json)
  | JObj (kvs : list (string * json)).

Abbreviation loc := nat.

Inductive val :=
  | VNone
  | VBool (b : bool)
  | VInt (n : Z)
  | VFloat (f : pyfloat)
  | VStr (s : string)
  | VRef (l : loc).

Inductive obj :=
  | ODict (d : gmap string val)
  | OList (xs : list val).

Abbreviation heap := (list obj).
Abbreviation bytes := (list Byte.byte).

Definition is_none (v : val) : bool :=
  match v with VNone => true | _ => false end.

Definition str_truthy (s : string) : bool :=
  match s with EmptyString => false | _ => true end.

Definition float_truthy (f : pyfloat) : bool :=
  match f with FNum m _ => negb (m =? 0)%Z | _ => true end.

(** [bool(v)] *)
Definition truthy (h : heap) (v : val) : bool :=
  match v with
  | VNone => false
  | VBool b => b
  | VInt n => negb (n =? 0)%Z
  | VFloat f => float_truthy f
  | VStr s => str_truthy s
  | VRef l =>
      match h !! l with
      | Some (ODict d) => negb (bool_decide (d = ∅))
      | Some (OList xs) => match xs with [] => false | _ => true end
      | None => true
      end
  end.

(** [isinstance(v, dict)], with the dict's location and contents. *)
Definition as_dict (h : heap) (v : val) : option (loc * gmap string val) :=
  match v with
  | VRef l => match h !! l with Some (ODict d) => Some (l, d) | _ => None end
  | _ => None
  end.

(** [d.get(k)] *)
Definition dict_get (d : gmap string val) (k : string) : val :=
  default VNone (d !! k).

(** [dict(pairs)]: a later pair overwrites an earlier one with its key. *)
Definition dict_of_pairs (kvs : list (string * val)) : gmap string val :=
  foldl (fun d kv => <[kv.1 := kv.2]> d) ∅ kvs.

(** Building objects for the items of a list, from left to right. *)
Definition alloc_all {A B} (f : A -> heap -> B * heap)
    : list A -> heap -> list B * heap :=
  fix go (xs : list A) (h : heap) : list B * heap :=
    match xs with
    | [] => ([], h)
    | x :: r =>
        let '(v, h1) := f x h in
        let '(vs, h2) := go r h1 in
        (v :: vs, h2)
    end.

(** Building the Python object for a decoded document: children first,
    then the container, each dict and list at a location of its own. *)
Fixpoint alloc_json (j : json) (h : heap) : val * heap :=
  match j with
  | JNull => (VNone, h)
  | JBool b => (VBool b, h)
  | JInt n => (VInt n, h)
  | JFloat f => (VFloat f, h)
  | JStr s => (VStr s, h)
  | JArr xs =>
      let '(vs, h') := alloc_all alloc_json xs h in
      (VRef (length h'), (h' ++ [OList vs])%list)
  | JObj kvs =>
      let '(ps, h') :=
        alloc_all (fun '(k, x) h =>
                     let '(v, h1) := alloc_json x h in ((k, v), h1)) kvs h in
      (VRef (length h'), (h' ++ [ODict (dict_of_pairs ps)])%list)
  end.

(* ===================================================================== *)
(** * The outside world *)
(* ===================================================================== *)

(** [requests.Response] of a GET, as far as [download_file] reads it. *)
Record http_response := HttpResponse {
  status_code : Z;
  header_content_length : option string;
  header_content_type : option string;
  content : result bytes;          (* [resp.content]: reads the body *)
}.

(** [requests.Response] of the submission POST. *)
Record post_response := PostResponse {
  post_status_code : Z;
  post_json : result json;         (* [resp.json()] *)
  post_text : string;              (* [resp.text] *)
}.

(** A Python object of the inference SDK, as far as duck-typed probing can
    see it: scalars, lists, dicts, and instances with named attributes. *)
Inductive pyobj :=
  | PNone
  | PBool (b : bool)
  | PInt (n : Z)
  | PStr (s : string)
  | PList (xs : list pyobj)
  | PDict (kvs : list (string * pyobj))
  | PInstance (attrs : list (string * pyobj)).

(** An attribute of the SDK response: missing, there, or a property whose
    getter raises. *)
Inductive attr :=
  | Absent
  | Value (v : pyobj)
  | Raises (e : exn).

Record sdk_response := SdkResponse {
  r_text : attr;
  r_output : attr;
  r_generations : attr;
  r_str : result string;           (* [str(resp)] *)
}.

(** An entry of [collected_files]. *)
Record file_entry := FileEntry {
  filename : string;
  file_bytes : bytes;
  file_text : option string;       (* the key "text", when set *)
  is_text : bool;
}.

(** An entry of [files_info]. *)
Inductive preview :=
  | TextPreview (s : string)
  | Base64 (s : string).

Record file_info := FileInfo {
  info_filename : string;
  info_preview : preview;
}.

(** [user_input], the structured part of the prompt. *)
Record reasoning_request := ReasoningRequest {
  req_html : string;
  req_text : string;
  req_files : list file_info;
}.

Inductive wait_until := NetworkIdle | Load.

(** Calls that leave the process, in the order they are made. *)
Inductive event :=
  | EvGoto (url : string) (w : wait_until) (timeout_ms : Z)
  | EvHttpGet (url : string)
  | EvReadBody (url : string)
  | EvGenerate (req : reasoning_request)
  | EvHttpPost (url : val) (payload : val) (h : heap).

(** How the environment answers. An [option exn] is the outcome of a
    call made for its effect, [None] when it returns normally. *)
Record World := {
  (* [request.get_json(force=True)] *)
  request_get_json : result json;
  (* [os.environ.get("QUIZ_SECRET")] *)
  QUIZ_SECRET : option string;
  (* [sync_playwright()], [launch], [new_context], [new_page] *)
  pw_new_page : option exn;
  (* [page.goto(url, wait_until=..., timeout=...)] *)
  pw_goto : string -> wait_until -> Z -> option exn;
  (* [page.content()] *)
  pw_content : result string;
  (* [page.query_selector("body")], as a truth value *)
  pw_query_body : result bool;
  (* [page.inner_text("body")] *)
  pw_inner_text_body : result string;
  (* [page.query_selector_all("a")], each anchor as the outcome of its
     [get_attribute("href")] *)
  pw_anchors : result (list (result (option string)));
  (* [context.close()], [browser.close()] *)
  pw_close : option exn;
  (* [requests.get(url, stream=True, timeout=45)] *)
  requests_get : string -> result http_response;
  (* [int(s)] for a [str]: the builtin of the interpreter; which texts
     it takes for a number depends on the interpreter and its settings *)
  builtin_int : string -> result Z;
  (* [requests.post(submit_url, json=payload, ...)]; the body is read in
     the heap of the moment *)
  requests_post : val -> val -> heap -> result post_response;
  (* [NamedTemporaryFile], [write], [flush] *)
  tmp_write : bytes -> option exn;
  (* [pdfplumber.open] and [pdf.pages], each page as the outcome of its
     [extract_text()] *)
  pdf_open : bytes -> result (list (result (option string)));
  (* [model.generate_content]; the prompt is [json.dumps(user_input)]
     followed by fixed text, so it is given by [user_input] *)
  generate_content : reasoning_request -> result sdk_response;
}.

(** Library functions that [main.py] calls and does not define. *)
Record Lib := {
  json_loads : string -> result json;
  urljoin : string -> string -> result string;
  urlparse_path : string -> result string;
  utf8_decode_ignore : bytes -> string;
  b64encode : bytes -> string;
}.

(* ===================================================================== *)
(** * The monad of the handler: heap, trace, exceptions *)
(* ===================================================================== *)

Record state := State { st_heap : heap; st_trace : list event }.

Definition M (A : Type) : Type := state -> result A * state.

Definition ret {A} (a : A) : M A := fun s => (inr a, s).

Definition raise {A} (e : exn) : M A := fun s => (inl e, s).

Definition bind {A B} (m : M A) (k : A -> M B) : M B :=
  fun s => match m s with
           | (inl e, s') => (inl e, s')
           | (inr a, s') => k a s'
           end.

Notation "'let*' x ':=' m 'in' k" := (bind m (fun x => k))
  (at level 10, x pattern, m at level 100, k at level 200).

(** [try: m  except Exception as e: handler e] *)
Definition try_except {A} (m : M A) (handler : exn -> M A) : M A :=
  fun s => match m s with
           | (inl e, s') => handler e s'
           | (inr a, s') => (inr a, s')
           end.

(** [try: m  except cls as e: handler e] *)
Definition try_except_cls {A} (cls : exn_class) (m : M A)
    (handler : exn -> M A) : M A :=
  fun s => match m s with
           | (inl e, s') =>
               if bool_decide (exn_cls e = cls) then handler e s'
               else (inl e, s')
           | (inr a, s') => (inr a, s')
           end.

Definition lift {A} (r : result A) : M A := fun s => (r, s).

Definition lift_unit (r : option exn) : M unit :=
  fun s => match r with Some e => (inl e, s) | None => (inr tt, s) end.

Definition emit (ev : event) : M unit :=
  fun s => (inr tt, {| st_heap := st_heap s; st_trace := (st_trace s ++ [ev])%list |}).

Definition get_heap : M heap := fun s => (inr (st_heap s), s).

Definition put_heap (h : heap) : M unit :=
  fun s => (inr tt, {| st_heap := h; st_trace := st_trace s |}).

(** A new object; the result is the reference to it. *)
Definition alloc (o : obj) : M val :=
  fun s => (inr (VRef (length (st_heap s))),
            {| st_heap := (st_heap s ++ [o])%list; st_trace := st_trace s |}).

(** Materialising a decoded document. *)
Definition load_json (j : json) : M val :=
  fun s => let '(v, h) := alloc_json j (st_heap s) in
           (inr v, {| st_heap := h; st_trace := st_trace s |}).

(* ===================================================================== *)
(** * [int(s)] for the content-length header *)
(* ===================================================================== *)

(** [int] is a builtin of the interpreter: the pipeline takes it from
    the world it runs in (see [builtin_int] below). What follows is the
    [int] of CPython 3.11 with its default limit on the number of digits,
    for a [str] of code points below 256, which is what a header is; the
    worlds of the examples run it. *)
Module PyInt.

(** What [int] skips around the number: the six ASCII white-space
    characters and, of the characters above 127, the two that are Unicode
    white space (next line and no-break space). The separators 28 to 31,
    which [str.strip] removes, are not among them. *)
Definition is_space (a : ascii) : bool :=
  let n := Ascii.nat_of_ascii a in
  ((9 <=? n) && (n <=? 13) || (n =? 32) || (n =? 133) || (n =? 160))%nat.

Fixpoint lstrip (s : string) : string :=
  match s with
  | String a r => if is_space a then lstrip r else s
  | EmptyString => EmptyString
  end.

Definition digit (a : ascii) : option Z :=
  let n := Ascii.nat_of_ascii a in
  if ((48 <=? n) && (n <=? 57))%nat then Some (Z.of_nat n - 48)%Z else None.

(** The run of digits and underscores that [s] starts with: its value,
    the number of its digits and what follows it; nothing when two
    underscores follow each other or the run ends with one. *)
Fixpoint scan (acc : Z) (count : nat) (after_underscore : bool) (s : string)
    : option (Z * nat * string) :=
  match s with
  | EmptyString => if after_underscore then None else Some (acc, count, s)
  | String c r =>
      match digit c with
      | Some d => scan (acc * 10 + d)%Z (S count) false r
      | None =>
          if Ascii.eqb c "_" then
            if after_underscore then None else scan acc count true r
          else if after_underscore then None else Some (acc, count, s)
      end
  end.

Definition max_str_digits : nat := 4300.

Definition decimal_of_nat (n : nat) : string :=
  DecimalString.NilZero.string_of_uint (Nat.to_uint n).

(** The message has the first 200 characters of [repr(s)]. *)
Definition invalid_literal (s : string) : exn :=
  Exn ValueError ("invalid literal for int() with base 10: "
                  +:+ String.substring 0 200 (PyStr.repr s)).

Definition over_the_limit (count : nat) : exn :=
  Exn ValueError ("Exceeds the limit (4300 digits) for integer string conversion: "
                  +:+ "value has " +:+ decimal_of_nat count
                  +:+ " digits; use sys.set_int_max_str_digits() "
                  +:+ "to increase the limit").

(** What follows the sign, if there is one. *)
Definition unsigned (s : string) : bool * string :=
  match s with
  | String "-" r => (true, r)
  | String "+" r => (false, r)
  | _ => (false, s)
  end.

(** [int(s)] for a [str] argument, base 10: white space, a sign, digits
    with single underscores between them, white space. The limit on the
    number of digits is looked at once the digits are read, before what
    follows them. *)
Definition of_str (s : string) : result Z :=
  let '(negative, body) := unsigned (lstrip s) in
  match body with
  | String "_" _ => inl (invalid_literal s)
  | _ =>
      match scan 0 0 false body with
      | None => inl (invalid_literal s)
      | Some (n, count, rest) =>
          if (max_str_digits <? count)%nat then inl (over_the_limit count)
          else if (count =? 0)%nat then inl (invalid_literal s)
          else
            match lstrip rest with
            | EmptyString => inr (if negative then (- n)%Z else n)
            | _ => inl (invalid_literal s)
            end
      end
  end.

End PyInt.

(* ===================================================================== *)
(** * The pipeline *)
(* ===================================================================== *)

Definition newline : ascii := Ascii.ascii_of_nat 10.

(** The separator of [extract_text_from_pdf_bytes]: a blank line. *)
Definition blank_line : string := String newline (String newline EmptyString).

(** [s or d] for strings. *)
Definition str_or (s d : string) : string :=
  if str_truthy s then s else d.

(** [t or d] where [t] is a [str] or [None]. *)
Definition opt_or (t : option string) (d : string) : string :=
  match t with Some s => str_or s d | None => d end.

Definition too_large_header : exn := Exn ValueError "Remote file too large".
Definition too_large_body : exn := Exn ValueError "Downloaded file exceeds limit".

(** [Response.raise_for_status]: the 4xx and 5xx statuses raise. *)
Definition http_error_status (status : Z) : bool :=
  ((400 <=? status) && (status <? 600))%Z.

Definition raise_for_status (resp : http_response) : M unit :=
  if http_error_status (status_code resp) then
    raise (Exn HTTPError
             (if (status_code resp <? 500)%Z then "Client Error" else "Server Error"))
  else ret tt.

(** [int(resp.headers.get("content-length", 0) or 0)] *)
Definition declared_length (w : World) (resp : http_response) : result Z :=
  match header_content_length resp with
  | None => inr 0%Z
  | Some s => if str_truthy s then builtin_int w s else inr 0%Z
  end.

Definition extensions : list string :=
  [".pdf"; ".csv"; ".xlsx"; ".xls"; ".json"; ".zip"].

(** [any(path.endswith(ext) for ext in [...])] *)
Definition is_candidate (path : string) : bool :=
  existsb (PyStr.endswith path) extensions.

Section Pipeline.

Context (lib : Lib) (w : World).

(** main.py, lines 39-49. The session is always [requests]; with
    [stream=True] the body is read when [resp.content] is asked for. *)
Definition download_file (url : string) (max_bytes : Z) : M (bytes * string) :=
  let* _ := emit (EvHttpGet url) in
  let* resp := lift (requests_get w url) in
  let* _ := raise_for_status resp in
  let* length := lift (declared_length w resp) in
  if negb (length =? 0)%Z && (length >? max_bytes)%Z then
    raise too_large_header
  else
    let* _ := emit (EvReadBody url) in
    let* data := lift (content resp) in
    if (Z.of_nat (List.length data) >? max_bytes)%Z then
      raise too_large_body
    else
      ret (data, default EmptyString (header_content_type resp)).

(** The loop of lines 59-60: each page gives its text, or the empty
    string when it has none. *)
Fixpoint page_texts (pages : list (result (option string)))
    : result (list string) :=
  match pages with
  | [] => inr []
  | p :: rest =>
      match p with
      | inl e => inl e
      | inr t =>
          match page_texts rest with
          | inl e => inl e
          | inr ts => inr (opt_or t EmptyString :: ts)
          end
      end
  end.

(** main.py, lines 52-64. The temporary file is written outside the
    [try]; opening the document and reading its pages are inside. *)
Definition extract_text_from_pdf_bytes (pdf_bytes : bytes) : M (option string) :=
  let* _ := lift_unit (tmp_write w pdf_bytes) in
  match pdf_open w pdf_bytes with
  | inl _ => ret None
  | inr pages =>
      match page_texts pages with
      | inl _ => ret None
      | inr texts => ret (Some (PyStr.join blank_line texts))
      end
  end.

(** main.py, lines 196-214: the entry for a downloaded candidate. *)
Definition file_entry_for (path : string) (data : bytes) (content_type : string)
    : M file_entry :=
  let filename := str_or (PyStr.basename path) "downloaded" in
  if PyStr.startswith content_type "text/"
     || PyStr.endswith filename ".csv"
     || PyStr.endswith filename ".json"
  then
    ret (FileEntry filename data (Some (utf8_decode_ignore lib data)) true)
  else if PyStr.endswith filename ".pdf" then
    let* t := extract_text_from_pdf_bytes data in
    ret (FileEntry filename data (Some (opt_or t EmptyString)) true)
  else
    ret (FileEntry filename data None false).

(** main.py, lines 183-222: the body of the loop for one anchor. [None]
    is [continue]; [Some entry] is the append followed by [break]. *)
Definition process_anchor (url : string) (a : result (option string))
    : M (option file_entry) :=
  try_except
    (let* href := lift a in
     match href with
     | None => ret None
     | Some href =>
         if negb (str_truthy href) then ret None
         else
           let* full := lift (urljoin lib url href) in
           let* path0 := lift (urlparse_path lib full) in
           let path := PyStr.lower path0 in
           if is_candidate path then
             try_except
               (let* (data, content_type) := download_file full 5000000 in
                let* entry := file_entry_for path data content_type in
                ret (Some entry))
               (fun _ => ret None)
           else ret None
     end)
    (fun _ => ret None).

(** main.py, lines 182-222: [collected_files] after the loop. *)
Fixpoint collect (url : string) (anchors : list (result (option string)))
    : M (list file_entry) :=
  match anchors with
  | [] => ret []
  | a :: rest =>
      let* r := process_anchor url a in
      match r with
      | Some entry => ret [entry]
      | None => collect url rest
      end
  end.

Record page_data := PageData {
  pd_html : string;
  pd_text : string;
  pd_collected_files : list file_entry;
}.

(** [page.goto(url, wait_until=..., timeout=...)] *)
Definition goto (url : string) (wu : wait_until) (timeout_ms : Z) : M unit :=
  let* _ := emit (EvGoto url wu timeout_ms) in
  lift_unit (pw_goto w url wu timeout_ms).

(** main.py, lines 172-178. *)
Definition navigate (url : string) (timeout_ms : Z) : M unit :=
  try_except_cls PWTimeout
    (goto url NetworkIdle timeout_ms)
    (fun _ => try_except (goto url Load timeout_ms) (fun _ => ret tt)).

(** main.py, lines 179-225: reading the page once navigation is over. *)
Definition capture (url : string) : M page_data :=
  let* html := lift (pw_content w) in
  let* has_body := lift (pw_query_body w) in
  let* visible_text :=
    (if has_body then lift (pw_inner_text_body w) else ret EmptyString) in
  let* anchors := lift (pw_anchors w) in
  let* collected_files := collect url anchors in
  let* _ := lift_unit (pw_close w) in
  ret (PageData html visible_text collected_files).

(** main.py, lines 164-225. A [url] that is not a [str] is refused by
    the first [page.goto]. *)
Definition render_page_and_collect (url : val) (timeout_ms : Z) : M page_data :=
  let* _ := lift_unit (pw_new_page w) in
  match url with
  | VStr url =>
      let* _ := navigate url timeout_ms in
      capture url
  | _ => raise (Exn PWError "url: expected string")
  end.

(** ** The reasoning client *)

Fixpoint assoc (k : string) (kvs : list (string * pyobj)) : option pyobj :=
  match kvs with
  | [] => None
  | (k', v) :: r => if String.eqb k k' then Some v else assoc k r
  end.

Definition pyobj_truthy (o : pyobj) : bool :=
  match o with
  | PNone => false
  | PBool b => b
  | PInt n => negb (n =? 0)%Z
  | PStr s => str_truthy s
  | PList xs => match xs with [] => false | _ => true end
  | PDict kvs => match kvs with [] => false | _ => true end
  | PInstance _ => true
  end.

(** [getattr(resp, name, None)] inside a [try] whose handler is [pass]:
    a getter that raises ends the block, as a missing value does. *)
Definition getattr_or_none (a : attr) : pyobj :=
  match a with Value v => v | _ => PNone end.

(** main.py, lines 80-84 and 88-91: the text of the first element of the
    list under "content", when that element is a dict with a "text". *)
Definition content_text (d : list (string * pyobj)) : option pyobj :=
  match assoc "content" d with
  | Some (PList (PDict first :: _)) => assoc "text" first
  | _ => None
  end.

(** main.py, lines 78-86: the loop over the items of [out]. *)
Fixpoint items_text (items : list pyobj) : option pyobj :=
  match items with
  | [] => None
  | PDict d :: rest =>
      match content_text d with
      | Some t => Some t
      | None =>
          match assoc "text" d with
          | Some t => Some t
          | None => items_text rest
          end
      end
  | _ :: rest => items_text rest
  end.

(** main.py, lines 76-91. *)
Definition output_text (out : pyobj) : option pyobj :=
  if pyobj_truthy out then
    match out with
    | PList items => items_text items
    | PDict d => content_text d
    | _ => None
    end
  else None.

(** main.py, lines 96-102. *)
Definition generations_text (gens : pyobj) : option pyobj :=
  match gens with
  | PList (g0 :: _) =>
      match g0 with
      | PDict d => assoc "text" d
      | PInstance attrs => assoc "text" attrs
      | _ => None
      end
  | _ => None
  end.

(** main.py, lines 67-108. [hasattr] hides an [AttributeError] only. *)
Definition _extract_text_from_gemini_response (resp : sdk_response)
    : result pyobj :=
  let direct : result (option pyobj) :=
    match r_text resp with
    | Absent => inr None
    | Raises e =>
        if bool_decide (exn_cls e = AttributeError) then inr None else inl e
    | Value v => inr (if pyobj_truthy v then Some v else None)
    end in
  match direct with
  | inl e => inl e
  | inr (Some v) => inr v
  | inr None =>
      match output_text (getattr_or_none (r_output resp)) with
      | Some t => inr t
      | None =>
          match generations_text (getattr_or_none (r_generations resp)) with
          | Some t => inr t
          | None =>
              match r_str resp with
              | inr s => inr (PStr s)
              | inl _ => inr (PStr EmptyString)
              end
          end
      end
  end.

(** main.py, lines 127-134. *)
Definition file_info_of (f : file_entry) : file_info :=
  FileInfo (filename f)
    (if is_text f
     then TextPreview (PyStr.prefix (opt_or (file_text f) EmptyString) 5000)
     else Base64 (PyStr.prefix (b64encode lib (file_bytes f)) 10000)).

(** main.py, lines 123-136: [user_input]. *)
Definition user_input (page_html page_text : string)
    (collected_files : list file_entry) : reasoning_request :=
  ReasoningRequest (PyStr.prefix page_html 14000) (PyStr.prefix page_text 12000)
                   (map file_info_of collected_files).

(** main.py, lines 155-161: the dict returned by the handler. *)
Definition model_error (e : exn) : gmap string val :=
  dict_of_pairs
    [("answer", VNone); ("submit_url", VNone); ("payload", VNone);
     ("reason", VStr "model_error"); ("model_exception", VStr (str_of_exn e))].

(** [text_out.find] exists on a [str] only. *)
Definition as_str (o : pyobj) : result string :=
  match o with
  | PStr s => inr s
  | _ => inl (Exn AttributeError "object has no attribute 'find'")
  end.

(** main.py, lines 144-152: from the raw text to the solution. *)
Definition parse_reply (text_out : string) : M val :=
  let* solution := lift (json_loads lib (json_span text_out)) in
  load_json solution.

(** main.py, lines 140-152: the body of the [try]. *)
Definition ask_model (req : reasoning_request) : M val :=
  let* _ := emit (EvGenerate req) in
  let* response := lift (generate_content w req) in
  let* out := lift (_extract_text_from_gemini_response response) in
  let* text_out := lift (as_str out) in
  parse_reply text_out.

(** main.py, lines 111-161. *)
Definition call_gemini_for_solution (page_html page_text : string)
    (collected_files : list file_entry) : M val :=
  try_except
    (ask_model (user_input page_html page_text collected_files))
    (fun e => alloc (ODict (model_error e))).

(** ** The submitter and the endpoint *)

Record response := Response {
  resp_body : gmap string val;
  resp_status : Z;
}.

(** [jsonify({...}), status] *)
Definition jsonify (fields : list (string * val)) (status : Z) : response :=
  Response (dict_of_pairs fields) status.

(** [v.get(k)], read in the heap as it is now. *)
Definition py_get (v : val) (k : string) : M val :=
  let* h := get_heap in
  match as_dict h v with
  | Some (_, d) => ret (dict_get d k)
  | None => raise (Exn AttributeError "object has no attribute 'get'")
  end.

(** [d[k] = v] on the dict at [l]. *)
Definition dict_setitem (l : loc) (k : string) (v : val) : M unit :=
  let* h := get_heap in
  match h !! l with
  | Some (ODict d) => put_heap (<[l := ODict (<[k := v]> d)]> h)
  | _ => raise (Exn TypeError "object does not support item assignment")
  end.

(** [bool(v)], in the heap as it is now. *)
Definition py_bool (v : val) : M bool :=
  let* h := get_heap in ret (truthy h v).

(** main.py, lines 270-273. *)
Definition response_json (resp : post_response) : M val :=
  match post_json resp with
  | inr j => load_json j
  | inl _ =>
      alloc (ODict (dict_of_pairs
                      [("status_code", VInt (post_status_code resp));
                       ("text", VStr (post_text resp))]))
  end.

(** main.py, lines 255-284: the identity fields are written into
    [payload], and the payload is posted when there is a [submit_url]. *)
Definition deliver (email secret solution submit_url payload : val)
    : M response :=
  let* h := get_heap in
  match as_dict h payload with
  | Some (lp, _) =>
      let* _ := dict_setitem lp "email" email in
      let* _ := dict_setitem lp "secret" secret in
      let* has_url := py_bool submit_url in
      if negb has_url then
        ret (jsonify [("result", VStr "no_submit_url");
                      ("solution", solution)] 200)
      else
        let* attach_b64 := py_get solution "attachment_base64" in
        let* attach := py_bool attach_b64 in
        let* _ :=
          (if attach then dict_setitem lp "attachment_base64" attach_b64
           else ret tt) in
        let* h := get_heap in
        let* _ := emit (EvHttpPost submit_url payload h) in
        let* resp := lift (requests_post w submit_url payload h) in
        let* resp_json := response_json resp in
        ret (jsonify [("submit_response", resp_json);
                      ("submit_status", VInt (post_status_code resp));
                      ("submit_url", submit_url);
                      ("model_solution", solution)] 200)
  | None =>
      ret (jsonify [("error", VStr "no_payload_from_model");
                    ("model_output", solution)] 500)
  end.

(** main.py, lines 249-284: what the handler does with [solution]. *)
Definition submit (email secret solution : val) : M response :=
  let* h := get_heap in
  match as_dict h solution with
  | None => ret (jsonify [("error", VStr "model_failed")] 500)
  | Some _ =>
      let* payload0 := py_get solution "payload" in
      let* submit_url := py_get solution "submit_url" in
      let* answer := py_get solution "answer" in
      let* has_url := py_bool submit_url in
      let* payload :=
        (if is_none payload0 && negb (is_none answer) && has_url
         then alloc (ODict (dict_of_pairs
                              [("email", email); ("secret", secret);
                               ("answer", answer)]))
         else ret payload0) in
      deliver email secret solution submit_url payload
  end.

(** main.py, lines 244-284: the body of the [try]. *)
Definition solve (email secret url : val) : M response :=
  let* page_data := render_page_and_collect url 30000 in
  let* solution :=
    call_gemini_for_solution (pd_html page_data) (pd_text page_data)
                             (pd_collected_files page_data) in
  submit email secret solution.

(** [secret != QUIZ_SECRET], negated. *)
Definition secret_matches (secret : val) (expected : option string) : bool :=
  match secret, expected with
  | VStr s, Some q => String.eqb s q
  | VNone, None => true
  | _, _ => false
  end.

(** main.py, lines 228-287. An exception that leaves this function is
    one that the handler does not catch. *)
Definition quiz_endpoint : M response :=
  match request_get_json w with
  | inl _ => ret (jsonify [("error", VStr "invalid_json")] 400)
  | inr j =>
      let* data := load_json j in
      let* nonempty := py_bool data in
      if negb nonempty then ret (jsonify [("error", VStr "invalid_json")] 400)
      else
        let* email := py_get data "email" in
        let* secret := py_get data "secret" in
        let* url := py_get data "url" in
        if negb (secret_matches secret (QUIZ_SECRET w)) then
          ret (jsonify [("error", VStr "invalid_secret")] 403)
        else
          let* has_url := py_bool url in
          let* has_email := py_bool email in
          if negb has_url || negb has_email then
            ret (jsonify [("error", VStr "missing_fields")] 400)
          else
            try_except (solve email secret url)
              (fun e => ret (jsonify [("error", VStr "server_error");
                                      ("detail", VStr (str_of_exn e))] 500))
  end.

End Pipeline.

(** The state in which a request starts. *)
Definition initial : state := State [] [].

(* ===================================================================== *)
(** * An executable [Lib] *)
(* ===================================================================== *)

(** [json.loads] on 8-bit text: the grammar of the [json] module
    (objects, arrays, strings with escapes, numbers, the three names, and
    the constants NaN, Infinity, -Infinity). An escape [\uXXXX] above
    0x00FF names a character outside the alphabet of this model and is
    reported as an error. *)
Module Json.

Definition dquote : ascii := Ascii.ascii_of_nat 34.
Definition backslash : ascii := Ascii.ascii_of_nat 92.

Definition err (msg : string) : exn := Exn JSONDecodeError msg.

Definition is_ws (c : ascii) : bool :=
  let n := Ascii.nat_of_ascii c in
  ((n =? 32) || (n =? 9) || (n =? 10) || (n =? 13))%nat.

Fixpoint skip_ws (s : string) : string :=
  match s with
  | String c r => if is_ws c then skip_ws r else s
  | EmptyString => EmptyString
  end.

(** [s] without the prefix [p], when it starts with it. *)
Fixpoint strip_prefix (p s : string) : option string :=
  match p, s with
  | EmptyString, _ => Some s
  | String a p', String b s' =>
      if Ascii.eqb a b then strip_prefix p' s' else None
  | String _ _, EmptyString => None
  end.

Definition hex (c : ascii) : option nat :=
  let n := Ascii.nat_of_ascii c in
  if ((48 <=? n) && (n <=? 57))%nat then Some (n - 48)
  else if ((97 <=? n) && (n <=? 102))%nat then Some (n - 87)
  else if ((65 <=? n) && (n <=? 70))%nat then Some (n - 55)
  else None.

Definition hex4 (a b c d : ascii) : option nat :=
  match hex a, hex b, hex c, hex d with
  | Some x, Some y, Some z, Some t => Some (((x * 16 + y) * 16 + z) * 16 + t)
  | _, _, _, _ => None
  end.

Definition simple_escape (c : ascii) : option ascii :=
  if Ascii.eqb c dquote then Some dquote
  else if Ascii.eqb c backslash then Some backslash
  else if Ascii.eqb c "/" then Some "/"%char
  else if Ascii.eqb c "b" then Some (Ascii.ascii_of_nat 8)
  else if Ascii.eqb c "f" then Some (Ascii.ascii_of_nat 12)
  else if Ascii.eqb c "n" then Some (Ascii.ascii_of_nat 10)
  else if Ascii.eqb c "r" then Some (Ascii.ascii_of_nat 13)
  else if Ascii.eqb c "t" then Some (Ascii.ascii_of_nat 9)
  else None.

(** The characters of a string literal after its opening quote, and what
    follows the closing quote. *)
Fixpoint scanstring (s : string) : result (string * string) :=
  match s with
  | EmptyString => inl (err "Unterminated string")
  | String c r =>
      if Ascii.eqb c dquote then inr (EmptyString, r)
      else if Ascii.eqb c backslash then
        match r with
        | EmptyString => inl (err "Unterminated string")
        | String e r1 =>
            if Ascii.eqb e "u" then
              match r1 with
              | String h1 (String h2 (String h3 (String h4 r2))) =>
                  match hex4 h1 h2 h3 h4 with
                  | Some n =>
                      if (n <? 256)%nat then
                        match scanstring r2 with
                        | inr (str, rest) =>
                            inr (String (Ascii.ascii_of_nat n) str, rest)
                        | inl e => inl e
                        end
                      else inl (Exn OtherError "character outside the 8-bit alphabet")
                  | None => inl (err "Invalid \uXXXX escape")
                  end
              | _ => inl (err "Invalid \uXXXX escape")
              end
            else
              match simple_escape e with
              | Some x =>
                  match scanstring r1 with
                  | inr (str, rest) => inr (String x str, rest)
                  | inl e => inl e
                  end
              | None => inl (err "Invalid \escape")
              end
        end
      else if (Ascii.nat_of_ascii c <? 32)%nat then
        inl (err "Invalid control character")
      else
        match scanstring r with
        | inr (str, rest) => inr (String c str, rest)
        | inl e => inl e
        end
  end.

(** The longest run of decimal digits at the head of [s]. *)
Fixpoint take_digits (s : string) : list Z * string :=
  match s with
  | String c r =>
      match PyInt.digit c with
      | Some d => let '(ds, rest) := take_digits r in (d :: ds, rest)
      | None => ([], s)
      end
  | EmptyString => ([], EmptyString)
  end.

Definition decimal (ds : list Z) : Z := foldl (fun acc d => acc * 10 + d)%Z 0%Z ds.

(** The integer part: [0], or a digit from 1 to 9 and more digits. *)
Definition int_part (s : string) : option (list Z * string) :=
  match s with
  | String c r =>
      match PyInt.digit c with
      | Some 0%Z => Some ([0%Z], r)
      | Some d => let '(ds, rest) := take_digits r in Some (d :: ds, rest)
      | None => None
      end
  | EmptyString => None
  end.

(** [.digits], when at least one digit follows the point. *)
Definition frac_part (s : string) : option (list Z * string) :=
  match s with
  | String "." r =>
      match take_digits r with
      | ([], _) => None
      | (ds, rest) => Some (ds, rest)
      end
  | _ => None
  end.

(** [e], an optional sign, and at least one digit. *)
Definition exp_part (s : string) : option (Z * string) :=
  match s with
  | String c r =>
      if Ascii.eqb c "e" || Ascii.eqb c "E" then
        let '(neg, r1) :=
          match r with
          | String "-" r' => (true, r')
          | String "+" r' => (false, r')
          | _ => (false, r)
          end in
        match take_digits r1 with
        | ([], _) => None
        | (ds, rest) => Some (if neg then (- decimal ds)%Z else decimal ds, rest)
        end
      else None
  | EmptyString => None
  end.

(** A number at the head of [s]: an [int] without fraction and exponent,
    a [float] otherwise. *)
Definition number (s : string) : option (json * string) :=
  let '(neg, s1) :=
    match s with String "-" r => (true, r) | _ => (false, s) end in
  let sign (n : Z) : Z := if neg then (- n)%Z else n in
  match int_part s1 with
  | None => None
  | Some (ids, s2) =>
      match frac_part s2, exp_part (match frac_part s2 with
                                    | Some (_, s3) => s3 | None => s2 end) with
      | None, None => Some (JInt (sign (decimal ids)), s2)
      | Some (fds, s3), None =>
          Some (JFloat (FNum (sign (decimal (ids ++ fds)%list))
                             (- Z.of_nat (List.length fds))), s3)
      | None, Some (e, s4) =>
          Some (JFloat (FNum (sign (decimal ids)) e), s4)
      | Some (fds, _), Some (e, s4) =>
          Some (JFloat (FNum (sign (decimal (ids ++ fds)%list))
                             (e - Z.of_nat (List.length fds))), s4)
      end
  end.

(** The names and constants that are not numbers. *)
Definition constant (s : string) : option (json * string) :=
  match strip_prefix "null" s with
  | Some r => Some (JNull, r)
  | None =>
  match strip_prefix "true" s with
  | Some r => Some (JBool true, r)
  | None =>
  match strip_prefix "false" s with
  | Some r => Some (JBool false, r)
  | None =>
  match number s with
  | Some p => Some p
  | None =>
  match strip_prefix "NaN" s with
  | Some r => Some (JFloat FNaN, r)
  | None =>
  match strip_prefix "Infinity" s with
  | Some r => Some (JFloat (FInf false), r)
  | None =>
  match strip_prefix "-Infinity" s with
  | Some r => Some (JFloat (FInf true), r)
  | None => None
  end end end end end end end.

(** One value at the head of [s] ([scan_once]); [members] and [elements]
    read the rest of an object after a key's opening quote, and of an
    array, with the pairs and items read so far in reverse. *)
Fixpoint value (fuel : nat) (s : string) : result (json * string) :=
  match fuel with
  | O => inl (err "nesting too deep")
  | S fuel =>
      match s with
      | EmptyString => inl (err "Expecting value")
      | String c r =>
          if Ascii.eqb c dquote then
            match scanstring r with
            | inr (str, rest) => inr (JStr str, rest)
            | inl e => inl e
            end
          else if Ascii.eqb c "{" then
            match skip_ws r with
            | String c' r' =>
                if Ascii.eqb c' "}" then inr (JObj [], r')
                else if Ascii.eqb c' dquote then members fuel r' []
                else inl (err "Expecting property name enclosed in double quotes")
            | EmptyString =>
                inl (err "Expecting property name enclosed in double quotes")
            end
          else if Ascii.eqb c "[" then
            match skip_ws r with
            | String "]" r' => inr (JArr [], r')
            | r' => elements fuel r' []
            end
          else
            match constant s with
            | Some p => inr p
            | None => inl (err "Expecting value")
            end
      end
  end
with members (fuel : nat) (s : string) (acc : list (string * json))
    : result (json * string) :=
  match fuel with
  | O => inl (err "nesting too deep")
  | S fuel =>
      match scanstring s with
      | inl e => inl e
      | inr (key, s1) =>
          match skip_ws s1 with
          | String ":" s2 =>
              match value fuel (skip_ws s2) with
              | inl e => inl e
              | inr (v, s3) =>
                  match skip_ws s3 with
                  | String "}" s4 => inr (JObj (rev ((key, v) :: acc)), s4)
                  | String "," s4 =>
                      match skip_ws s4 with
                      | String c s5 =>
                          if Ascii.eqb c dquote
                          then members fuel s5 ((key, v) :: acc)
                          else inl (err "Expecting property name enclosed in double quotes")
                      | EmptyString =>
                          inl (err "Expecting property name enclosed in double quotes")
                      end
                  | _ => inl (err "Expecting ',' delimiter")
                  end
              end
          | _ => inl (err "Expecting ':' delimiter")
          end
      end
  end
with elements (fuel : nat) (s : string) (acc : list json)
    : result (json * string) :=
  match fuel with
  | O => inl (err "nesting too deep")
  | S fuel =>
      match value fuel s with
      | inl e => inl e
      | inr (v, s1) =>
          match skip_ws s1 with
          | String "]" s2 => inr (JArr (rev (v :: acc)), s2)
          | String "," s2 => elements fuel (skip_ws s2) (v :: acc)
          | _ => inl (err "Expecting ',' delimiter")
          end
      end
  end.

(** [json.loads(s)]: one value, white space around it, nothing else. *)
Definition loads (s : string) : result json :=
  match value (2 * String.length s + 2) (skip_ws s) with
  | inl e => inl e
  | inr (v, rest) =>
      match skip_ws rest with
      | EmptyString => inr v
      | _ => inl (err "Extra data")
      end
  end.

End Json.

(** [base64.b64encode], as text. *)
Module Base64.

Definition alphabet : string :=
  "ABCDEFGHIJKLMNOPQRSTUVWXYZabcdefghijklmnopqrstuvwxyz0123456789+/".

Definition sextet (n : N) : ascii :=
  default "="%char (String.get (N.to_nat (n mod 64)) alphabet).

Fixpoint encode_N (bs : list N) : string :=
  match bs with
  | [] => EmptyString
  | [a] =>
      let n := (a * 16)%N in
      String (sextet (n / 64)) (String (sextet n) "==")
  | [a; b] =>
      let n := ((a * 256 + b) * 4)%N in
      String (sextet (n / 4096)) (String (sextet (n / 64)) (String (sextet n) "="))
  | a :: b :: c :: r =>
      let n := ((a * 256 + b) * 256 + c)%N in
      String (sextet (n / 262144))
        (String (sextet (n / 4096))
           (String (sextet (n / 64)) (String (sextet n) (encode_N r))))
  end.

Definition encode (bs : bytes) : string := encode_N (map Byte.to_N bs).

End Base64.

(** [bytes.decode("utf-8", errors="ignore")] onto the 8-bit alphabet:
    ASCII bytes and the two-byte sequences of U+0080 to U+00FF are
    decoded; every other byte is left out. (A well-formed sequence of a
    character above U+00FF is outside the alphabet of this model.) *)
Fixpoint utf8_to_latin1 (bs : list N) : string :=
  match bs with
  | [] => EmptyString
  | a :: r =>
      if (a <? 128)%N then String (Ascii.ascii_of_N a) (utf8_to_latin1 r)
      else
        match r with
        | b :: r' =>
            if ((a =? 194) || (a =? 195))%N && (128 <=? b)%N && (b <? 192)%N
            then String (Ascii.ascii_of_N ((a - 192) * 64 + (b - 128)))
                        (utf8_to_latin1 r')
            else utf8_to_latin1 r
        | [] => EmptyString
        end
  end.

(** URL handling for the examples: absolute references and references
    that start with a slash. Dot segments, queries without a path and
    bracketed hosts are not treated. *)
Module Url.

(** The index at which the authority of [scheme://authority...] ends. *)
Definition after_scheme (u : string) : option Z :=
  let i := PyStr.find u ":" in
  if (0 <? i)%Z && PyStr.startswith (PyStr.slice u i (PyStr.len u)) "://"
  then Some (i + 3)%Z else None.

(** The lowest index from [i] on at which one of [cs] occurs, or the
    length of [u]. *)
Definition find_any (u : string) (cs : list ascii) (i : Z) : Z :=
  let rest := PyStr.slice u i (PyStr.len u) in
  foldr (fun c best =>
           let k := PyStr.find rest c in
           if (k =? -1)%Z then best else Z.min best (i + k))
        (PyStr.len u) cs.

(** [urlparse(u).path] *)
Definition path (u : string) : result string :=
  let start :=
    match after_scheme u with
    | Some i => find_any u ["/"; "?"; "#"]%char i
    | None => 0%Z
    end in
  inr (PyStr.slice u start (find_any u ["?"; "#"; ";"]%char start)).

(** [urljoin(base, ref)] *)
Definition join (base ref : string) : result string :=
  match after_scheme ref with
  | Some _ => inr ref
  | None =>
      match after_scheme base with
      | None => inr ref
      | Some i =>
          let root := find_any base ["/"; "?"; "#"]%char i in
          if PyStr.startswith ref "/" then inr (PyStr.slice base 0 root +:+ ref)
          else
            let stop := find_any base ["?"; "#"]%char root in
            let dir := PyStr.rfind (PyStr.slice base root stop) "/" in
            inr (PyStr.slice base 0 (root + dir + 1) +:+
                 (if (dir =? -1)%Z then "/" else EmptyString) +:+ ref)
      end
  end.

End Url.

Definition py_lib : Lib := {|
  json_loads := Json.loads;
  urljoin := Url.join;
  urlparse_path := Url.path;
  utf8_decode_ignore := fun bs => utf8_to_latin1 (map Byte.to_N bs);
  b64encode := Base64.encode;
|}.

(** The double quote, for writing JSON text. *)
Definition quote : string := String Json.dquote EmptyString.


(* ===================================================================== *)
(** * Vocabulary of the properties *)
(* ===================================================================== *)

(** The reply of the submitter example of the specification: the answer
    "blue", to be sent to https://x/test, without a payload. *)
Definition reply_blue : string :=
  "{" +:+ quote +:+ "answer" +:+ quote +:+ ": " +:+ quote +:+ "blue" +:+ quote
  +:+ ", " +:+ quote +:+ "submit_url" +:+ quote +:+ ": "
  +:+ quote +:+ "https://x/test" +:+ quote +:+ ", "
  +:+ quote +:+ "payload" +:+ quote +:+ ": null}".

(** The raw text has an opening brace and, later, a closing brace. *)
Definition has_json_span (raw : string) : Prop :=
  exists i j : nat,
    (i < j)%nat /\ String.get i raw = Some "{"%char
    /\ String.get j raw = Some "}"%char.

(** The reply of the parser example of the specification. *)
Definition reply_example : string :=
  "Sure, here you go: {" +:+ quote +:+ "answer" +:+ quote +:+ ": 42, "
  +:+ quote +:+ "submit_url" +:+ quote +:+ ": null, "
  +:+ quote +:+ "payload" +:+ quote +:+ ": null}"
  +:+ String newline "Thanks".

(** [m] only adds to the trace, and what it adds satisfies [P]. *)
Definition logs {A} (P : event -> Prop) (m : M A) : Prop :=
  forall s, exists evs,
    st_trace (m s).2 = (st_trace s ++ evs)%list /\ Forall P evs.

Definition is_goto (ev : event) : Prop :=
  match ev with EvGoto _ _ _ => True | _ => False end.

Definition is_download (ev : event) : Prop :=
  match ev with EvHttpGet _ | EvReadBody _ => True | _ => False end.

(** The URL that an anchor makes the collector download, if any: its
    href is not empty, resolves against the page URL, and the lower-cased
    path of the result ends in a recognised extension. *)
Definition link_target (lib : Lib) (url : string) (a : result (option string))
    : option string :=
  match a with
  | inr (Some href) =>
      if str_truthy href then
        match urljoin lib url href with
        | inr full =>
            match urlparse_path lib full with
            | inr path0 =>
                if is_candidate (PyStr.lower path0) then Some full else None
            | inl _ => None
            end
        | inl _ => None
        end
      else None
  | _ => None
  end.

(** A payload once the caller's identity is written into it
    (main.py, lines 256-257). *)
Definition with_identity (email secret : val) (d : gmap string val)
    : gmap string val :=
  <["secret" := secret]> (<["email" := email]> d).

(** The payload that is made up from the answer (main.py, line 254). *)
Definition synthesized (email secret answer : val) : gmap string val :=
  dict_of_pairs [("email", email); ("secret", secret); ("answer", answer)].

(** A payload once the attachment, when there is one, is added
    (main.py, lines 266-268); [h] is the heap in which the attachment is
    tested. *)
Definition with_attachment (h : heap) (attach_b64 : val) (d : gmap string val)
    : gmap string val :=
  if truthy h attach_b64 then <["attachment_base64" := attach_b64]> d else d.

(** The events that are a POST whose body carries the caller's email and
    secret. *)
Definition posts_identity (email secret : val) (ev : event) : Prop :=
  exists url lp h d,
    ev = EvHttpPost url (VRef lp) h /\ h !! lp = Some (ODict d)
    /\ d !! "email" = Some email /\ d !! "secret" = Some secret.

(** The body of the response of a submission (main.py, lines 274-284). *)
Definition submission_body (resp_json : val) (status : Z)
    (submit_url solution : val) : list (string * val) :=
  [("submit_response", resp_json); ("submit_status", VInt status);
   ("submit_url", submit_url); ("model_solution", solution)].

(** The ways in which the body of the [try] of
    [call_gemini_for_solution] raises [e]: the backend call fails (network
    or backend error), the response has a shape whose probing raises or
    that yields no text, or the text does not decode. *)
Inductive reasoning_failure (lib : Lib) (w : World) (req : reasoning_request)
    (e : exn) : Prop :=
  | backend_raises :
      generate_content w req = inl e -> reasoning_failure lib w req e
  | shape_raises resp :
      generate_content w req = inr resp ->
      _extract_text_from_gemini_response resp = inl e ->
      reasoning_failure lib w req e
  | shape_without_text resp out :
      generate_content w req = inr resp ->
      _extract_text_from_gemini_response resp = inr out ->
      as_str out = inl e ->
      reasoning_failure lib w req e
  | decode_fails resp raw :
      generate_content w req = inr resp ->
      _extract_text_from_gemini_response resp = inr (PStr raw) ->
      json_loads lib (json_span raw) = inl e ->
      reasoning_failure lib w req e.

(** A decoded document that is not an object. *)
Definition not_object (j : json) : Prop :=
  match j with JObj _ => False | _ => True end.

(** A world for the examples: the page of [https://x/quiz] goes idle
    only after the time limit, has a body, and links to a PDF that
    declares six million bytes, to a CSV file of three bytes, and to an
    archive; the model answers [reply]; the submission endpoint accepts. *)
Definition example_world (reply : string) : World := {|
  request_get_json :=
    inr (JObj [("email", JStr "a@b.com"); ("secret", JStr "s");
               ("url", JStr "https://x/quiz")]);
  QUIZ_SECRET := Some "s";
  pw_new_page := None;
  pw_goto := fun _ wu _ =>
    match wu with
    | NetworkIdle => Some (Exn PWTimeout "Timeout 30000ms exceeded")
    | Load => None
    end;
  pw_content := inr "<html><body>quiz</body></html>";
  pw_query_body := inr true;
  pw_inner_text_body := inr "quiz";
  pw_anchors :=
    inr [inr None; inl (Exn PWError "Element is not attached");
         inr (Some "/about"); inr (Some "/f/big.pdf");
         inr (Some "/f/data.CSV"); inr (Some "/f/other.zip")];
  pw_close := None;
  requests_get := fun u =>
    if String.eqb u "https://x/f/big.pdf"
    then inr (HttpResponse 200 (Some "6000000") None (inr []))
    else inr (HttpResponse 200 None (Some "text/csv")
                           (inr [Byte.x61; Byte.x2c; Byte.x62]));
  builtin_int := PyInt.of_str;
  requests_post := fun _ _ _ =>
    inr (PostResponse 200 (inr (JObj [("correct", JBool true)])) "{}");
  tmp_write := fun _ => None;
  pdf_open := fun _ => inr [inr (Some "page one"); inr None; inr (Some "page three")];
  generate_content := fun _ =>
    inr (SdkResponse (Value (PStr reply)) Absent Absent (inr "response"));
|}.

(** A success status, as the specification has it: 2xx. *)
Definition http_success_status (status : Z) : bool :=
  ((200 <=? status) && (status <? 300))%Z.

(** The world [w] with another answer to every GET. *)
Definition with_get (w : World) (get : string -> result http_response)
    : World := {|
  request_get_json := request_get_json w;
  QUIZ_SECRET := QUIZ_SECRET w;
  pw_new_page := pw_new_page w;
  pw_goto := pw_goto w;
  pw_content := pw_content w;
  pw_query_body := pw_query_body w;
  pw_inner_text_body := pw_inner_text_body w;
  pw_anchors := pw_anchors w;
  pw_close := pw_close w;
  requests_get := get;
  builtin_int := builtin_int w;
  requests_post := requests_post w;
  tmp_write := tmp_write w;
  pdf_open := pdf_open w;
  generate_content := generate_content w;
|}.


(** A server that answers every GET with 304 Not Modified and a body of
    one byte. *)
Definition not_modified_world : World :=
  with_get (example_world reply_blue)
           (fun _ => inr (HttpResponse 304 None None (inr [Byte.x61]))).




(** An instruction of the model that carries a payload of its own, with
    identity fields it made up, and no submit_url. *)
Definition instruction_with_payload : json :=
  JObj [("answer", JStr "blue");
        ("payload", JObj [("email", JStr "model@guess"); ("secret", JStr "?");
                          ("answer", JStr "blue")]);
        ("submit_url", JNull)].

(** The state once that instruction is in the heap: the payload at 0,
    the solution at 1. *)
Definition with_instruction : state :=
  (load_json instruction_with_payload initial).2.

(** The entry collected in the example world. *)
Definition example_entry : file_entry :=
  FileEntry "data.csv" [Byte.x61; Byte.x2c; Byte.x62] (Some "a,b") true.

(** Induction over a document and the documents inside it. *)
Section JsonInd.

Context (P : json -> Prop).
Context (HNull : P JNull) (HBool : forall b, P (JBool b))
        (HInt : forall n, P (JInt n)) (HFloat : forall f, P (JFloat f))
        (HStr : forall s, P (JStr s))
        (HArr : forall xs, Forall P xs -> P (JArr xs))
        (HObj : forall kvs, Forall (fun kv => P kv.2) kvs -> P (JObj kvs)).

Fixpoint json_nested_ind (j : json) : P j :=
  match j with
  | JNull => HNull
  | JBool b => HBool b
  | JInt n => HInt n
  | JFloat f => HFloat f
  | JStr s => HStr s
  | JArr xs =>
      HArr xs ((fix go (xs : list json) : Forall P xs :=
                  match xs with
                  | [] => @List.Forall_nil _ P
                  | x :: r => @List.Forall_cons _ P x r (json_nested_ind x) (go r)
                  end) xs)
  | JObj kvs =>
      HObj kvs ((fix go (kvs : list (string * json))
                   : Forall (fun kv => P kv.2) kvs :=
                   match kvs with
                   | [] => @List.Forall_nil _ (fun kv => P kv.2)
                   | kv :: r =>
                       @List.Forall_cons _ (fun kv => P kv.2) kv r
                                    (json_nested_ind kv.2) (go r)
                   end) kvs)
  end.

End JsonInd.


(* ===================================================================== *)
(** * Vocabulary of the further properties *)
(* ===================================================================== *)

(** [p] is what [s] starts with, and it has at most [n] characters. *)
Definition excerpt_of (n : Z) (s p : string) : Prop :=
  (exists rest, s = p +:+ rest) /\ (PyStr.len p <= n)%Z
  /\ ((PyStr.len s <= n)%Z -> p = s).

(** What [files_info] says of one collected file. *)
Definition describes (lib : Lib) (f : file_entry) (i : file_info) : Prop :=
  info_filename i = filename f
  /\ match info_preview i with
     | TextPreview p =>
         is_text f = true /\ excerpt_of 5000 (opt_or (file_text f) EmptyString) p
     | Base64 p =>
         is_text f = false /\ excerpt_of 10000 (b64encode lib (file_bytes f)) p
     end.

(** What the data model asks of a collected resource: a name, bytes
    within the cap of the downloader, and a text exactly when it is
    marked as text. *)
Definition well_formed_entry (f : file_entry) : Prop :=
  filename f <> EmptyString
  /\ (Z.of_nat (length (file_bytes f)) <= 5000000)%Z
  /\ (is_text f = true <-> file_text f <> None).

(** The event is the GET, or the read of the body, of the target of one
    of the anchors. *)
Definition fetches_target (lib : Lib) (url : string)
    (anchors : list (result (option string))) (ev : event) : Prop :=
  exists a full,
    a ∈ anchors /\ link_target lib url a = Some full
    /\ (ev = EvHttpGet full \/ ev = EvReadBody full).

(** The keys that the handler writes into a payload. *)
Definition written_keys : list string :=
  ["email"; "secret"; "attachment_base64"].

(** The body that is posted for a payload [dp] of the model, in the heap
    [h]: the identity fields are written first, the attachment of the
    solution [d], when it has one, after them. *)
Definition posted_body (email secret : val) (h : heap) (lp : loc)
    (d dp : gmap string val) : gmap string val :=
  with_attachment (<[lp := ODict (with_identity email secret dp)]> h)
                  (dict_get d "attachment_base64")
                  (with_identity email secret dp).

(** The dict that stands for a reply of the submission endpoint that is
    not JSON (main.py, line 273). *)
Definition raw_reply (resp : post_response) : gmap string val :=
  dict_of_pairs [("status_code", VInt (post_status_code resp));
                 ("text", VStr (post_text resp))].

(** The value that a Python dict built from the pairs holds for a key:
    that of the last pair with the key. *)
Fixpoint last_value {A} (kvs : list (string * A)) (k : string) : option A :=
  match kvs with
  | [] => None
  | (k', x) :: r =>
      match last_value r k with
      | Some y => Some y
      | None => if String.eqb k' k then Some x else None
      end
  end.

(** The Python value of a document that is not a list or an object. *)
Definition json_scalar (j : json) : option val :=
  match j with
  | JNull => Some VNone
  | JBool b => Some (VBool b)
  | JInt n => Some (VInt n)
  | JFloat f => Some (VFloat f)
  | JStr s => Some (VStr s)
  | JArr _ | JObj _ => None
  end.

(** [bool(x)] for a decoded document. *)
Definition json_truthy (j : json) : bool :=
  match j with
  | JNull => false
  | JBool b => b
  | JInt n => negb (n =? 0)%Z
  | JFloat f => float_truthy f
  | JStr s => str_truthy s
  | JArr xs => match xs with [] => false | _ => true end
  | JObj kvs => match kvs with [] => false | _ => true end
  end.

(** [bool(d.get(k))] for a field of a request. *)
Definition field_truthy (kvs : list (string * json)) (k : string) : bool :=
  match last_value kvs k with Some x => json_truthy x | None => false end.

(** Whether the secret of a request is the configured one: the same
    string, or no secret (absent or null) when none is configured. *)
Definition request_secret_ok (kvs : list (string * json))
    (expected : option string) : bool :=
  match last_value kvs "secret", expected with
  | Some (JStr s), Some q => String.eqb s q
  | None, None | Some JNull, None => true
  | _, _ => false
  end.

(** The value [v] stands in the heap [h] for the document [x]. *)
Definition represents (h : heap) (v : val) (x : json) : Prop :=
  match json_scalar x with
  | Some sv => v = sv
  | None => exists l, v = VRef l /\ (l < length h)%nat
  end
  /\ truthy h v = json_truthy x.

(** What the handler answers when the request is refused. *)
Definition refusal (code : string) (status : Z) : response :=
  jsonify [("error", VStr code)] status.

(** What the handler answers when the pipeline raises. *)
Definition server_error (e : exn) : response :=
  jsonify [("error", VStr "server_error"); ("detail", VStr (str_of_exn e))] 500.

(** A response either succeeds, with status 200 and no "error" entry, or
    names its error, with status 400, 403 or 500. *)
Definition coherent_response (r : response) : Prop :=
  (resp_status r = 200%Z /\ resp_body r !! "error" = None)
  \/ (resp_status r ∈ [400%Z; 403%Z; 500%Z]
      /\ exists code, resp_body r !! "error" = Some (VStr code)).

(** The world [w] when the body of the request is [r]. *)
Definition with_request (w : World) (r : result json) : World := {|
  request_get_json := r;
  QUIZ_SECRET := QUIZ_SECRET w;
  pw_new_page := pw_new_page w;
  pw_goto := pw_goto w;
  pw_content := pw_content w;
  pw_query_body := pw_query_body w;
  pw_inner_text_body := pw_inner_text_body w;
  pw_anchors := pw_anchors w;
  pw_close := pw_close w;
  requests_get := requests_get w;
  builtin_int := builtin_int w;
  requests_post := requests_post w;
  tmp_write := tmp_write w;
  pdf_open := pdf_open w;
  generate_content := generate_content w;
|}.

(** A request with a secret that is not the configured one, and a
    request without a url. *)
Definition request_wrong_secret : list (string * json) :=
  [("email", JStr "a@b.com"); ("secret", JStr "guess");
   ("url", JStr "https://x/quiz")].

Definition request_without_url : list (string * json) :=
  [("email", JStr "a@b.com"); ("secret", JStr "s"); ("url", JStr EmptyString)].

(** An instruction of the model with a payload of its own and a
    submit_url, and the state once it is in the heap: the payload at 0,
    the solution at 1. *)
Definition instruction_to_post : json :=
  JObj [("answer", JStr "blue");
        ("payload", JObj [("answer", JStr "blue")]);
        ("submit_url", JStr "https://x/submit")].

Definition with_instruction_to_post : state :=
  (load_json instruction_to_post initial).2.

(** An instruction whose payload is a string, and the state once it is
    in the heap, at 0. *)
Definition instruction_with_text_payload : json :=
  JObj [("answer", JStr "blue"); ("payload", JStr "blue");
        ("submit_url", JStr "https://x/submit")].

Definition with_text_payload : state :=
  (load_json instruction_with_text_payload initial).2.

(** The text that one item of the output of a response gives
    (main.py, lines 79-86). *)
Definition item_text (item : pyobj) : option pyobj :=
  match item with
  | PDict d =>
      match content_text d with
      | Some t => Some t
      | None => assoc "text" d
      end
  | _ => None
  end.

Definition is_generate (ev : event) : Prop :=
  match ev with EvGenerate _ => True | _ => False end.

Definition is_post (ev : event) : Prop :=
  match ev with EvHttpPost _ _ _ => True | _ => False end.

(** The pair built for a pair of an object, as in [alloc_json]. *)
Definition alloc_pair : string * json -> heap -> (string * val) * heap :=
  fun '(k, x) h => let '(v, h1) := alloc_json x h in ((k, v), h1).

(** The response has no text of its own: the attribute is missing, its
    getter raises an AttributeError, or its value is false. *)
Definition no_direct_text (resp : sdk_response) : Prop :=
  match r_text resp with
  | Absent => True
  | Value v => pyobj_truthy v = false
  | Raises e => exn_cls e = AttributeError
  end.

(** The attribute gives nothing to look into: it is missing, or its
    getter raises. *)
Definition unreadable (a : attr) : Prop :=
  match a with Value _ => False | _ => True end.

(** [str(resp)], or the empty string when that raises
    (main.py, lines 105-108). *)
Definition str_or_empty (resp : sdk_response) : string :=
  match r_str resp with inr s => s | inl _ => EmptyString end.

(* ===================================================================== *)
(** * The definitions at work *)
(* ===================================================================== *)

Example find_first : PyStr.find "a{b{c" "{" = 1%Z.
Proof. reflexivity. Qed.

Example rfind_last : PyStr.rfind "a}b}c" "}" = 3%Z.
Proof. reflexivity. Qed.

Example find_absent : PyStr.find "abc" "{" = (-1)%Z.
Proof. reflexivity. Qed.

Example slice_negative : PyStr.slice "hello" (-3) 10 = "llo".
Proof. reflexivity. Qed.

Example basename_of_path : PyStr.basename "/files/Report.PDF" = "Report.PDF".
Proof. reflexivity. Qed.

Example basename_of_directory : PyStr.basename "/files/" = EmptyString.
Proof. reflexivity. Qed.

Example candidate_by_extension :
  map is_candidate ["/a/b.pdf"; "/a/b.xlsx"; "/a/b.txt"; "pdf"; "/a.zip/b"]
  = [true; true; false; false; false].
Proof. reflexivity. Qed.

Example span_of_braces_in_disorder : json_span "} then {" = "} then {".
Proof. reflexivity. Qed.

Example span_nested : json_span "x {a {b} c} y } z" = "{a {b} c} y }".
Proof. reflexivity. Qed.

Example int_of_header :
  (PyInt.of_str " 6_000_000 ", PyInt.of_str "-5", PyInt.of_str "007")
  = (inr 6000000%Z, inr (-5)%Z, inr 7%Z).
Proof. reflexivity. Qed.

Example int_of_garbage :
  PyInt.of_str "12 kB"
  = inl (Exn ValueError "invalid literal for int() with base 10: '12 kB'").
Proof. reflexivity. Qed.

Example int_of_separators :
  (PyInt.of_str (String (Ascii.ascii_of_nat 28) "5"),
   PyInt.of_str (String (Ascii.ascii_of_nat 160) "5"),
   PyInt.of_str "1__0", PyInt.of_str "+ 5")
  = (inl (Exn ValueError "invalid literal for int() with base 10: '\x1c5'"),
     inr 5%Z,
     inl (Exn ValueError "invalid literal for int() with base 10: '1__0'"),
     inl (Exn ValueError "invalid literal for int() with base 10: '+ 5'")).
Proof. reflexivity. Qed.

Example loads_nested :
  Json.loads (" [1, -2.50e3, true, null, {" +:+ quote +:+ "k" +:+ quote
              +:+ ": []}] ")
  = inr (JArr [JInt 1; JFloat (FNum (-250) 1); JBool true; JNull;
               JObj [("k", JArr [])]]).
Proof. reflexivity. Qed.

Example loads_rejects :
  map Json.loads ["01"; "[1,]"; "{"; "nul"; "1."; EmptyString]
  = map (fun msg => inl (Json.err msg))
        ["Extra data"; "Expecting value";
         "Expecting property name enclosed in double quotes";
         "Expecting value"; "Extra data"; "Expecting value"].
Proof. reflexivity. Qed.

Example base64_vectors :
  map Base64.encode [[Byte.x4d; Byte.x61; Byte.x6e]; [Byte.x4d; Byte.x61];
                     [Byte.x4d]; []]
  = ["TWFu"; "TWE="; "TQ=="; EmptyString].
Proof. reflexivity. Qed.

Example url_resolution :
  (Url.join "https://x/quiz?id=1" "/f/data.CSV", Url.path "https://x/f/data.CSV?v=2")
  = (inr "https://x/f/data.CSV", inr "/f/data.CSV").
Proof. reflexivity. Qed.

(** A later pair wins, as in a Python dict. *)
Example dict_of_duplicate_keys :
  dict_of_pairs [("k", VInt 1); ("k", VInt 2)] !! "k" = Some (VInt 2).
Proof. reflexivity. Qed.

(** The text of a response is taken from [text], else from [output],
    else from [generations], else from [str]. *)
Example extract_text_order :
  map _extract_text_from_gemini_response
      [SdkResponse (Value (PStr "direct")) (Value (PList [PDict [("text", PStr "o")]]))
                   Absent (inr "s");
       SdkResponse (Value (PStr EmptyString))
                   (Value (PList [PInt 3;
                                  PDict [("content", PList [PDict [("text", PStr "nested")]]);
                                         ("text", PStr "flat")]]))
                   Absent (inr "s");
       SdkResponse Absent (Value (PDict [("content", PList [])]))
                   (Value (PList [PInstance [("text", PStr "legacy")]])) (inr "s");
       SdkResponse (Raises (Exn AttributeError "no text")) Absent Absent (inr "s");
       SdkResponse Absent Absent Absent (inl (Exn OtherError "repr"))]
  = [inr (PStr "direct"); inr (PStr "nested"); inr (PStr "legacy");
     inr (PStr "s"); inr (PStr EmptyString)].
Proof. reflexivity. Qed.

Example extract_text_raises :
  _extract_text_from_gemini_response
    (SdkResponse (Raises (Exn ValueError "blocked")) Absent Absent (inr "s"))
  = inl (Exn ValueError "blocked").
Proof. reflexivity. Qed.

(** A request from end to end: the answer is posted and the reply of the
    endpoint comes back with status 200. *)
Example quiz_endpoint_submits :
  (quiz_endpoint py_lib (example_world reply_blue) initial).1
  = inr (jsonify (submission_body (VRef 3) 200 (VStr "https://x/test") (VRef 1))
                 200).
Proof. vm_compute. reflexivity. Qed.

(** A request with the wrong secret is turned away at the door. *)
Example quiz_endpoint_wrong_secret :
  quiz_endpoint py_lib
    {| request_get_json :=
         inr (JObj [("email", JStr "a@b.com"); ("secret", JStr "guess");
                    ("url", JStr "https://x/quiz")]);
       QUIZ_SECRET := Some "s";
       pw_new_page := None; pw_goto := fun _ _ _ => None;
       pw_content := inr EmptyString; pw_query_body := inr false;
       pw_inner_text_body := inr EmptyString; pw_anchors := inr [];
       pw_close := None;
       requests_get := fun _ => inl (Exn RequestException "unreachable");
       builtin_int := PyInt.of_str;
       requests_post := fun _ _ _ => inl (Exn RequestException "unreachable");
       tmp_write := fun _ => None; pdf_open := fun _ => inr [];
       generate_content := fun _ => inl (Exn OtherError "unreachable") |}
    initial
  = (inr (jsonify [("error", VStr "invalid_secret")] 403),
     State [ODict (dict_of_pairs [("email", VStr "a@b.com");
                                  ("secret", VStr "guess");
                                  ("url", VStr "https://x/quiz")])] []).
Proof. vm_compute. reflexivity. Qed.
(* ===================================================================== *)
(** * Facts about strings *)
(* ===================================================================== *)

Section StringFacts.

Implicit Types (s pre mid post : string) (c : ascii).

Lemma app_cons c s t : String c s +:+ t = String c (s +:+ t).
Proof. reflexivity. Qed.

Lemma app_nil s : EmptyString +:+ s = s.
Proof. reflexivity. Qed.

Lemma len_nonneg s : (0 <= PyStr.len s)%Z.
Proof. unfold PyStr.len. lia. Qed.

Lemma length_app_str s t :
  String.length (s +:+ t) = (String.length s + String.length t)%nat.
Proof.
  induction s as [|a s IH]; [done |].
  rewrite app_cons. cbn [String.length]. by rewrite IH.
Qed.

Lemma len_app s t : PyStr.len (s +:+ t) = (PyStr.len s + PyStr.len t)%Z.
Proof. unfold PyStr.len. rewrite length_app_str. lia. Qed.

Lemma len_cons c s : PyStr.len (String c s) = (1 + PyStr.len s)%Z.
Proof. unfold PyStr.len. cbn [String.length]. lia. Qed.

Lemma app_assoc_str s t u : (s +:+ t) +:+ u = s +:+ (t +:+ u).
Proof.
  induction s as [|a s IH]; [done |]. rewrite !app_cons. by rewrite IH.
Qed.

Lemma len_empty : PyStr.len EmptyString = 0%Z.
Proof. reflexivity. Qed.

Lemma mem_app c s t : PyStr.mem c (s +:+ t) = PyStr.mem c s || PyStr.mem c t.
Proof.
  induction s as [|a s IH]; [done |].
  rewrite app_cons. cbn [PyStr.mem]. rewrite IH. by rewrite orb_assoc.
Qed.

(** [find]: either the character does not occur, or the string splits at
    its first occurrence. *)
Lemma find_from_spec c s i :
  (0 <= i)%Z ->
  (PyStr.find_from c s i = (-1)%Z /\ PyStr.mem c s = false)
  \/ (exists pre post,
        s = pre +:+ String c post /\ PyStr.mem c pre = false
        /\ PyStr.find_from c s i = (i + PyStr.len pre)%Z).
Proof.
  revert i. induction s as [|a s IH]; intros i Hi; cbn [PyStr.find_from PyStr.mem].
  - by left.
  - destruct (Ascii.eqb a c) eqn:E.
    + apply Ascii.eqb_eq in E as ->. right. exists EmptyString, s.
      rewrite len_empty. split_and!; [done | done | lia].
    + destruct (IH (i + 1)%Z ltac:(lia))
        as [[H1 H2] | (pre & post & -> & H2 & H3)].
      * left. by rewrite H1, H2.
      * right. exists (String a pre), post.
        cbn [PyStr.mem]. rewrite E, H2, H3, len_cons.
        split_and!; [done | done | lia].
Qed.

(** [rfind]: either the character does not occur, or the string splits at
    its last occurrence. *)
Lemma rfind_from_spec c s i :
  (0 <= i)%Z ->
  (PyStr.rfind_from c s i = (-1)%Z /\ PyStr.mem c s = false)
  \/ (exists pre post,
        s = pre +:+ String c post /\ PyStr.mem c post = false
        /\ PyStr.rfind_from c s i = (i + PyStr.len pre)%Z).
Proof.
  revert i. induction s as [|a s IH]; intros i Hi; cbn [PyStr.rfind_from PyStr.mem].
  - by left.
  - cbv zeta.
    destruct (IH (i + 1)%Z ltac:(lia))
      as [[H1 H2] | (pre & post & -> & H2 & H3)].
    + rewrite H1, H2. rewrite Z.eqb_refl. destruct (Ascii.eqb a c) eqn:E.
      * apply Ascii.eqb_eq in E as ->. right. exists EmptyString, s.
        rewrite len_empty. split_and!; [done | done | lia].
      * by left.
    + right. exists (String a pre), post. rewrite H3.
      pose proof (len_nonneg pre).
      destruct (Z.eqb_spec (i + 1 + PyStr.len pre) (-1)); [lia |].
      rewrite len_cons. split_and!; [done | done | lia].
Qed.

Lemma substring_all s : String.substring 0 (String.length s) s = s.
Proof.
  induction s as [|a s IH]; [done |].
  cbn [String.length String.substring]. by rewrite IH.
Qed.

Lemma substring_prefix mid post :
  String.substring 0 (String.length mid) (mid +:+ post) = mid.
Proof.
  induction mid as [|b mid IH].
  - rewrite app_nil. by destruct post.
  - rewrite app_cons. cbn [String.length String.substring]. by rewrite IH.
Qed.

Lemma substring_middle pre mid post :
  String.substring (String.length pre) (String.length mid)
                   (pre +:+ mid +:+ post) = mid.
Proof.
  induction pre as [|a pre IH].
  - rewrite app_nil. apply substring_prefix.
  - rewrite app_cons. cbn [String.length String.substring]. apply IH.
Qed.

(** A slice by the lengths of the parts of a string is the middle part. *)
Lemma slice_middle pre mid post :
  PyStr.slice (pre +:+ mid +:+ post) (PyStr.len pre) (PyStr.len pre + PyStr.len mid)
  = mid.
Proof.
  unfold PyStr.slice, PyStr.clamp. rewrite !len_app.
  pose proof (len_nonneg pre). pose proof (len_nonneg mid).
  pose proof (len_nonneg post).
  destruct (Z.ltb_spec (PyStr.len pre) 0); [lia |].
  destruct (Z.ltb_spec (PyStr.len pre + PyStr.len mid) 0); [lia |].
  rewrite !Z.min_l by lia.
  replace (Z.to_nat (PyStr.len pre)) with (String.length pre)
    by (unfold PyStr.len; lia).
  replace (Z.to_nat (PyStr.len pre + PyStr.len mid - PyStr.len pre))
    with (String.length mid) by (unfold PyStr.len; lia).
  apply substring_middle.
Qed.

(** Two splittings of one string: the shorter prefix is a prefix of the
    longer one. *)
Lemma app_eq_split s1 t1 s2 t2 :
  s1 +:+ t1 = s2 +:+ t2 -> (String.length s1 < String.length s2)%nat ->
  exists m, s2 = s1 +:+ m /\ t1 = m +:+ t2 /\ m <> EmptyString.
Proof.
  revert s2. induction s1 as [|a s1 IH]; intros s2 Heq Hlt.
  - rewrite app_nil in Heq. exists s2. split_and!; [done | done |].
    destruct s2; [cbn in Hlt; lia | done].
  - destruct s2 as [|b s2]; [cbn in Hlt; lia |].
    rewrite !app_cons in Heq. injection Heq as -> Heq.
    cbn [String.length] in Hlt.
    destruct (IH s2 Heq ltac:(lia)) as (m & -> & -> & Hm).
    by exists m.
Qed.

Lemma get_app_l s t i :
  (i < String.length s)%nat -> String.get i (s +:+ t) = String.get i s.
Proof. intros H. symmetry. by apply String.append_correct1. Qed.

Lemma get_app_here s c t : String.get (String.length s) (s +:+ String c t) = Some c.
Proof.
  induction s as [|a s IH]; [done |]. rewrite app_cons. apply IH.
Qed.

Lemma get_mem c s i : String.get i s = Some c -> PyStr.mem c s = true.
Proof.
  revert i. induction s as [|a s IH]; intros i; cbn [String.get PyStr.mem]; [done |].
  destruct i.
  - intros [= ->]. by rewrite Ascii.eqb_refl.
  - intros H. rewrite (IH _ H). by rewrite orb_true_r.
Qed.

Lemma get_some_lt s i c : String.get i s = Some c -> (i < String.length s)%nat.
Proof.
  revert i. induction s as [|a s IH]; intros i; cbn [String.get String.length]; [done |].
  destruct i; [lia |]. intros H%IH. lia.
Qed.

Lemma get_app_r s t i :
  String.get (String.length s + i) (s +:+ t) = String.get i t.
Proof.
  induction s as [|a s IH]; [done |]. rewrite app_cons. apply IH.
Qed.

End StringFacts.

(* ===================================================================== *)
(** * The response parser *)
(* ===================================================================== *)

Lemma json_span_braces raw :
  has_json_span raw ->
  exists pre mid post,
    raw = pre +:+ String "{" (mid +:+ String "}" post)
    /\ PyStr.mem "{" pre = false /\ PyStr.mem "}" post = false
    /\ json_span raw = String "{" (mid +:+ "}").
Proof.
  intros (i & j & Hij & Hi & Hj).
  unfold json_span, PyStr.find, PyStr.rfind.
  destruct (find_from_spec "{" raw 0 ltac:(lia))
    as [[_ Hno] | (pre1 & post1 & E1 & Hpre1 & ->)].
  { by rewrite (get_mem _ _ _ Hi) in Hno. }
  destruct (rfind_from_spec "}" raw 0 ltac:(lia))
    as [[_ Hno] | (pre2 & post2 & E2 & Hpost2 & ->)].
  { by rewrite (get_mem _ _ _ Hj) in Hno. }
  assert (String.length pre1 <= i)%nat as Hlo.
  { destruct (decide (i < String.length pre1)%nat) as [Hlt|]; [| lia].
    rewrite E1, get_app_l in Hi by done.
    by rewrite (get_mem _ _ _ Hi) in Hpre1. }
  assert (j <= String.length pre2)%nat as Hhi.
  { destruct (decide (String.length pre2 < j)%nat) as [Hlt|]; [| lia].
    replace j with (String.length pre2 + S (j - String.length pre2 - 1))%nat
      in Hj by lia.
    rewrite E2, get_app_r in Hj. cbn [String.get] in Hj.
    by rewrite (get_mem _ _ _ Hj) in Hpost2. }
  destruct (app_eq_split pre1 (String "{" post1) pre2 (String "}" post2))
    as (m & -> & Hm & Hne); [congruence | lia |].
  destruct m as [|x mid]; [done |].
  rewrite app_cons in Hm. injection Hm as <- ->. clear Hne.
  exists pre1, mid, post2.
  rewrite E2, app_assoc_str, app_cons. split_and!; [done | done | done |].
  rewrite !len_app, !len_cons.
  pose proof (len_nonneg pre1). pose proof (len_nonneg mid).
  destruct (Z.eqb_spec (0 + PyStr.len pre1) (-1)); [lia |].
  destruct (Z.eqb_spec (0 + (PyStr.len pre1 + (1 + PyStr.len mid))) (-1)); [lia |].
  destruct (Z.gtb_spec (0 + (PyStr.len pre1 + (1 + PyStr.len mid)))
                       (0 + PyStr.len pre1)); [| lia].
  cbn [negb andb].
  replace (String "{" (mid +:+ String "}" post2))
    with (String "{" (mid +:+ "}") +:+ post2)
    by (rewrite app_cons, app_assoc_str; done).
  replace (0 + (PyStr.len pre1 + (1 + PyStr.len mid)) + 1)%Z
    with (PyStr.len pre1 + PyStr.len (String "{" (mid +:+ "}")))%Z
    by (rewrite len_cons, len_app, len_cons, len_empty; lia).
  rewrite Z.add_0_l. apply slice_middle.
Qed.

Lemma json_span_as_is raw : ~ has_json_span raw -> json_span raw = raw.
Proof.
  intros Hno. unfold json_span, PyStr.find, PyStr.rfind.
  destruct (find_from_spec "{" raw 0 ltac:(lia))
    as [[-> _] | (pre1 & post1 & E1 & _ & ->)]; [done |].
  destruct (rfind_from_spec "}" raw 0 ltac:(lia))
    as [[-> _] | (pre2 & post2 & E2 & _ & ->)].
  { by rewrite andb_false_r. }
  destruct (Z.gtb_spec (0 + PyStr.len pre2) (0 + PyStr.len pre1)) as [Hgt|];
    [| by rewrite andb_false_r].
  destruct Hno. exists (String.length pre1), (String.length pre2).
  split_and!.
  - unfold PyStr.len in Hgt. lia.
  - rewrite E1. apply get_app_here.
  - rewrite E2. apply get_app_here.
Qed.

(** C5. When the raw output has an opening brace and a later closing
    brace, what is decoded is the text from the first opening brace to the
    last closing brace, the prose around it dropped; otherwise the raw
    text is decoded as it is; and the reply of the parser example decodes
    to the object with answer 42, submit_url null and payload null. *)
Theorem parse_reply_span (lib : Lib) (raw : string) :
  (has_json_span raw ->
   exists pre mid post,
     raw = pre +:+ String "{" (mid +:+ String "}" post)
     /\ PyStr.mem "{" pre = false /\ PyStr.mem "}" post = false
     /\ parse_reply lib raw
        = (let* solution := lift (json_loads lib (String "{" (mid +:+ "}"))) in
           load_json solution))
  /\ (~ has_json_span raw ->
      parse_reply lib raw
      = (let* solution := lift (json_loads lib raw) in load_json solution))
  /\ parse_reply py_lib reply_example initial
     = (inr (VRef 0),
        State [ODict (dict_of_pairs [("answer", VInt 42);
                                     ("submit_url", VNone);
                                     ("payload", VNone)])] []).
Proof.
  split_and!.
  - intros H. destruct (json_span_braces raw H) as (pre & mid & post & ? & ? & ? & E).
    exists pre, mid, post. unfold parse_reply. by rewrite E.
  - intros H. unfold parse_reply. by rewrite (json_span_as_is raw H).
  - vm_compute. reflexivity.
Qed.

Lemma parse_reply_span_witness :
  has_json_span reply_example
  /\ exists pre mid post,
       reply_example = pre +:+ String "{" (mid +:+ String "}" post)
       /\ PyStr.mem "{" pre = false /\ PyStr.mem "}" post = false
       /\ parse_reply py_lib reply_example
          = (let* solution :=
               lift (json_loads py_lib (String "{" (mid +:+ "}"))) in
             load_json solution).
Proof.
  assert (has_json_span reply_example) as H.
  { exists 19%nat, 69%nat. split_and!; [lia | reflexivity | reflexivity]. }
  split; [exact H |].
  exact (proj1 (parse_reply_span py_lib reply_example) H).
Defined.

(* ===================================================================== *)
(** * Facts about the monad *)
(* ===================================================================== *)

(** Unfolding the operations of the monad. *)
Ltac unfold_monad :=
  unfold bind, ret, raise, lift, lift_unit, emit, get_heap, put_heap,
         try_except, try_except_cls, alloc, load_json in *.

Section Logs.

Context {A B : Type} (P : event -> Prop).

Lemma logs_ret (a : A) : logs P (ret a).
Proof. intros s. exists []. by rewrite app_nil_r. Qed.

Lemma logs_raise (e : exn) : logs P (@raise A e).
Proof. intros s. exists []. by rewrite app_nil_r. Qed.

Lemma logs_lift (r : result A) : logs P (lift r).
Proof. intros s. exists []. by rewrite app_nil_r. Qed.

Lemma logs_bind (m : M A) (k : A -> M B) :
  logs P m -> (forall a, logs P (k a)) -> logs P (bind m k).
Proof.
  intros Hm Hk s. unfold bind. destruct (Hm s) as (evs & E & HP).
  destruct (m s) as [[e | a] s1]; cbn in *.
  - by exists evs.
  - destruct (Hk a s1) as (evs' & E' & HP').
    exists (evs ++ evs')%list. rewrite E', E, app_assoc.
    split; [done | by apply Forall_app].
Qed.

Lemma logs_try_except (m : M A) (handler : exn -> M A) :
  logs P m -> (forall e, logs P (handler e)) -> logs P (try_except m handler).
Proof.
  intros Hm Hk s. unfold try_except. destruct (Hm s) as (evs & E & HP).
  destruct (m s) as [[e | a] s1]; cbn in *.
  - destruct (Hk e s1) as (evs' & E' & HP').
    exists (evs ++ evs')%list. rewrite E', E, app_assoc.
    split; [done | by apply Forall_app].
  - by exists evs.
Qed.

Lemma logs_try_except_cls cls (m : M A) (handler : exn -> M A) :
  logs P m -> (forall e, logs P (handler e)) ->
  logs P (try_except_cls cls m handler).
Proof.
  intros Hm Hk s. unfold try_except_cls. destruct (Hm s) as (evs & E & HP).
  destruct (m s) as [[e | a] s1]; cbn in *; [| by exists evs].
  case_bool_decide; cbn; [| by exists evs].
  destruct (Hk e s1) as (evs' & E' & HP').
  exists (evs ++ evs')%list. rewrite E', E, app_assoc.
  split; [done | by apply Forall_app].
Qed.

End Logs.

Lemma logs_lift_unit P (r : option exn) : logs P (lift_unit r).
Proof. intros s. exists []. rewrite app_nil_r. by destruct r. Qed.

Lemma logs_emit (P : event -> Prop) ev : P ev -> logs P (emit ev).
Proof. intros H s. exists [ev]. split; [done | by constructor]. Qed.

Lemma logs_get_heap P : logs P get_heap.
Proof. intros s. exists []. by rewrite app_nil_r. Qed.

Lemma logs_put_heap P h : logs P (put_heap h).
Proof. intros s. exists []. by rewrite app_nil_r. Qed.

Lemma logs_alloc P o : logs P (alloc o).
Proof. intros s. exists []. by rewrite app_nil_r. Qed.

Lemma logs_load_json P j : logs P (load_json j).
Proof.
  intros s. exists []. rewrite app_nil_r. unfold load_json.
  by destruct (alloc_json j (st_heap s)).
Qed.

(** A [try] whose handler returns a value always returns a value. *)
Lemma try_except_returns {A} (m : M A) (a0 : A) (s : state) :
  exists a s', try_except m (fun _ => ret a0) s = (inr a, s').
Proof.
  unfold try_except, ret. destruct (m s) as [[e | a] s1]; eauto.
Qed.

Create HintDb logs.

#[local] Hint Resolve logs_ret logs_raise logs_lift logs_lift_unit
  logs_get_heap logs_put_heap logs_alloc logs_load_json : logs.

(** Going through a computation built from the operations above. *)
Ltac logs_step :=
  match goal with
  | |- logs _ (bind _ _) => apply logs_bind; [| intros ?]
  | |- logs _ (try_except _ _) => apply logs_try_except; [| intros ?]
  | |- logs _ (try_except_cls _ _ _) => apply logs_try_except_cls; [| intros ?]
  | |- logs _ (emit _) => apply logs_emit; cbn; done
  | |- logs _ (match ?x with _ => _ end) => destruct x
  | |- logs _ (let '(_, _) := ?x in _) => destruct x
  | |- logs _ _ => solve [auto with logs]
  end.

(* ===================================================================== *)
(** * The bounded downloader *)
(* ===================================================================== *)

Lemma declared_length_header w resp hs n :
  header_content_length resp = Some hs -> hs <> EmptyString ->
  builtin_int w hs = inr n ->
  declared_length w resp = inr n.
Proof.
  intros H1 Hne H2. unfold declared_length. rewrite H1.
  by destruct hs.
Qed.

Section Download.

Context (w : World).

(** C3. For a response to the GET of [url]: a 4xx or 5xx status fails
    with HTTPError; any other status is read like a success: a
    content-length header whose value is above the cap fails as too large
    and the body is not read; a header that is absent, or whose value is
    within the cap, with a body longer than the cap, fails as too large
    once the body is read; without a header, a body within the cap is
    returned; and the bytes of every successful download are within the
    cap. The value of a header is what [int] makes of its text. *)
Theorem download_file_limits (url : string) (max_bytes : Z) (s : state)
    (resp : http_response) :
  (0 <= max_bytes)%Z ->
  requests_get w url = inr resp ->
  (http_error_status (status_code resp) = true ->
   exists e,
     download_file w url max_bytes s
     = (inl e, State (st_heap s) (st_trace s ++ [EvHttpGet url]))
     /\ exn_cls e = HTTPError)
  /\ (http_error_status (status_code resp) = false ->
      (forall hs n,
          header_content_length resp = Some hs -> hs <> EmptyString ->
          builtin_int w hs = inr n ->
          (n > max_bytes)%Z ->
          download_file w url max_bytes s
          = (inl too_large_header,
             State (st_heap s) (st_trace s ++ [EvHttpGet url])))
      /\ (forall data,
             header_content_length resp = None
             \/ (exists hs n,
                    header_content_length resp = Some hs /\ hs <> EmptyString
                    /\ builtin_int w hs = inr n /\ (n <= max_bytes)%Z) ->
             content resp = inr data ->
             (Z.of_nat (length data) > max_bytes)%Z ->
             download_file w url max_bytes s
             = (inl too_large_body,
                State (st_heap s)
                      (st_trace s ++ [EvHttpGet url; EvReadBody url])))
      /\ (forall data,
             header_content_length resp = None ->
             content resp = inr data ->
             (Z.of_nat (length data) <= max_bytes)%Z ->
             download_file w url max_bytes s
             = (inr (data, default EmptyString (header_content_type resp)),
                State (st_heap s)
                      (st_trace s ++ [EvHttpGet url; EvReadBody url]))))
  /\ (forall data content_type s',
         download_file w url max_bytes s = (inr (data, content_type), s') ->
         (Z.of_nat (length data) <= max_bytes)%Z).
Proof.
  intros Hmax Hget. unfold download_file, raise_for_status.
  split_and!.
  - intros Hst. unfold_monad. cbn. rewrite Hget, Hst. eauto.
  - intros Hst. split_and!.
    + intros hs n Hh Hne Hn Hgt. unfold_monad. cbn. rewrite Hget, Hst.
      rewrite (declared_length_header _ _ _ _ Hh Hne Hn).
      destruct (Z.eqb_spec n 0); [lia |].
      destruct (Z.gtb_spec n max_bytes); [done | lia].
    + intros data Hh Hc Hgt. unfold_monad. cbn. rewrite Hget, Hst.
      assert (exists n, declared_length w resp = inr n /\ (n <= max_bytes)%Z)
        as (n & -> & Hn).
      { destruct Hh as [Hh | (hs & n & Hh & Hne & Hn & Hle)].
        - exists 0%Z. unfold declared_length. by rewrite Hh.
        - exists n. by rewrite (declared_length_header _ _ _ _ Hh Hne Hn). }
      destruct (Z.gtb_spec n max_bytes); [lia |]. rewrite andb_false_r.
      cbn. rewrite Hc.
      destruct (Z.gtb_spec (Z.of_nat (length data)) max_bytes); [| lia].
      by rewrite <- app_assoc.
    + intros data Hh Hc Hle. unfold_monad. cbn. rewrite Hget, Hst.
      unfold declared_length. rewrite Hh. cbn. rewrite Hc.
      destruct (Z.gtb_spec (Z.of_nat (length data)) max_bytes); [lia |].
      by rewrite <- app_assoc.
  - intros data ct s'. unfold_monad. cbn. rewrite Hget.
    destruct (http_error_status (status_code resp)); [done |].
    destruct (declared_length w resp) as [e | n]; [done |].
    destruct (negb (n =? 0)%Z && (n >? max_bytes)%Z); [done |].
    cbn. destruct (content resp) as [e | data']; [done |].
    destruct (Z.gtb_spec (Z.of_nat (length data')) max_bytes); [done |].
    intros [= <- _ _]. done.
Qed.

End Download.

(** A status that is not a success and not an error: the body is
    returned. *)
Lemma download_file_returns_not_modified :
  http_success_status 304 = false
  /\ requests_get not_modified_world "https://x/f/data.csv"
     = inr (HttpResponse 304 None None (inr [Byte.x61]))
  /\ download_file not_modified_world "https://x/f/data.csv" 5000000 initial
     = (inr ([Byte.x61], EmptyString),
        State [] [EvHttpGet "https://x/f/data.csv";
                  EvReadBody "https://x/f/data.csv"]).
Proof. split_and!; reflexivity. Qed.

Lemma download_file_limits_witness :
  (0 <= 5000000)%Z
  /\ requests_get (example_world reply_example) "https://x/f/big.pdf"
     = inr (HttpResponse 200 (Some "6000000") None (inr []))
  /\ download_file (example_world reply_example) "https://x/f/big.pdf"
                   5000000 initial
     = (inl too_large_header, State [] [EvHttpGet "https://x/f/big.pdf"]).
Proof.
  pose proof (download_file_limits (example_world reply_example)
                "https://x/f/big.pdf" 5000000 initial _
                ltac:(lia) eq_refl) as (_ & H & _).
  split_and!; [lia | reflexivity |].
  apply (proj1 (H eq_refl) "6000000" 6000000%Z);
    [reflexivity | done | reflexivity | lia].
Defined.

(* ===================================================================== *)
(** * Document-text extraction *)
(* ===================================================================== *)



Section Pdf.

Context (w : World).

(** With the temporary file written, the extraction returns a value and
    leaves the state as it is. *)
Lemma extract_text_returns (pdf_bytes : bytes) (s : state) :
  tmp_write w pdf_bytes = None ->
  exists r, extract_text_from_pdf_bytes w pdf_bytes s = (inr r, s).
Proof.
  intros Htmp. unfold extract_text_from_pdf_bytes. unfold_monad.
  rewrite Htmp. destruct (pdf_open w pdf_bytes) as [e | pages]; [eauto |].
  destruct (page_texts pages); eauto.
Qed.


End Pdf.


(* ===================================================================== *)
(** * The resource collector and the renderer *)
(* ===================================================================== *)

#[local] Arguments is_candidate : simpl never.
#[local] Arguments download_file : simpl never.
#[local] Arguments extract_text_from_pdf_bytes : simpl never.
#[local] Arguments file_entry_for : simpl never.
#[local] Arguments process_anchor : simpl never.

Section Collect.

Context (lib : Lib) (w : World).

Lemma download_file_logs url max_bytes :
  logs is_download (download_file w url max_bytes).
Proof.
  unfold download_file, raise_for_status. repeat logs_step.
Qed.

Lemma extract_text_logs P pdf_bytes :
  logs P (extract_text_from_pdf_bytes w pdf_bytes).
Proof. unfold extract_text_from_pdf_bytes. repeat logs_step. Qed.

Lemma file_entry_for_logs P path data content_type :
  logs P (file_entry_for lib w path data content_type).
Proof.
  unfold file_entry_for. repeat logs_step. apply extract_text_logs.
Qed.

Lemma process_anchor_logs url a :
  logs is_download (process_anchor lib w url a).
Proof.
  unfold process_anchor. repeat logs_step.
  - apply download_file_logs.
  - apply file_entry_for_logs.
Qed.

Lemma collect_logs url anchors :
  logs is_download (collect lib w url anchors).
Proof.
  induction anchors as [|a anchors IH]; cbn [collect]; [auto with logs |].
  apply logs_bind; [apply process_anchor_logs |].
  intros [entry |]; [auto with logs | done].
Qed.

(** An anchor never ends the scan with an exception. *)
Lemma process_anchor_returns url a s :
  exists r s', process_anchor lib w url a s = (inr r, s').
Proof. apply try_except_returns. Qed.

Lemma collect_returns url anchors s :
  exists files s',
    collect lib w url anchors s = (inr files, s') /\ (length files <= 1)%nat.
Proof.
  revert s. induction anchors as [|a anchors IH]; intros s; cbn [collect].
  - exists [], s. split; [done | cbn; lia].
  - unfold bind. destruct (process_anchor_returns url a s) as (r & s1 & ->).
    destruct r as [entry |]; [| apply IH].
    exists [entry], s1. split; [done | cbn; lia].
Qed.

(** An anchor without a target is passed over, and nothing is fetched. *)
Lemma process_anchor_no_target url a s :
  link_target lib url a = None ->
  process_anchor lib w url a s = (inr None, s).
Proof.
  unfold link_target, process_anchor. unfold_monad.
  destruct a as [e | [href |]]; cbn; [done | | done].
  destruct (str_truthy href); cbn; [| done].
  destruct (urljoin lib url href) as [e | full]; [done |].
  destruct (urlparse_path lib full) as [e | path0]; [done |].
  by destruct (is_candidate (PyStr.lower path0)).
Qed.

Lemma file_entry_for_bytes path data content_type s entry s' :
  file_entry_for lib w path data content_type s = (inr entry, s') ->
  file_bytes entry = data.
Proof.
  unfold file_entry_for. unfold_monad.
  destruct (_ || _).
  - by intros [= <- _].
  - destruct (PyStr.endswith _ ".pdf"); [| by intros [= <- _]].
    destruct (extract_text_from_pdf_bytes w data s) as [[e | t] s1];
      [done | by intros [= <- _]].
Qed.

(** What is collected for an anchor was downloaded from its target. *)
Lemma process_anchor_entry url a s entry s' :
  process_anchor lib w url a s = (inr (Some entry), s') ->
  exists full data content_type s1,
    link_target lib url a = Some full
    /\ download_file w full 5000000 s = (inr (data, content_type), s1)
    /\ file_bytes entry = data.
Proof.
  unfold link_target, process_anchor. unfold_monad.
  destruct a as [e | [href |]]; cbn; [done | | done].
  destruct (str_truthy href); cbn; [| done].
  destruct (urljoin lib url href) as [e | full]; [done |].
  destruct (urlparse_path lib full) as [e | path0]; [done |].
  destruct (is_candidate (PyStr.lower path0)); [| done].
  destruct (download_file w full 5000000 s) as [[e | [data ct]] s1] eqn:Hd;
    [done |].
  destruct (file_entry_for lib w (PyStr.lower path0) data ct s1)
    as [[e | entry'] s2] eqn:Hf; [done |].
  intros [= <- <-]. exists full, data, ct, s1.
  split_and!; [done | done |]. by eapply file_entry_for_bytes.
Qed.

(** A candidate that is downloaded is collected, provided the temporary
    file for a PDF can be written. *)
Lemma process_anchor_downloaded url a s full data content_type s1 :
  link_target lib url a = Some full ->
  download_file w full 5000000 s = (inr (data, content_type), s1) ->
  tmp_write w data = None ->
  exists entry,
    process_anchor lib w url a s = (inr (Some entry), s1)
    /\ file_bytes entry = data.
Proof.
  unfold link_target, process_anchor. unfold_monad.
  destruct a as [e | [href |]]; cbn; [done | | done].
  destruct (str_truthy href); cbn; [| done].
  destruct (urljoin lib url href) as [e | full']; [done |].
  destruct (urlparse_path lib full') as [e | path0]; [done |].
  destruct (is_candidate (PyStr.lower path0)); [| done].
  intros [= ->] Hd Htmp. rewrite Hd.
  unfold file_entry_for. unfold_monad.
  destruct (_ || _); [eauto |].
  destruct (PyStr.endswith _ ".pdf"); [| eauto].
  destruct (extract_text_returns w data s1 Htmp) as (t & ->). eauto.
Qed.

Lemma collect_no_targets url anchors s :
  Forall (fun a => link_target lib url a = None) anchors ->
  collect lib w url anchors s = (inr [], s).
Proof.
  induction 1 as [|a anchors Ha _ IH]; cbn [collect]; [done |].
  unfold bind. by rewrite (process_anchor_no_target url a s Ha).
Qed.

(** The scan goes through the anchors in order and ends at the first
    one that yields an entry: what follows it plays no part. *)
Lemma collect_stops url pre a post entry s :
  Forall (fun x => forall s0, (process_anchor lib w url x s0).1 = inr None) pre ->
  (forall s0, (process_anchor lib w url a s0).1 = inr (Some entry)) ->
  collect lib w url (pre ++ a :: post) s = collect lib w url (pre ++ [a]) s
  /\ (collect lib w url (pre ++ [a]) s).1 = inr [entry].
Proof.
  intros Hpre Ha. revert s.
  induction Hpre as [|x pre Hx _ IH]; intros s; cbn [app collect]; unfold bind.
  - specialize (Ha s). destruct (process_anchor lib w url a s) as [r s1].
    cbn in Ha. by subst r.
  - specialize (Hx s). destruct (process_anchor lib w url x s) as [r s1].
    cbn in Hx. subst r. apply IH.
Qed.

End Collect.

Section Render.

Context (lib : Lib) (w : World).

Lemma capture_logs url : logs is_download (capture lib w url).
Proof. unfold capture. repeat logs_step. apply collect_logs. Qed.

(** When the wait for network idleness times out, the page is loaded
    once more, waiting for the load event, and navigation is over
    whatever comes of that. *)
Lemma navigate_timeout url timeout_ms s e :
  pw_goto w url NetworkIdle timeout_ms = Some e -> exn_cls e = PWTimeout ->
  navigate w url timeout_ms s
  = (inr tt, State (st_heap s)
                   (st_trace s ++ [EvGoto url NetworkIdle timeout_ms;
                                   EvGoto url Load timeout_ms])).
Proof.
  intros Hgo Hcls. unfold navigate, goto. unfold_monad. cbn.
  rewrite Hgo. cbn. rewrite Hcls. cbn.
  rewrite <- app_assoc. by destruct (pw_goto w url Load timeout_ms).
Qed.

Lemma navigate_idle url timeout_ms s :
  pw_goto w url NetworkIdle timeout_ms = None ->
  navigate w url timeout_ms s
  = (inr tt, State (st_heap s)
                   (st_trace s ++ [EvGoto url NetworkIdle timeout_ms])).
Proof.
  intros Hgo. unfold navigate, goto. unfold_monad. cbn. by rewrite Hgo.
Qed.

(** What [capture] returns when the page can be read. *)
Lemma capture_readable url s html has_body text anchors :
  pw_content w = inr html -> pw_query_body w = inr has_body ->
  (has_body = true -> pw_inner_text_body w = inr text) ->
  pw_anchors w = inr anchors -> pw_close w = None ->
  exists files s',
    collect lib w url anchors s = (inr files, s')
    /\ capture lib w url s
       = (inr (PageData html (if has_body then text else EmptyString) files), s').
Proof.
  intros Hc Hb Ht Ha Hcl.
  destruct (collect_returns lib w url anchors s) as (files & s' & Hcol & _).
  exists files, s'. split; [done |].
  unfold capture. unfold_monad. rewrite Hc, Hb, Ha, Hcl.
  destruct has_body; [rewrite (Ht eq_refl) |]; by rewrite Hcol.
Qed.


End Render.



(* ===================================================================== *)
(** * The reasoning client and the submitter *)
(* ===================================================================== *)

#[local] Arguments dict_of_pairs : simpl never.
#[local] Arguments truthy : simpl never.
#[local] Arguments json_span : simpl never.
#[local] Arguments user_input : simpl never.
#[local] Arguments _extract_text_from_gemini_response : simpl never.

(** ** Running the heap operations *)

Lemma bind_inr {A B} (m : M A) (k : A -> M B) s a s' :
  m s = (inr a, s') -> bind m k s = k a s'.
Proof. intros H. unfold bind. by rewrite H. Qed.

Lemma bind_inl {A B} (m : M A) (k : A -> M B) s e s' :
  m s = (inl e, s') -> bind m k s = (inl e, s').
Proof. intros H. unfold bind. by rewrite H. Qed.

Lemma py_get_run v k h t l d :
  as_dict h v = Some (l, d) ->
  py_get v k (State h t) = (inr (dict_get d k), State h t).
Proof. intros H. unfold py_get. unfold_monad. cbn. by rewrite H. Qed.

Lemma py_bool_run v h t :
  py_bool v (State h t) = (inr (truthy h v), State h t).
Proof. done. Qed.

Lemma dict_setitem_run l k v h t d :
  h !! l = Some (ODict d) ->
  dict_setitem l k v (State h t)
  = (inr tt, State (<[l := ODict (<[k := v]> d)]> h) t).
Proof. intros H. unfold dict_setitem. unfold_monad. cbn. by rewrite H. Qed.

Lemma alloc_run o h t :
  alloc o (State h t) = (inr (VRef (length h)), State (h ++ [o]) t).
Proof. done. Qed.

Lemma lift_run {A} (r : result A) s : lift r s = (r, s).
Proof. done. Qed.

Lemma get_heap_run h t : get_heap (State h t) = (inr h, State h t).
Proof. done. Qed.

Lemma as_dict_lookup h v l d :
  as_dict h v = Some (l, d) -> v = VRef l /\ h !! l = Some (ODict d).
Proof.
  unfold as_dict. destruct v as [| | | | |l']; try done.
  destruct (h !! l') as [[d' | xs] |] eqn:E; try done.
  by intros [= <- <-].
Qed.

Lemma as_dict_ref h l d : h !! l = Some (ODict d) -> as_dict h (VRef l) = Some (l, d).
Proof. intros H. unfold as_dict. by rewrite H. Qed.

Lemma as_dict_none h : as_dict h VNone = None.
Proof. done. Qed.

(** A write into a dict leaves every other object as it is. *)
Lemma lookup_setitem_ne (h : heap) l l' o :
  l <> l' -> <[l := o]> h !! l' = h !! l'.
Proof. apply list_lookup_insert_ne. Qed.

Lemma lookup_setitem_eq (h : heap) l o o' :
  h !! l = Some o' -> <[l := o]> h !! l = Some o.
Proof.
  intros H. apply list_lookup_insert_eq. by eapply lookup_lt_Some.
Qed.

(** ** Decoded documents in the heap *)

Lemma alloc_all_extends {A B} (f : A -> heap -> B * heap) xs :
  Forall (fun x => forall h, exists ext, (f x h).2 = (h ++ ext)%list) xs ->
  forall h, exists ext, (alloc_all f xs h).2 = (h ++ ext)%list.
Proof.
  induction 1 as [|x xs Hx _ IH]; intros h; cbn.
  - exists []. by rewrite app_nil_r.
  - destruct (Hx h) as (e1 & E1). destruct (f x h) as [v h1].
    cbn in E1. subst h1. destruct (IH (h ++ e1)%list) as (e2 & E2).
    destruct (alloc_all f xs (h ++ e1)%list) as [vs h2]. cbn in *. subst h2.
    exists (e1 ++ e2)%list. by rewrite app_assoc.
Qed.

(** Building an object only adds to the heap. *)
Lemma alloc_json_extends j : forall h, exists ext, (alloc_json j h).2 = (h ++ ext)%list.
Proof.
  induction j as [| | | | | xs IH | kvs IH] using json_nested_ind; intros h;
    try (exists []; by rewrite app_nil_r); cbn [alloc_json].
  - destruct (alloc_all_extends alloc_json xs IH h) as (ext & E).
    destruct (alloc_all alloc_json xs h) as [vs h']. cbn in *. subst h'.
    exists (ext ++ [OList vs])%list. by rewrite app_assoc.
  - match goal with |- context [alloc_all ?f kvs h] => set (g := f) end.
    assert (Forall (fun kv => forall h, exists ext, (g kv h).2 = (h ++ ext)%list)
                   kvs) as Hg.
    { eapply Forall_impl; [exact IH |]. intros [k x] Hx h0. cbn in *.
      destruct (Hx h0) as (ext & E). destruct (alloc_json x h0) as [v h1].
      by exists ext. }
    destruct (alloc_all_extends g kvs Hg h) as (ext & E).
    destruct (alloc_all g kvs h) as [ps h']. cbn in *. subst h'.
    exists (ext ++ [ODict (dict_of_pairs ps)])%list. by rewrite app_assoc.
Qed.

Lemma load_json_run j h t :
  exists v ext, load_json j (State h t) = (inr v, State (h ++ ext) t).
Proof.
  unfold load_json. cbn. destruct (alloc_json_extends j h) as (ext & E).
  destruct (alloc_json j h) as [v h']. cbn in E. subst h'. eauto.
Qed.

Section Submit.

Context (lib : Lib) (w : World).

Lemma response_json_run resp h t :
  exists v ext, response_json resp (State h t) = (inr v, State (h ++ ext) t).
Proof.
  unfold response_json. destruct (post_json resp) as [e | j].
  - rewrite alloc_run. eauto.
  - apply load_json_run.
Qed.

Lemma deliver_not_dict email secret solution submit_url payload h t :
  as_dict h payload = None ->
  deliver w email secret solution submit_url payload (State h t)
  = (inr (jsonify [("error", VStr "no_payload_from_model");
                   ("model_output", solution)] 500), State h t).
Proof.
  intros H. unfold deliver.
  rewrite (bind_inr _ _ _ _ _ (get_heap_run h t)). by rewrite H.
Qed.

(** The heap once the identity fields are written into the payload. *)
Lemma deliver_writes email secret lp dp h t {A} (k : M A) :
  h !! lp = Some (ODict dp) ->
  (let* _ := dict_setitem lp "email" email in
   let* _ := dict_setitem lp "secret" secret in k) (State h t)
  = k (State (<[lp := ODict (with_identity email secret dp)]> h) t).
Proof.
  intros Hlp.
  rewrite (bind_inr _ _ _ _ _ (dict_setitem_run _ _ _ _ _ _ Hlp)).
  rewrite (bind_inr _ _ _ _ _
             (dict_setitem_run _ _ _ _ _ _ (lookup_setitem_eq _ _ _ _ Hlp))).
  by rewrite list_insert_insert_eq.
Qed.

Lemma deliver_no_url email secret solution submit_url lp dp h t :
  h !! lp = Some (ODict dp) ->
  truthy (<[lp := ODict (with_identity email secret dp)]> h) submit_url = false ->
  deliver w email secret solution submit_url (VRef lp) (State h t)
  = (inr (jsonify [("result", VStr "no_submit_url"); ("solution", solution)]
                  200),
     State (<[lp := ODict (with_identity email secret dp)]> h) t).
Proof.
  intros Hlp Hurl. unfold deliver.
  rewrite (bind_inr _ _ _ _ _ (get_heap_run h t)).
  rewrite (as_dict_ref _ _ _ Hlp).
  rewrite (deliver_writes _ _ _ _ _ _ _ Hlp).
  rewrite (bind_inr _ _ _ _ _ (py_bool_run _ _ _)).
  by rewrite Hurl.
Qed.

Lemma deliver_post email secret solution submit_url lp dp ls d1 h t :
  h !! lp = Some (ODict dp) ->
  let h1 := <[lp := ODict (with_identity email secret dp)]> h in
  truthy h1 submit_url = true ->
  as_dict h1 solution = Some (ls, d1) ->
  let h2 :=
    <[lp := ODict (with_attachment h1 (dict_get d1 "attachment_base64")
                                   (with_identity email secret dp))]> h1 in
  let t2 := (t ++ [EvHttpPost submit_url (VRef lp) h2])%list in
  match requests_post w submit_url (VRef lp) h2 with
  | inl e =>
      deliver w email secret solution submit_url (VRef lp) (State h t)
      = (inl e, State h2 t2)
  | inr resp =>
      exists v ext,
        deliver w email secret solution submit_url (VRef lp) (State h t)
        = (inr (jsonify (submission_body v (post_status_code resp)
                                         submit_url solution) 200),
           State (h2 ++ ext) t2)
  end.
Proof.
  intros Hlp h1 Hurl Hsol h2 t2.
  assert (h1 !! lp = Some (ODict (with_identity email secret dp))) as Hlp1.
  { by eapply lookup_setitem_eq. }
  assert (forall {A} (k : M A),
             (let* attach_b64 := py_get solution "attachment_base64" in
              let* attach := py_bool attach_b64 in
              let* _ :=
                (if attach then dict_setitem lp "attachment_base64" attach_b64
                 else ret tt) in k) (State h1 t)
             = k (State h2 t)) as Hattach.
  { intros A k.
    rewrite (bind_inr _ _ _ _ _ (py_get_run _ "attachment_base64" _ _ _ _ Hsol)).
    rewrite (bind_inr _ _ _ _ _ (py_bool_run _ _ _)).
    subst h2. unfold with_attachment.
    destruct (truthy h1 (dict_get d1 "attachment_base64")).
    - by rewrite (bind_inr _ _ _ _ _ (dict_setitem_run _ _ _ _ _ _ Hlp1)).
    - unfold bind at 1, ret at 1. by rewrite (list_insert_id _ _ _ Hlp1). }
  assert (deliver w email secret solution submit_url (VRef lp) (State h t)
          = (let* resp := lift (requests_post w submit_url (VRef lp) h2) in
             let* resp_json := response_json resp in
             ret (jsonify (submission_body resp_json (post_status_code resp)
                                           submit_url solution) 200))
              (State h2 t2)) as ->.
  { unfold deliver.
    rewrite (bind_inr _ _ _ _ _ (get_heap_run h t)).
    rewrite (as_dict_ref _ _ _ Hlp).
    rewrite (deliver_writes _ _ _ _ _ _ _ Hlp). fold h1.
    rewrite (bind_inr _ _ _ _ _ (py_bool_run _ _ _)).
    rewrite Hurl. cbn [negb]. rewrite Hattach.
    rewrite (bind_inr _ _ _ _ _ (get_heap_run h2 t)).
    unfold bind at 1, emit at 1. reflexivity. }
  destruct (requests_post w submit_url (VRef lp) h2) as [e | resp].
  - by rewrite (bind_inl _ _ _ _ _ (lift_run (inl e) _)).
  - rewrite (bind_inr _ _ _ _ _ (lift_run (inr resp) _)).
    destruct (response_json_run resp h2 t2) as (v & ext & E).
    exists v, ext. by rewrite (bind_inr _ _ _ _ _ E).
Qed.

(** A write into a dict keeps every dict a dict. *)
Lemma as_dict_setitem h v ls d lp dp x :
  as_dict h v = Some (ls, d) -> h !! lp = Some (ODict dp) ->
  as_dict (<[lp := ODict x]> h) v
  = Some (ls, if decide (lp = ls) then x else d).
Proof.
  intros Hv Hlp. apply as_dict_lookup in Hv as [-> Hls].
  unfold as_dict. rewrite list_lookup_insert.
  apply lookup_lt_Some in Hlp.
  destruct (decide (lp = ls)) as [-> |].
  - rewrite decide_True by done. done.
  - rewrite decide_False by (intros [? _]; done). by rewrite Hls.
Qed.

Lemma with_identity_email email secret d :
  with_identity email secret d !! "email" = Some email.
Proof.
  unfold with_identity. rewrite lookup_insert_ne by done.
  apply lookup_insert_eq.
Qed.

Lemma with_identity_secret email secret d :
  with_identity email secret d !! "secret" = Some secret.
Proof. unfold with_identity. apply lookup_insert_eq. Qed.

Lemma with_identity_other email secret d k :
  k <> "email" -> k <> "secret" -> with_identity email secret d !! k = d !! k.
Proof.
  intros. unfold with_identity. by rewrite !lookup_insert_ne.
Qed.

Lemma with_attachment_other h a d k :
  k <> "attachment_base64" -> with_attachment h a d !! k = d !! k.
Proof.
  intros. unfold with_attachment. destruct (truthy h a); [| done].
  by rewrite lookup_insert_ne.
Qed.

(** C6. When the instruction carries a payload object and its submit_url
    is absent or null, the outcome is [no_submit_url] with status 200,
    carrying the instruction, and no HTTP call is made: the trace is as
    it was. *)
Theorem submit_without_url (email secret solution : val) (s : state)
    (ls lp : loc) (d dp : gmap string val) :
  as_dict (st_heap s) solution = Some (ls, d) ->
  dict_get d "payload" = VRef lp ->
  st_heap s !! lp = Some (ODict dp) ->
  dict_get d "submit_url" = VNone ->
  exists s',
    submit w email secret solution s
    = (inr (jsonify [("result", VStr "no_submit_url"); ("solution", solution)]
                    200), s')
    /\ st_trace s' = st_trace s.
Proof.
  destruct s as [h t]. cbn [st_heap st_trace].
  intros Hsol Hpay Hlp Hurl.
  eexists. unfold submit.
  rewrite (bind_inr _ _ _ _ _ (get_heap_run h t)). rewrite Hsol.
  rewrite (bind_inr _ _ _ _ _ (py_get_run _ "payload" _ _ _ _ Hsol)).
  rewrite (bind_inr _ _ _ _ _ (py_get_run _ "submit_url" _ _ _ _ Hsol)).
  rewrite (bind_inr _ _ _ _ _ (py_get_run _ "answer" _ _ _ _ Hsol)).
  rewrite (bind_inr _ _ _ _ _ (py_bool_run _ _ _)).
  rewrite Hpay, Hurl. cbn [is_none andb].
  unfold bind at 1. cbn [ret]. unfold deliver.
  rewrite (bind_inr _ _ _ _ _ (get_heap_run h t)).
  rewrite (as_dict_ref _ _ _ Hlp).
  rewrite (bind_inr _ _ _ _ _ (dict_setitem_run _ _ _ _ _ _ Hlp)).
  rewrite (bind_inr _ _ _ _ _
             (dict_setitem_run _ _ _ _ _ _ (lookup_setitem_eq _ _ _ _ Hlp))).
  rewrite (bind_inr _ _ _ _ _ (py_bool_run _ _ _)).
  unfold truthy at 1. cbn [negb]. unfold ret. split; reflexivity.
Qed.

Lemma jsonify_solution solution :
  resp_body (jsonify [("result", VStr "no_submit_url"); ("solution", solution)]
                     200) !! "solution" = Some solution.
Proof.
  unfold jsonify, dict_of_pairs. cbn [resp_body foldl fst snd].
  apply lookup_insert_eq.
Qed.

Lemma jsonify_model_solution v status submit_url solution :
  resp_body (jsonify (submission_body v status submit_url solution) 200)
    !! "model_solution" = Some solution.
Proof.
  unfold jsonify, dict_of_pairs, submission_body.
  cbn [resp_body foldl fst snd]. apply lookup_insert_eq.
Qed.

(** The solution and its payload in a heap in which the payload has been
    overwritten by a dict with the same "payload" entry. *)
Lemma echo_heap (h ext : heap) ls lp d dp x :
  h !! ls = Some (ODict d) -> h !! lp = Some (ODict dp) ->
  d !! "payload" = Some (VRef lp) -> x !! "payload" = dp !! "payload" ->
  exists d',
    (<[lp := ODict x]> h ++ ext)%list !! ls = Some (ODict d')
    /\ d' !! "payload" = Some (VRef lp)
    /\ (<[lp := ODict x]> h ++ ext)%list !! lp = Some (ODict x).
Proof.
  intros Hls Hlp Hpay Hx.
  assert (<[lp := ODict x]> h !! lp = Some (ODict x)) as Hlp'
    by by eapply lookup_setitem_eq.
  destruct (decide (lp = ls)) as [-> |].
  - exists x. rewrite (lookup_app_l_Some _ _ _ _ Hlp').
    split_and!; [done | | done]. rewrite Hx. congruence.
  - exists d. rewrite (lookup_app_l_Some _ _ _ _ Hlp').
    split_and!; [| done | done].
    apply lookup_app_l_Some. by rewrite lookup_setitem_ne.
Qed.

(** C10. When the instruction of the model contains a payload object,
    every outcome that echoes the solution refers to that very solution,
    whose payload is still that very object, and by then the object holds
    the caller's email and secret. *)
Theorem submit_echo_aliases_payload (email secret solution : val) (s : state)
    (ls lp : loc) (d dp : gmap string val) (r : response) (s' : state) :
  as_dict (st_heap s) solution = Some (ls, d) ->
  d !! "payload" = Some (VRef lp) ->
  st_heap s !! lp = Some (ODict dp) ->
  submit w email secret solution s = (inr r, s') ->
  (resp_body r !! "solution" = Some solution
   \/ resp_body r !! "model_solution" = Some solution)
  /\ exists d' dp',
       st_heap s' !! ls = Some (ODict d') /\ d' !! "payload" = Some (VRef lp)
       /\ st_heap s' !! lp = Some (ODict dp')
       /\ dp' !! "email" = Some email /\ dp' !! "secret" = Some secret.
Proof.
  destruct s as [h t]. cbn [st_heap]. intros Hsol Hpay Hlp.
  pose proof (as_dict_lookup _ _ _ _ Hsol) as [-> Hls].
  unfold submit.
  rewrite (bind_inr _ _ _ _ _ (get_heap_run h t)). rewrite Hsol.
  rewrite (bind_inr _ _ _ _ _ (py_get_run _ "payload" _ _ _ _ Hsol)).
  rewrite (bind_inr _ _ _ _ _ (py_get_run _ "submit_url" _ _ _ _ Hsol)).
  rewrite (bind_inr _ _ _ _ _ (py_get_run _ "answer" _ _ _ _ Hsol)).
  rewrite (bind_inr _ _ _ _ _ (py_bool_run _ _ _)).
  replace (dict_get d "payload") with (VRef lp)
    by (unfold dict_get; by rewrite Hpay).
  cbn [is_none andb]. unfold bind at 1, ret at 1.
  set (x1 := with_identity email secret dp).
  assert (x1 !! "payload" = dp !! "payload") as Hx1
    by by apply with_identity_other.
  destruct (truthy (<[lp := ODict x1]> h) (dict_get d "submit_url")) eqn:Hurl.
  - pose proof (deliver_post email secret (VRef ls) _ lp dp ls _ h t Hlp Hurl
                  (as_dict_setitem _ _ _ _ _ _ x1 Hsol Hlp)) as Hpost.
    cbv zeta in Hpost. fold x1 in Hpost.
    rewrite list_insert_insert_eq in Hpost.
    set (x2 := with_attachment _ _ x1) in Hpost.
    destruct (requests_post w _ _ _) as [e | resp].
    + rewrite Hpost. done.
    + destruct Hpost as (v & ext & ->). intros [= <- <-]. cbn [st_heap].
      split; [right; apply jsonify_model_solution |].
      destruct (echo_heap h ext ls lp d dp x2 Hls Hlp Hpay) as (d' & ? & ? & ?).
      { subst x2. by rewrite with_attachment_other. }
      exists d', x2. split_and!; [done | done | done | |]; subst x2 x1.
      * rewrite with_attachment_other by done. apply with_identity_email.
      * rewrite with_attachment_other by done. apply with_identity_secret.
  - rewrite (deliver_no_url _ _ _ _ _ _ _ _ Hlp Hurl).
    intros [= <- <-]. cbn [st_heap].
    split; [left; apply jsonify_solution |].
    destruct (echo_heap h [] ls lp d dp x1 Hls Hlp Hpay Hx1) as (d' & ? & ? & ?).
    rewrite app_nil_r in *.
    exists d', x1. split_and!; [done | done | done | |]; subst x1.
    + apply with_identity_email.
    + apply with_identity_secret.
Qed.

Lemma synthesized_email email secret answer :
  synthesized email secret answer !! "email" = Some email.
Proof.
  unfold synthesized, dict_of_pairs. cbn [foldl fst snd].
  rewrite !lookup_insert_ne by done. apply lookup_insert_eq.
Qed.

Lemma synthesized_secret email secret answer :
  synthesized email secret answer !! "secret" = Some secret.
Proof.
  unfold synthesized, dict_of_pairs. cbn [foldl fst snd].
  rewrite lookup_insert_ne by done. apply lookup_insert_eq.
Qed.

Lemma synthesized_answer email secret answer :
  synthesized email secret answer !! "answer" = Some answer.
Proof.
  unfold synthesized, dict_of_pairs. cbn [foldl fst snd].
  apply lookup_insert_eq.
Qed.

(** Writing the identity into the synthesized payload changes nothing. *)
Lemma with_identity_synthesized email secret answer :
  with_identity email secret (synthesized email secret answer)
  = synthesized email secret answer.
Proof.
  unfold with_identity.
  rewrite (insert_id _ "email" email) by apply synthesized_email.
  apply insert_id, synthesized_secret.
Qed.

Lemma synthesized_non_empty email secret answer :
  synthesized email secret answer <> ∅.
Proof.
  intros H. pose proof (synthesized_email email secret answer) as E.
  by rewrite H in E.
Qed.

(** A value that is true stays true when a non-empty dict is allocated. *)
Lemma truthy_alloc h v d :
  d <> ∅ -> truthy h v = true -> truthy (h ++ [ODict d]) v = true.
Proof.
  intros Hd. unfold truthy. destruct v as [| | | | | l]; try done.
  destruct (h !! l) as [o |] eqn:E.
  - by rewrite (lookup_app_l_Some _ _ _ _ E).
  - intros _. apply lookup_ge_None in E.
    destruct (decide (l = length h)) as [-> |].
    + rewrite list_lookup_middle by done. by rewrite bool_decide_eq_false_2.
    + rewrite lookup_ge_None_2; [done |]. rewrite length_app. cbn. lia.
Qed.

Lemma insert_last (h : heap) (o o' : obj) :
  <[length h := o']> (h ++ [o]) = (h ++ [o'])%list.
Proof.
  rewrite insert_app_r_alt by lia. by rewrite Nat.sub_diag.
Qed.

(** What [deliver] adds to the trace is at most one POST, whose body
    holds the caller's email and secret. *)
Lemma deliver_logs email secret solution submit_url payload ls d h t :
  as_dict h solution = Some (ls, d) ->
  exists evs,
    st_trace (deliver w email secret solution submit_url payload (State h t)).2
    = (t ++ evs)%list
    /\ Forall (posts_identity email secret) evs.
Proof.
  intros Hsol. destruct (as_dict h payload) as [[lp dp] |] eqn:Hp.
  - apply as_dict_lookup in Hp as [-> Hlp].
    set (x1 := with_identity email secret dp).
    destruct (truthy (<[lp := ODict x1]> h) submit_url) eqn:Hurl.
    + pose proof (deliver_post email secret solution _ lp dp ls _ h t Hlp Hurl
                    (as_dict_setitem _ _ _ _ _ _ x1 Hsol Hlp)) as Hpost.
      cbv zeta in Hpost. fold x1 in Hpost.
      rewrite list_insert_insert_eq in Hpost.
      set (x2 := with_attachment _ _ x1) in Hpost.
      exists [EvHttpPost submit_url (VRef lp) (<[lp := ODict x2]> h)].
      split.
      * destruct (requests_post w _ _ _) as [e | resp].
        -- by rewrite Hpost.
        -- by destruct Hpost as (v & ext & ->).
      * constructor; [| done]. exists submit_url, lp, (<[lp := ODict x2]> h), x2.
        split_and!; [done | by eapply lookup_setitem_eq | |]; subst x2 x1.
        -- rewrite with_attachment_other by done. apply with_identity_email.
        -- rewrite with_attachment_other by done. apply with_identity_secret.
    + rewrite (deliver_no_url _ _ _ _ _ _ _ _ Hlp Hurl).
      exists []. by rewrite app_nil_r.
  - rewrite (deliver_not_dict _ _ _ _ _ _ _ Hp).
    exists []. by rewrite app_nil_r.
Qed.

Lemma submit_logs email secret solution :
  logs (posts_identity email secret) (submit w email secret solution).
Proof.
  intros [h t]. unfold submit.
  rewrite (bind_inr _ _ _ _ _ (get_heap_run h t)).
  destruct (as_dict h solution) as [[ls d] |] eqn:Hsol;
    [| exists []; by rewrite app_nil_r].
  rewrite (bind_inr _ _ _ _ _ (py_get_run _ "payload" _ _ _ _ Hsol)).
  rewrite (bind_inr _ _ _ _ _ (py_get_run _ "submit_url" _ _ _ _ Hsol)).
  rewrite (bind_inr _ _ _ _ _ (py_get_run _ "answer" _ _ _ _ Hsol)).
  rewrite (bind_inr _ _ _ _ _ (py_bool_run _ _ _)).
  destruct (is_none _ && _ && _).
  - rewrite (bind_inr _ _ _ _ _ (alloc_run _ h t)).
    apply as_dict_lookup in Hsol as [-> Hls].
    eapply deliver_logs, as_dict_ref, lookup_app_l_Some, Hls.
  - unfold bind at 1, ret at 1. by eapply deliver_logs.
Qed.

(** C1. When the payload of the instruction is absent or null, its
    answer is not null and its submit_url is true, a payload is made up of
    the caller's email, the caller's secret and the answer, and that is
    what is posted (with the attachment, when the instruction has one);
    whatever the instruction, every body that is posted holds the caller's
    email and secret; and for the answer "blue" to be sent to
    https://x/test on behalf of a@b.com with secret s, the body is exactly
    email, secret and answer. *)
Theorem submit_identity (email secret solution : val) (s : state) :
  (forall ls d,
      as_dict (st_heap s) solution = Some (ls, d) ->
      dict_get d "payload" = VNone ->
      dict_get d "answer" <> VNone ->
      truthy (st_heap s) (dict_get d "submit_url") = true ->
      let made := synthesized email secret (dict_get d "answer") in
      let body :=
        with_attachment (st_heap s ++ [ODict made])
                        (dict_get d "attachment_base64") made in
      st_trace (submit w email secret solution s).2
      = (st_trace s ++ [EvHttpPost (dict_get d "submit_url")
                                   (VRef (length (st_heap s)))
                                   (st_heap s ++ [ODict body])])%list
      /\ (dict_get d "attachment_base64" = VNone -> body = made))
  /\ logs (posts_identity email secret) (submit w email secret solution)
  /\ st_trace (quiz_endpoint py_lib (example_world reply_blue) initial).2
     = [EvGoto "https://x/quiz" NetworkIdle 30000;
        EvGoto "https://x/quiz" Load 30000;
        EvHttpGet "https://x/f/big.pdf";
        EvHttpGet "https://x/f/data.CSV";
        EvReadBody "https://x/f/data.CSV";
        EvGenerate (ReasoningRequest "<html><body>quiz</body></html>" "quiz"
                      [FileInfo "data.csv" (TextPreview "a,b")]);
        EvHttpPost (VStr "https://x/test") (VRef 2)
          [ODict (dict_of_pairs [("email", VStr "a@b.com");
                                 ("secret", VStr "s");
                                 ("url", VStr "https://x/quiz")]);
           ODict (dict_of_pairs [("answer", VStr "blue");
                                 ("submit_url", VStr "https://x/test");
                                 ("payload", VNone)]);
           ODict (dict_of_pairs [("email", VStr "a@b.com");
                                 ("secret", VStr "s");
                                 ("answer", VStr "blue")])]].
Proof.
  split_and!.
  - destruct s as [h t]. intros ls d Hsol Hpay Hans Hurl made body.
    cbn [st_heap st_trace] in *. split; [| by intros Hno; subst body;
                                    unfold with_attachment; rewrite Hno].
    unfold submit.
    rewrite (bind_inr _ _ _ _ _ (get_heap_run h t)). rewrite Hsol.
    rewrite (bind_inr _ _ _ _ _ (py_get_run _ "payload" _ _ _ _ Hsol)).
    rewrite (bind_inr _ _ _ _ _ (py_get_run _ "submit_url" _ _ _ _ Hsol)).
    rewrite (bind_inr _ _ _ _ _ (py_get_run _ "answer" _ _ _ _ Hsol)).
    rewrite (bind_inr _ _ _ _ _ (py_bool_run _ _ _)).
    rewrite Hpay, Hurl.
    replace (is_none (dict_get d "answer")) with false
      by by destruct (dict_get d "answer").
    cbn [is_none negb andb].
    rewrite (bind_inr _ _ _ _ _ (alloc_run _ h t)).
    change (dict_of_pairs _) with made.
    assert ((h ++ [ODict made]) !! length h = Some (ODict made)) as Hlp
      by by apply list_lookup_middle.
    pose proof (deliver_post email secret solution (dict_get d "submit_url")
                  (length h) made ls d (h ++ [ODict made]) t Hlp) as Hpost.
    cbv zeta in Hpost.
    assert (with_identity email secret made = made) as Hid
      by apply with_identity_synthesized.
    rewrite Hid in Hpost.
    rewrite (list_insert_id _ _ _ Hlp) in Hpost.
    specialize (Hpost (truthy_alloc _ _ _ (synthesized_non_empty _ _ _) Hurl)).
    apply as_dict_lookup in Hsol as [-> Hls].
    specialize (Hpost (as_dict_ref _ _ _ (lookup_app_l_Some _ _ _ _ Hls))).
    fold body in Hpost. rewrite insert_last in Hpost.
    destruct (requests_post w _ _ _) as [e | resp].
    + by rewrite Hpost.
    + by destruct Hpost as (v & ext & ->).
  - apply submit_logs.
  - vm_compute. reflexivity.
Qed.

End Submit.


Lemma submit_without_url_witness :
  as_dict (st_heap with_instruction) (VRef 1)
  = Some (1%nat, dict_of_pairs [("answer", VStr "blue"); ("payload", VRef 0);
                                ("submit_url", VNone)])
  /\ exists s',
       submit (example_world reply_blue) (VStr "a@b.com") (VStr "s") (VRef 1)
              with_instruction
       = (inr (jsonify [("result", VStr "no_submit_url");
                        ("solution", VRef 1)] 200), s')
       /\ st_trace s' = st_trace with_instruction.
Proof.
  split; [by vm_compute |].
  eapply (submit_without_url (example_world reply_blue) (VStr "a@b.com")
            (VStr "s") (VRef 1) with_instruction 1 0);
    by vm_compute.
Defined.

Lemma submit_echo_aliases_payload_witness :
  st_heap with_instruction !! 0%nat
  = Some (ODict (dict_of_pairs [("email", VStr "model@guess");
                                ("secret", VStr "?"); ("answer", VStr "blue")]))
  /\ exists d' dp',
       st_heap (submit (example_world reply_blue) (VStr "a@b.com") (VStr "s")
                       (VRef 1) with_instruction).2 !! 1%nat
       = Some (ODict d')
       /\ d' !! "payload" = Some (VRef 0)
       /\ st_heap (submit (example_world reply_blue) (VStr "a@b.com") (VStr "s")
                          (VRef 1) with_instruction).2 !! 0%nat
          = Some (ODict dp')
       /\ dp' !! "email" = Some (VStr "a@b.com")
       /\ dp' !! "secret" = Some (VStr "s").
Proof.
  split; [by vm_compute |].
  refine (proj2 (submit_echo_aliases_payload (example_world reply_blue)
                   (VStr "a@b.com") (VStr "s") (VRef 1) with_instruction 1 0
                   _ _ _ _ _ _ _ (surjective_pairing _))).
  - by vm_compute.
  - by vm_compute.
  - by vm_compute.
Defined.
(* ===================================================================== *)
(** * Failures of the reasoning call *)
(* ===================================================================== *)

Section Reasoning.

Context (lib : Lib) (w : World).

(** The body of the [try] makes one call to the backend, whatever comes
    of it. *)
Lemma ask_model_trace req s :
  st_trace (ask_model lib w req s).2 = (st_trace s ++ [EvGenerate req])%list.
Proof.
  unfold ask_model, parse_reply. unfold_monad. cbn.
  destruct (generate_content w req) as [e | resp]; [done |].
  destruct (_extract_text_from_gemini_response resp) as [e | out]; [done |].
  destruct (as_str out) as [e | text_out]; [done |].
  destruct (json_loads lib (json_span text_out)) as [e | j]; [done |].
  cbn. by destruct (alloc_json j (st_heap s)).
Qed.

Lemma ask_model_fails req s e :
  reasoning_failure lib w req e ->
  ask_model lib w req s
  = (inl e, State (st_heap s) (st_trace s ++ [EvGenerate req])).
Proof.
  unfold ask_model, parse_reply. unfold_monad. cbn.
  intros [H | resp H1 H2 | resp out H1 H2 H3 | resp raw H1 H2 H3].
  - by rewrite H.
  - by rewrite H1, H2.
  - by rewrite H1, H2, H3.
  - rewrite H1, H2. cbn. by rewrite H3.
Qed.

Lemma call_gemini_returns page_html page_text files s :
  exists v s',
    call_gemini_for_solution lib w page_html page_text files s = (inr v, s')
    /\ st_trace s'
       = (st_trace s ++ [EvGenerate (user_input lib page_html page_text files)])%list.
Proof.
  unfold call_gemini_for_solution, try_except.
  pose proof (ask_model_trace (user_input lib page_html page_text files) s) as Ht.
  destruct (ask_model lib w _ s) as [[e | v] s1]; cbn in Ht.
  - destruct s1 as [h1 t1]. rewrite alloc_run. cbn in Ht. subst t1. eauto.
  - eauto.
Qed.

Lemma call_gemini_fails page_html page_text files s e :
  reasoning_failure lib w (user_input lib page_html page_text files) e ->
  call_gemini_for_solution lib w page_html page_text files s
  = (inr (VRef (length (st_heap s))),
     State (st_heap s ++ [ODict (model_error e)])
           (st_trace s ++ [EvGenerate (user_input lib page_html page_text files)])).
Proof.
  intros H. unfold call_gemini_for_solution, try_except.
  by rewrite (ask_model_fails _ s e H).
Qed.

Lemma model_error_fields e :
  model_error e !! "answer" = Some VNone
  /\ model_error e !! "submit_url" = Some VNone
  /\ model_error e !! "payload" = Some VNone
  /\ model_error e !! "reason" = Some (VStr "model_error")
  /\ model_error e !! "model_exception" = Some (VStr (str_of_exn e)).
Proof.
  unfold model_error, dict_of_pairs. cbn [foldl fst snd].
  split_and!; by repeat (rewrite lookup_insert_eq || rewrite lookup_insert_ne by done).
Qed.

(** C4. The reasoning client always returns a value; and when the call
    to the backend fails, or the response has a shape from which no text
    can be taken, what it returns is a new dict with answer, submit_url
    and payload null, reason "model_error", and the text of the exception
    under "model_exception". *)
Theorem call_gemini_for_solution_sentinel (page_html page_text : string)
    (files : list file_entry) (s : state) :
  let req := user_input lib page_html page_text files in
  (exists v s',
      call_gemini_for_solution lib w page_html page_text files s = (inr v, s'))
  /\ (forall e,
         reasoning_failure lib w req e ->
         call_gemini_for_solution lib w page_html page_text files s
         = (inr (VRef (length (st_heap s))),
            State (st_heap s ++ [ODict (model_error e)])
                  (st_trace s ++ [EvGenerate req])))
  /\ (forall e,
         model_error e !! "answer" = Some VNone
         /\ model_error e !! "submit_url" = Some VNone
         /\ model_error e !! "payload" = Some VNone
         /\ model_error e !! "reason" = Some (VStr "model_error")
         /\ model_error e !! "model_exception" = Some (VStr (str_of_exn e))).
Proof.
  intros req. split_and!.
  - destruct (call_gemini_returns page_html page_text files s)
      as (v & s' & E & _). eauto.
  - intros e H. by apply call_gemini_fails.
  - apply model_error_fields.
Qed.

(** The object built for a document that is not an object is not a dict. *)
Lemma alloc_json_not_object j h :
  not_object j -> as_dict (alloc_json j h).2 (alloc_json j h).1 = None.
Proof.
  destruct j as [| | | | | xs | kvs]; try done.
  intros _. cbn [alloc_json].
  destruct (alloc_all alloc_json xs h) as [vs h']. cbn [fst snd].
  unfold as_dict. by rewrite list_lookup_middle.
Qed.

(** C2, as the code has it. When the text of the reply does not decode,
    the reasoning client returns the model_error dict, and the outcome is
    no_payload_from_model with status 500, carrying that dict; the
    outcome model_failed is that of a reply that decodes to something
    other than an object. *)
Theorem decode_failure_outcome (email secret : val)
    (page_html page_text : string) (files : list file_entry) (s : state)
    (resp : sdk_response) (raw : string) :
  let req := user_input lib page_html page_text files in
  generate_content w req = inr resp ->
  _extract_text_from_gemini_response resp = inr (PStr raw) ->
  (forall e,
      json_loads lib (json_span raw) = inl e ->
      (let* solution :=
         call_gemini_for_solution lib w page_html page_text files in
       submit w email secret solution) s
      = (inr (jsonify [("error", VStr "no_payload_from_model");
                       ("model_output", VRef (length (st_heap s)))] 500),
         State (st_heap s ++ [ODict (model_error e)])
               (st_trace s ++ [EvGenerate req])))
  /\ (forall j,
         json_loads lib (json_span raw) = inr j -> not_object j ->
         exists s',
           (let* solution :=
              call_gemini_for_solution lib w page_html page_text files in
            submit w email secret solution) s
           = (inr (jsonify [("error", VStr "model_failed")] 500), s')
           /\ st_trace s' = (st_trace s ++ [EvGenerate req])%list).
Proof.
  intros req Hgen Hext. split.
  - intros e Hdec.
    rewrite (bind_inr _ _ _ _ _
               (call_gemini_fails page_html page_text files s e
                  (decode_fails lib w req e resp raw Hgen Hext Hdec))).
    unfold submit.
    assert ((st_heap s ++ [ODict (model_error e)]) !! length (st_heap s)
            = Some (ODict (model_error e))) as Hl by by apply list_lookup_middle.
    pose proof (as_dict_ref _ _ _ Hl) as Hsol.
    destruct (model_error_fields e) as (Ha & Hu & Hp & _).
    rewrite (bind_inr _ _ _ _ _ (get_heap_run _ _)). rewrite Hsol.
    rewrite (bind_inr _ _ _ _ _ (py_get_run _ "payload" _ _ _ _ Hsol)).
    rewrite (bind_inr _ _ _ _ _ (py_get_run _ "submit_url" _ _ _ _ Hsol)).
    rewrite (bind_inr _ _ _ _ _ (py_get_run _ "answer" _ _ _ _ Hsol)).
    rewrite (bind_inr _ _ _ _ _ (py_bool_run _ _ _)).
    unfold dict_get. rewrite Ha, Hu, Hp.
    cbn [from_option id is_none negb andb].
    unfold bind at 1, ret at 1.
    by rewrite deliver_not_dict.
  - intros j Hdec Hno.
    assert (ask_model lib w req s
            = (inr (alloc_json j (st_heap s)).1,
               State (alloc_json j (st_heap s)).2
                     (st_trace s ++ [EvGenerate req]))) as Hask.
    { unfold ask_model, parse_reply. unfold_monad. cbn.
      rewrite Hgen, Hext. cbn. rewrite Hdec. cbn.
      by destruct (alloc_json j (st_heap s)). }
    eexists. unfold call_gemini_for_solution, try_except, bind at 1.
    fold req. rewrite Hask. unfold submit.
    rewrite (bind_inr _ _ _ _ _ (get_heap_run _ _)).
    rewrite (alloc_json_not_object j (st_heap s) Hno). done.
Qed.

End Reasoning.

(** C2, as it is stated, fails: a reply without JSON in it does not
    decode, and the outcome is no_payload_from_model, which is not
    model_failed. *)
Lemma decode_failure_is_not_model_failed :
  json_loads py_lib (json_span "I cannot answer that.")
  = inl (Json.err "Expecting value")
  /\ (quiz_endpoint py_lib (example_world "I cannot answer that.") initial).1
     = inr (jsonify [("error", VStr "no_payload_from_model");
                     ("model_output", VRef 1)] 500)
  /\ jsonify [("error", VStr "no_payload_from_model");
              ("model_output", VRef 1)] 500
     <> jsonify [("error", VStr "model_failed")] 500.
Proof.
  split_and!; [by vm_compute | by vm_compute |].
  intros H. apply (f_equal (fun r => resp_body r !! "error")) in H.
  vm_compute in H. discriminate H.
Qed.

Lemma decode_failure_outcome_witness :
  generate_content (example_world "I cannot answer that.")
                   (user_input py_lib "<html>" "text" [])
  = inr (SdkResponse (Value (PStr "I cannot answer that.")) Absent Absent
                     (inr "response"))
  /\ (let* solution :=
        call_gemini_for_solution py_lib (example_world "I cannot answer that.")
                                 "<html>" "text" [] in
      submit (example_world "I cannot answer that.") (VStr "a@b.com") (VStr "s")
             solution) initial
     = (inr (jsonify [("error", VStr "no_payload_from_model");
                      ("model_output", VRef 0)] 500),
        State [ODict (model_error (Json.err "Expecting value"))]
              [EvGenerate (user_input py_lib "<html>" "text" [])]).
Proof.
  split; [reflexivity |].
  exact (proj1 (decode_failure_outcome py_lib
                  (example_world "I cannot answer that.")
                  (VStr "a@b.com") (VStr "s") "<html>" "text" [] initial
                  _ "I cannot answer that." eq_refl eq_refl)
               (Json.err "Expecting value") eq_refl).
Defined.

(* ===================================================================== *)
(** * The collector within the pipeline *)
(* ===================================================================== *)

Section PipelineFacts.

Context (lib : Lib) (w : World).

(** Navigation is over without an exception unless the first wait fails
    with something other than a timeout. *)
Lemma navigate_returns url timeout_ms s :
  (forall e, pw_goto w url NetworkIdle timeout_ms = Some e ->
             exn_cls e = PWTimeout) ->
  exists nav,
    navigate w url timeout_ms s
    = (inr tt, State (st_heap s) (st_trace s ++ nav))
    /\ Forall is_goto nav.
Proof.
  intros H. destruct (pw_goto w url NetworkIdle timeout_ms) as [e |] eqn:E.
  - eexists. rewrite (navigate_timeout w url timeout_ms s e E (H e eq_refl)).
    split; [done |]. by repeat constructor.
  - eexists. rewrite (navigate_idle w url timeout_ms s E).
    split; [done |]. by repeat constructor.
Qed.

(** A page without a link to a recognised file goes to the model with
    no file, and nothing is downloaded before that. *)
Lemma solve_without_files email secret url s html has_body text anchors :
  pw_new_page w = None ->
  (forall e, pw_goto w url NetworkIdle 30000 = Some e -> exn_cls e = PWTimeout) ->
  pw_content w = inr html -> pw_query_body w = inr has_body ->
  (has_body = true -> pw_inner_text_body w = inr text) ->
  pw_anchors w = inr anchors -> pw_close w = None ->
  Forall (fun a => link_target lib url a = None) anchors ->
  exists nav rest,
    st_trace (solve lib w email secret (VStr url) s).2
    = (st_trace s ++ nav
       ++ EvGenerate (user_input lib html
                        (if has_body then text else EmptyString) []) :: rest)%list
    /\ Forall is_goto nav.
Proof.
  intros Hnew Hgo Hc Hb Ht Ha Hcl Hno.
  destruct (navigate_returns url 30000 s Hgo) as (nav & Hnav & Hgoto).
  exists nav.
  destruct (capture_readable lib w url (State (st_heap s) (st_trace s ++ nav))
              html has_body text anchors Hc Hb Ht Ha Hcl)
    as (files & s1 & Hcol & Hcap).
  rewrite (collect_no_targets lib w url anchors _ Hno) in Hcol.
  injection Hcol as <- <-.
  destruct (call_gemini_returns lib w html
              (if has_body then text else EmptyString) []
              (State (st_heap s) (st_trace s ++ nav)))
    as (v & s2 & Hcall & Htrace).
  destruct (submit_logs w email secret v s2) as (rest & Hsub & _).
  exists rest. split; [| done].
  assert (render_page_and_collect lib w (VStr url) 30000 s
          = (inr (PageData html (if has_body then text else EmptyString) []),
             State (st_heap s) (st_trace s ++ nav))) as Hrender.
  { unfold render_page_and_collect. rewrite Hnew.
    rewrite (bind_inr _ _ _ _ _ (eq_refl : lift_unit None s = (inr tt, s))).
    by rewrite (bind_inr _ _ _ _ _ Hnav). }
  unfold solve. rewrite (bind_inr _ _ _ _ _ Hrender).
  cbn [pd_html pd_text pd_collected_files].
  rewrite (bind_inr _ _ _ _ _ Hcall).
  rewrite Hsub, Htrace. cbn [st_trace]. by rewrite <- !app_assoc.
Qed.

(** C7. The collector returns at most one entry and never ends with an
    exception; no anchor ends the scan with an exception; the anchors are
    taken in order and the scan ends at the first one that yields an
    entry; an entry is what was downloaded from an anchor whose resolved
    path ends in a recognised extension, and such a download yields an
    entry (for a PDF, when its temporary file can be written); a page
    without such a link
    yields no entry, and the handler goes on to the reasoning call. *)
Theorem collect_at_most_one (url : string) :
  (forall anchors s,
      exists files s',
        collect lib w url anchors s = (inr files, s')
        /\ (length files <= 1)%nat)
  /\ (forall a s, exists r s', process_anchor lib w url a s = (inr r, s'))
  /\ (forall pre a post entry s,
         Forall (fun x => forall s0,
                     (process_anchor lib w url x s0).1 = inr None) pre ->
         (forall s0, (process_anchor lib w url a s0).1 = inr (Some entry)) ->
         collect lib w url (pre ++ a :: post) s
         = collect lib w url (pre ++ [a]) s
         /\ (collect lib w url (pre ++ [a]) s).1 = inr [entry])
  /\ (forall a s entry s',
         process_anchor lib w url a s = (inr (Some entry), s') ->
         exists full data content_type s1,
           link_target lib url a = Some full
           /\ download_file w full 5000000 s = (inr (data, content_type), s1)
           /\ file_bytes entry = data)
  /\ (forall a s full data content_type s1,
         link_target lib url a = Some full ->
         download_file w full 5000000 s = (inr (data, content_type), s1) ->
         tmp_write w data = None ->
         exists entry,
           process_anchor lib w url a s = (inr (Some entry), s1)
           /\ file_bytes entry = data)
  /\ (forall anchors s,
         Forall (fun a => link_target lib url a = None) anchors ->
         collect lib w url anchors s = (inr [], s))
  /\ (forall email secret s html has_body text anchors,
         pw_new_page w = None ->
         (forall e, pw_goto w url NetworkIdle 30000 = Some e ->
                    exn_cls e = PWTimeout) ->
         pw_content w = inr html -> pw_query_body w = inr has_body ->
         (has_body = true -> pw_inner_text_body w = inr text) ->
         pw_anchors w = inr anchors -> pw_close w = None ->
         Forall (fun a => link_target lib url a = None) anchors ->
         exists nav rest,
           st_trace (solve lib w email secret (VStr url) s).2
           = (st_trace s ++ nav
              ++ EvGenerate (user_input lib html
                               (if has_body then text else EmptyString) [])
              :: rest)%list
           /\ Forall is_goto nav).
Proof.
  split_and!.
  - apply collect_returns.
  - apply process_anchor_returns.
  - apply collect_stops.
  - apply process_anchor_entry.
  - apply process_anchor_downloaded.
  - apply collect_no_targets.
  - intros. by eapply solve_without_files.
Qed.

End PipelineFacts.

Lemma collect_at_most_one_witness :
  collect py_lib (example_world reply_blue) "https://x/quiz"
    ([inr None; inl (Exn PWError "Element is not attached");
      inr (Some "/about"); inr (Some "/f/big.pdf")]
     ++ inr (Some "/f/data.CSV") :: [inr (Some "/f/other.zip")]) initial
  = collect py_lib (example_world reply_blue) "https://x/quiz"
      ([inr None; inl (Exn PWError "Element is not attached");
        inr (Some "/about"); inr (Some "/f/big.pdf")]
       ++ [inr (Some "/f/data.CSV")]) initial
  /\ (collect py_lib (example_world reply_blue) "https://x/quiz"
        ([inr None; inl (Exn PWError "Element is not attached");
          inr (Some "/about"); inr (Some "/f/big.pdf")]
         ++ [inr (Some "/f/data.CSV")]) initial).1
     = inr [example_entry].
Proof.
  destruct (collect_at_most_one py_lib (example_world reply_blue)
              "https://x/quiz") as (_ & _ & H & _).
  apply H.
  - repeat constructor; intros [h t]; reflexivity.
  - intros [h t]. reflexivity.
Defined.

(* ===================================================================== *)
(** * Further properties: the span handed to the decoder *)
(* ===================================================================== *)

Lemma rfind_from_last c s i :
  (0 <= i)%Z ->
  PyStr.rfind_from c (s +:+ String c EmptyString) i = (i + PyStr.len s)%Z.
Proof.
  revert i. induction s as [|a s IH]; intros i Hi.
  - rewrite app_nil. cbn [PyStr.rfind_from]. cbv zeta.
    rewrite Z.eqb_refl, Ascii.eqb_refl, len_empty. lia.
  - rewrite app_cons. cbn [PyStr.rfind_from]. cbv zeta.
    rewrite IH by lia. pose proof (len_nonneg s).
    destruct (Z.eqb_spec (i + 1 + PyStr.len s) (-1)); [lia |].
    rewrite len_cons. lia.
Qed.

Lemma slice_all s : PyStr.slice s 0 (PyStr.len s) = s.
Proof.
  pose proof (slice_middle EmptyString s EmptyString) as H.
  rewrite app_nil, len_empty, Z.add_0_l in H.
  replace (s +:+ EmptyString) with s in H; [done |].
  clear H. induction s as [|a s IH]; [done |]. rewrite app_cons. by rewrite <- IH.
Qed.

(** Whether a text has an opening brace followed by a closing one can
    be told from its first opening and its last closing brace. *)
Lemma has_json_span_dec raw : has_json_span raw \/ ~ has_json_span raw.
Proof.
  destruct (find_from_spec "{" raw 0 ltac:(lia))
    as [[_ Hno] | (pre1 & post1 & E1 & Hpre1 & _)].
  { right. intros (i & j & _ & Hi & _). by rewrite (get_mem _ _ _ Hi) in Hno. }
  destruct (rfind_from_spec "}" raw 0 ltac:(lia))
    as [[_ Hno] | (pre2 & post2 & E2 & Hpost2 & _)].
  { right. intros (i & j & _ & _ & Hj). by rewrite (get_mem _ _ _ Hj) in Hno. }
  destruct (decide (String.length pre1 < String.length pre2)%nat) as [Hlt | Hge].
  - left. exists (String.length pre1), (String.length pre2). split_and!; [done | |].
    + rewrite E1. apply get_app_here.
    + rewrite E2. apply get_app_here.
  - right. intros (i & j & Hij & Hi & Hj).
    assert (String.length pre1 <= i)%nat.
    { destruct (decide (i < String.length pre1)%nat) as [Hlt|]; [| lia].
      rewrite E1, get_app_l in Hi by done.
      by rewrite (get_mem _ _ _ Hi) in Hpre1. }
    assert (j <= String.length pre2)%nat; [| lia].
    destruct (decide (String.length pre2 < j)%nat) as [Hlt|]; [| lia].
    replace j with (String.length pre2 + S (j - String.length pre2 - 1))%nat
      in Hj by lia.
    rewrite E2, get_app_r in Hj. cbn [String.get] in Hj.
    by rewrite (get_mem _ _ _ Hj) in Hpost2.
Qed.

Lemma json_span_of_braces mid :
  json_span (String "{" (mid +:+ "}")) = String "{" (mid +:+ "}").
Proof.
  assert (PyStr.rfind_from "}" (String "{" (mid +:+ "}")) 0
          = (1 + PyStr.len mid)%Z) as Hr.
  { change (String "{" (mid +:+ "}")) with (String "{" mid +:+ "}").
    rewrite rfind_from_last by lia. rewrite len_cons. lia. }
  unfold json_span, PyStr.find, PyStr.rfind.
  cbn [PyStr.find_from]. rewrite Ascii.eqb_refl, Hr.
  pose proof (len_nonneg mid).
  destruct (Z.eqb_spec (1 + PyStr.len mid) (-1)); [lia |].
  destruct (Z.gtb_spec (1 + PyStr.len mid) 0); [| lia].
  cbn [negb andb Z.eqb].
  replace (1 + PyStr.len mid + 1)%Z
    with (PyStr.len (String "{" (mid +:+ "}")))
    by (rewrite len_cons, len_app, len_cons, len_empty; lia).
  apply slice_all.
Qed.

(** X1. The span is a piece of the raw text, and taking the span of a
    span changes nothing. *)
Theorem json_span_idempotent (raw : string) :
  (exists pre post, raw = pre +:+ json_span raw +:+ post)
  /\ json_span (json_span raw) = json_span raw.
Proof.
  destruct (has_json_span_dec raw) as [H | H].
  - destruct (json_span_braces raw H) as (pre & mid & post & E & _ & _ & ->).
    split; [| apply json_span_of_braces].
    exists pre, post. rewrite E. rewrite !app_cons.
    by rewrite app_assoc_str, app_cons.
  - rewrite (json_span_as_is raw H). split; [| by apply json_span_as_is].
    exists EmptyString, EmptyString. rewrite app_nil.
    clear H. induction raw as [|a s IH]; [done |]. rewrite app_cons. by rewrite <- IH.
Qed.

(* ===================================================================== *)
(** * Further properties: the prompt *)
(* ===================================================================== *)

Lemma substring_head k s :
  (k <= String.length s)%nat ->
  String.length (String.substring 0 k s) = k
  /\ exists rest, s = String.substring 0 k s +:+ rest.
Proof.
  revert k. induction s as [|a s IH]; intros k Hk.
  - cbn [String.length] in Hk. replace k with 0%nat by lia.
    split; [done | by exists EmptyString].
  - destruct k as [|k]; cbn [String.substring String.length].
    + split; [done | by exists (String a s)].
    + cbn [String.length] in Hk. destruct (IH k ltac:(lia)) as (Hl & rest & E).
      split; [lia |]. exists rest. rewrite app_cons. by rewrite <- E.
Qed.

Lemma prefix_excerpt s n : (0 <= n)%Z -> excerpt_of n s (PyStr.prefix s n).
Proof.
  intros Hn. unfold excerpt_of, PyStr.prefix, PyStr.slice, PyStr.clamp.
  pose proof (len_nonneg s) as Hs.
  destruct (Z.ltb_spec 0 0); [lia |]. destruct (Z.ltb_spec n 0); [lia |].
  rewrite (Z.min_l 0) by lia. rewrite Z.sub_0_r.
  change (Z.to_nat 0) with 0%nat.
  set (k := Z.to_nat (Z.min n (PyStr.len s))).
  assert (k <= String.length s)%nat as Hk by (unfold k, PyStr.len; lia).
  destruct (substring_head k s Hk) as (Hl & rest & E).
  split_and!.
  - by exists rest.
  - unfold PyStr.len. rewrite Hl. unfold k. lia.
  - intros Hle. replace k with (String.length s)
      by (unfold k, PyStr.len in *; lia).
    apply substring_all.
Qed.

(** X2. The request sent to the model holds the start of the HTML, at
    most 14000 characters of it, the start of the visible text, at most
    12000 characters, and one description per collected file, in order,
    with the file's name and the start of its text (at most 5000
    characters) or of its base64 form (at most 10000); what is short
    enough is there in full. *)
Theorem user_input_bounded (lib : Lib) (page_html page_text : string)
    (collected_files : list file_entry) :
  excerpt_of 14000 page_html
             (req_html (user_input lib page_html page_text collected_files))
  /\ excerpt_of 12000 page_text
                (req_text (user_input lib page_html page_text collected_files))
  /\ Forall2 (describes lib) collected_files
             (req_files (user_input lib page_html page_text collected_files)).
Proof.
  unfold user_input. cbn [req_html req_text req_files].
  split_and!; [by apply prefix_excerpt | by apply prefix_excerpt |].
  induction collected_files as [|f fs IH]; cbn [map]; constructor; [| done].
  unfold describes, file_info_of. cbn [info_filename info_preview].
  split; [done |]. destruct (is_text f); (split; [done |]);
    by apply prefix_excerpt.
Qed.

(* ===================================================================== *)
(** * Further properties: the downloader *)
(* ===================================================================== *)

Section DownloadMore.

Context (w : World).

(** X3. A download succeeds exactly when the GET returns a response
    whose status is not a 4xx or 5xx, whose declared length (zero for a
    content-length header that is absent or empty, and what [int] makes
    of its text otherwise) is zero or within the cap, and whose body can
    be read and is within the cap; it then returns the body with the
    content-type header, or the empty string without one, after one GET
    and one read of the body. *)
Theorem download_file_succeeds_iff (url : string) (max_bytes : Z) (s s' : state)
    (data : bytes) (content_type : string) :
  download_file w url max_bytes s = (inr (data, content_type), s')
  <-> exists resp n,
        requests_get w url = inr resp
        /\ http_error_status (status_code resp) = false
        /\ declared_length w resp = inr n
        /\ (n = 0 \/ n <= max_bytes)%Z
        /\ content resp = inr data
        /\ (Z.of_nat (length data) <= max_bytes)%Z
        /\ content_type = default EmptyString (header_content_type resp)
        /\ s' = State (st_heap s) (st_trace s ++ [EvHttpGet url; EvReadBody url]).
Proof.
  unfold download_file, raise_for_status. unfold_monad. cbn. split.
  - destruct (requests_get w url) as [e | resp]; [done |].
    destruct (http_error_status (status_code resp)) eqn:Hst; [done |].
    destruct (declared_length w resp) as [e | n] eqn:Hn; [done |].
    destruct (Z.eqb_spec n 0) as [-> | Hn0]; cbn.
    + destruct (content resp) as [e | data'] eqn:Hc; [done |].
      destruct (Z.gtb_spec (Z.of_nat (length data')) max_bytes); [done |].
      intros [= <- <- <-]. exists resp, 0%Z. rewrite <- app_assoc.
      split_and!; first [done | lia | by left].
    + destruct (Z.gtb_spec n max_bytes); [done |]. cbn.
      destruct (content resp) as [e | data'] eqn:Hc; [done |].
      destruct (Z.gtb_spec (Z.of_nat (length data')) max_bytes); [done |].
      intros [= <- <- <-]. exists resp, n. rewrite <- app_assoc.
      split_and!; first [done | lia | right; lia].
  - intros (resp & n & -> & -> & -> & Hn & Hc & Hlen & -> & ->).
    assert (negb (n =? 0)%Z && (n >? max_bytes)%Z = false) as ->.
    { destruct Hn as [-> | Hn]; [done |].
      destruct (Z.gtb_spec n max_bytes); [lia |]. by rewrite andb_false_r. }
    cbn. rewrite Hc.
    destruct (Z.gtb_spec (Z.of_nat (length data)) max_bytes); [lia |].
    by rewrite <- app_assoc.
Qed.

(** X4. What goes wrong is what is raised: an exception of the GET
    leaves after the GET; an exception of [int] on a content-length
    header that is not empty leaves before the body is read; an exception
    while reading the body leaves after the read. *)
Theorem download_file_propagates (url : string) (max_bytes : Z) (s : state)
    (e : exn) :
  (requests_get w url = inl e ->
   download_file w url max_bytes s
   = (inl e, State (st_heap s) (st_trace s ++ [EvHttpGet url])))
  /\ (forall resp hs,
         requests_get w url = inr resp ->
         http_error_status (status_code resp) = false ->
         header_content_length resp = Some hs -> hs <> EmptyString ->
         builtin_int w hs = inl e ->
         download_file w url max_bytes s
         = (inl e, State (st_heap s) (st_trace s ++ [EvHttpGet url])))
  /\ (forall resp n,
         requests_get w url = inr resp ->
         http_error_status (status_code resp) = false ->
         declared_length w resp = inr n -> (n = 0 \/ n <= max_bytes)%Z ->
         content resp = inl e ->
         download_file w url max_bytes s
         = (inl e, State (st_heap s)
                         (st_trace s ++ [EvHttpGet url; EvReadBody url]))).
Proof.
  unfold download_file, raise_for_status. unfold_monad. cbn. split_and!.
  - by intros ->.
  - intros resp hs -> -> Hh Hne He. unfold declared_length.
    rewrite Hh. destruct hs; [done |]. cbn [str_truthy]. by rewrite He.
  - intros resp n -> -> -> Hn ->.
    assert (negb (n =? 0)%Z && (n >? max_bytes)%Z = false) as ->.
    { destruct Hn as [-> | Hn]; [done |].
      destruct (Z.gtb_spec n max_bytes); [lia |]. by rewrite andb_false_r. }
    cbn. by rewrite <- app_assoc.
Qed.

End DownloadMore.

Lemma download_file_succeeds_iff_witness :
  download_file (example_world reply_blue) "https://x/f/data.CSV" 5000000 initial
  = (inr ([Byte.x61; Byte.x2c; Byte.x62], "text/csv"),
     State [] [EvHttpGet "https://x/f/data.CSV"; EvReadBody "https://x/f/data.CSV"]).
Proof.
  apply (proj2 (download_file_succeeds_iff (example_world reply_blue)
                  "https://x/f/data.CSV" 5000000 initial _ _ _)).
  exists (HttpResponse 200 None (Some "text/csv")
                       (inr [Byte.x61; Byte.x2c; Byte.x62])), 0%Z.
  split_and!; first [reflexivity | by left | cbn; lia].
Defined.

(* ===================================================================== *)
(** * Further properties: collected files *)
(* ===================================================================== *)

Lemma logs_impl {A} (P Q : event -> Prop) (m : M A) :
  (forall ev, P ev -> Q ev) -> logs P m -> logs Q m.
Proof.
  intros HPQ Hm s. destruct (Hm s) as (evs & E & HP).
  exists evs. split; [done |]. by eapply Forall_impl.
Qed.

Lemma str_or_non_empty s d : d <> EmptyString -> str_or s d <> EmptyString.
Proof. unfold str_or. by destruct s. Qed.

(** The facts about an entry that is built in front of us. *)
Ltac entry_facts :=
  first [ done
        | split; [done | by intros _]
        | split; [done | by intros []] ].

Section CollectMore.

Context (lib : Lib) (w : World).

Lemma download_file_cap url max_bytes s data content_type s' :
  download_file w url max_bytes s = (inr (data, content_type), s') ->
  (Z.of_nat (length data) <= max_bytes)%Z.
Proof.
  unfold download_file, raise_for_status. unfold_monad. cbn.
  destruct (requests_get w url) as [e | resp]; [done |].
  destruct (http_error_status (status_code resp)); [done |].
  destruct (declared_length w resp) as [e | n]; [done |].
  destruct (negb (n =? 0)%Z && (n >? max_bytes)%Z); [done |].
  cbn. destruct (content resp) as [e | data']; [done |].
  destruct (Z.gtb_spec (Z.of_nat (length data')) max_bytes); [done |].
  by intros [= <- _ _].
Qed.

Lemma download_file_logs_url url max_bytes :
  logs (fun ev => ev = EvHttpGet url \/ ev = EvReadBody url)
       (download_file w url max_bytes).
Proof.
  unfold download_file, raise_for_status.
  repeat first
    [ apply logs_bind; [| intros ?]
    | apply logs_emit; by auto
    | match goal with |- logs _ (match ?x with _ => _ end) => destruct x end
    | solve [auto with logs] ].
Qed.

(** X5. The entry made for a downloaded file: its name is the last
    segment of the path, or "downloaded" when that is empty; its bytes
    are the download; it is text exactly when the content type starts
    with text/ or the name ends in .csv, .json or .pdf, and exactly then
    it has a text: the decoded bytes, or for a PDF the extracted text,
    empty when the PDF cannot be read. Making it leaves the state as it
    is. *)
Theorem file_entry_for_classifies (path : string) (data : bytes)
    (content_type : string) (s s' : state) (entry : file_entry) :
  file_entry_for lib w path data content_type s = (inr entry, s') ->
  let name := str_or (PyStr.basename path) "downloaded" in
  let text_like :=
    PyStr.startswith content_type "text/" || PyStr.endswith name ".csv"
    || PyStr.endswith name ".json" in
  s' = s
  /\ filename entry = name /\ name <> EmptyString
  /\ file_bytes entry = data
  /\ is_text entry = text_like || PyStr.endswith name ".pdf"
  /\ (is_text entry = true <-> file_text entry <> None)
  /\ (text_like = true -> file_text entry = Some (utf8_decode_ignore lib data))
  /\ (text_like = false -> PyStr.endswith name ".pdf" = true ->
      forall e, pdf_open w data = inl e -> file_text entry = Some EmptyString).
Proof.
  intros H name text_like. unfold file_entry_for in H. unfold_monad.
  fold name in H. fold text_like in H.
  assert (name <> EmptyString) as Hname by by apply str_or_non_empty.
  destruct text_like.
  - injection H as <- <-. cbn. split_and!; entry_facts.
  - destruct (PyStr.endswith name ".pdf") eqn:Hpdf.
    + unfold extract_text_from_pdf_bytes in H. unfold_monad.
      destruct (tmp_write w data); [done |].
      destruct (pdf_open w data) as [e | pages].
      * injection H as <- <-. cbn. split_and!; entry_facts.
      * destruct (page_texts pages); injection H as <- <-; cbn;
          split_and!; entry_facts.
    + injection H as <- <-. cbn. split_and!; entry_facts.
Qed.

Lemma file_entry_for_well_formed path data content_type s entry s' :
  (Z.of_nat (length data) <= 5000000)%Z ->
  file_entry_for lib w path data content_type s = (inr entry, s') ->
  well_formed_entry entry.
Proof.
  intros Hlen H. unfold file_entry_for in H. unfold_monad. unfold well_formed_entry.
  assert (str_or (PyStr.basename path) "downloaded" <> EmptyString) as Hname
    by by apply str_or_non_empty.
  destruct (_ || _).
  - injection H as <- <-. cbn. split_and!; entry_facts.
  - destruct (PyStr.endswith _ ".pdf").
    + destruct (extract_text_from_pdf_bytes w data s) as [[e | t] s1]; [done |].
      injection H as <- <-. cbn. split_and!; entry_facts.
    + injection H as <- <-. cbn. split_and!; entry_facts.
Qed.

Lemma process_anchor_well_formed url a s entry s' :
  process_anchor lib w url a s = (inr (Some entry), s') ->
  well_formed_entry entry.
Proof.
  unfold process_anchor. unfold_monad.
  destruct a as [e | [href |]]; cbn; [done | | done].
  destruct (str_truthy href); cbn; [| done].
  destruct (urljoin lib url href) as [e | full]; [done |].
  destruct (urlparse_path lib full) as [e | path0]; [done |].
  destruct (is_candidate (PyStr.lower path0)); [| done].
  destruct (download_file w full 5000000 s) as [[e | [data ct]] s1] eqn:Hd;
    [done |].
  destruct (file_entry_for lib w (PyStr.lower path0) data ct s1)
    as [[e | entry'] s2] eqn:Hf; [done |].
  intros [= <- <-]. eapply file_entry_for_well_formed; [| exact Hf].
  by eapply download_file_cap.
Qed.

(** X6. Whatever the page and the servers do, every collected file is
    well formed: it has a name, at most 5,000,000 bytes, and a text
    exactly when it is marked as text. *)
Theorem collect_well_formed (url : string)
    (anchors : list (result (option string))) (s s' : state)
    (files : list file_entry) :
  collect lib w url anchors s = (inr files, s') ->
  Forall well_formed_entry files.
Proof.
  revert s. induction anchors as [|a anchors IH]; intros s; cbn [collect].
  - by intros [= <- _].
  - unfold bind.
    destruct (process_anchor lib w url a s) as [[e | [entry |]] s1] eqn:Ha;
      [done | | apply IH].
    unfold ret. intros [= <- _]. constructor; [| done].
    by eapply process_anchor_well_formed.
Qed.

Lemma process_anchor_fetches url a :
  logs (fun ev => exists full,
            link_target lib url a = Some full
            /\ (ev = EvHttpGet full \/ ev = EvReadBody full))
       (process_anchor lib w url a).
Proof.
  intros s. destruct (link_target lib url a) as [full |] eqn:Ht.
  - unfold link_target in Ht. unfold process_anchor. unfold_monad.
    destruct a as [e | [href |]]; [done | | done].
    destruct (str_truthy href) eqn:Hh; [| done].
    destruct (urljoin lib url href) as [e | full'] eqn:Hj; [done |].
    destruct (urlparse_path lib full') as [e | path0] eqn:Hp; [done |].
    destruct (is_candidate (PyStr.lower path0)) eqn:Hc; [| done].
    injection Ht as ->. cbn.
    destruct (download_file_logs_url full 5000000 s) as (evs & E & Hevs).
    destruct (download_file w full 5000000 s) as [[e | [data ct]] s1].
    + exists evs. split; [done |]. eapply Forall_impl; [exact Hevs |]. eauto.
    + destruct (file_entry_for_logs lib w (fun _ => False)
                  (PyStr.lower path0) data ct s1) as (evs' & E' & Hevs').
      destruct evs' as [| ev evs']; [| by inversion Hevs'].
      rewrite app_nil_r in E'. exists evs. cbn in E.
      split; [| eapply Forall_impl; [exact Hevs |]; eauto].
      destruct (file_entry_for lib w _ data ct s1) as [[e | entry] s2];
        cbn in *; congruence.
  - rewrite (process_anchor_no_target lib w url a s Ht).
    exists []. by rewrite app_nil_r.
Qed.

(** X7. The collector fetches nothing but the targets of the anchors of
    the page: every request it makes is the GET, or the read of the body,
    of a link whose path ends in a recognised extension. *)
Theorem collect_fetches_targets (url : string)
    (anchors : list (result (option string))) :
  logs (fetches_target lib url anchors) (collect lib w url anchors).
Proof.
  induction anchors as [|a anchors IH]; cbn [collect]; [auto with logs |].
  apply logs_bind.
  - eapply logs_impl; [| apply process_anchor_fetches].
    intros ev (full & Ht & Hev). exists a, full. split_and!; [| done | done].
    apply elem_of_cons. by left.
  - intros [entry |]; [auto with logs |].
    eapply logs_impl; [| exact IH].
    intros ev (a' & full & Hin & Ht & Hev). exists a', full.
    split_and!; [| done | done]. apply elem_of_cons. by right.
Qed.

End CollectMore.

Lemma file_entry_for_classifies_witness :
  file_entry_for py_lib (example_world reply_blue) "/f/report.pdf"
                 [Byte.x25; Byte.x50] "application/pdf" initial
  = (inr (FileEntry "report.pdf" [Byte.x25; Byte.x50]
                    (Some ("page one" +:+ blank_line +:+ blank_line
                           +:+ "page three")) true), initial)
  /\ is_text (FileEntry "report.pdf" [Byte.x25; Byte.x50]
                        (Some ("page one" +:+ blank_line +:+ blank_line
                               +:+ "page three")) true)
     = false || PyStr.endswith "report.pdf" ".pdf".
Proof.
  split; [reflexivity |].
  exact (proj1 (proj2 (proj2 (proj2 (proj2
           (file_entry_for_classifies py_lib (example_world reply_blue)
              "/f/report.pdf" [Byte.x25; Byte.x50] "application/pdf"
              initial initial _ eq_refl)))))).
Defined.

Lemma collect_well_formed_witness :
  collect py_lib (example_world reply_blue) "https://x/quiz"
          [inr (Some "/about"); inr (Some "/f/big.pdf");
           inr (Some "/f/data.CSV")] initial
  = (inr [example_entry],
     State [] [EvHttpGet "https://x/f/big.pdf";
               EvHttpGet "https://x/f/data.CSV";
               EvReadBody "https://x/f/data.CSV"])
  /\ Forall well_formed_entry [example_entry].
Proof.
  assert (collect py_lib (example_world reply_blue) "https://x/quiz"
            [inr (Some "/about"); inr (Some "/f/big.pdf");
             inr (Some "/f/data.CSV")] initial
          = (inr [example_entry],
             State [] [EvHttpGet "https://x/f/big.pdf";
                       EvHttpGet "https://x/f/data.CSV";
                       EvReadBody "https://x/f/data.CSV"])) as E
    by (vm_compute; reflexivity).
  split; [exact E |].
  exact (collect_well_formed py_lib (example_world reply_blue) "https://x/quiz"
           [inr (Some "/about"); inr (Some "/f/big.pdf");
            inr (Some "/f/data.CSV")] initial _ _ E).
Defined.

(* ===================================================================== *)
(** * Further properties: navigation *)
(* ===================================================================== *)

Section RenderMore.

Context (lib : Lib) (w : World).

(** X8. The load of the page is retried only after a timeout. When the
    wait for network idleness succeeds there is that one navigation; when
    it fails with anything but a timeout the exception leaves
    [render_page_and_collect] after that one navigation, and the page is
    not read; and when the browser cannot be started nothing is
    attempted. *)
Theorem navigate_once (url : string) (timeout_ms : Z) (s : state) :
  (pw_goto w url NetworkIdle timeout_ms = None ->
   navigate w url timeout_ms s
   = (inr tt, State (st_heap s)
                    (st_trace s ++ [EvGoto url NetworkIdle timeout_ms])))
  /\ (forall e,
         pw_goto w url NetworkIdle timeout_ms = Some e ->
         exn_cls e <> PWTimeout ->
         navigate w url timeout_ms s
         = (inl e, State (st_heap s)
                         (st_trace s ++ [EvGoto url NetworkIdle timeout_ms]))
         /\ (pw_new_page w = None ->
             render_page_and_collect lib w (VStr url) timeout_ms s
             = (inl e, State (st_heap s)
                             (st_trace s ++ [EvGoto url NetworkIdle timeout_ms]))))
  /\ (forall e,
         pw_new_page w = Some e ->
         render_page_and_collect lib w (VStr url) timeout_ms s = (inl e, s)).
Proof.
  split_and!.
  - apply navigate_idle.
  - intros e Hgo Hcls.
    assert (navigate w url timeout_ms s
            = (inl e, State (st_heap s)
                            (st_trace s ++ [EvGoto url NetworkIdle timeout_ms])))
      as Hnav.
    { unfold navigate, goto. unfold_monad. cbn. rewrite Hgo. cbn.
      by rewrite bool_decide_eq_false_2. }
    split; [done |]. intros Hnew.
    unfold render_page_and_collect. rewrite Hnew.
    rewrite (bind_inr _ _ _ _ _ (eq_refl : lift_unit None s = (inr tt, s))).
    by rewrite (bind_inl _ _ _ _ _ Hnav).
  - intros e Hnew. unfold render_page_and_collect. rewrite Hnew.
    by rewrite (bind_inl _ _ _ _ _ (eq_refl : lift_unit (Some e) s = (inl e, s))).
Qed.

(** Navigation logs one or two page loads, whatever comes of them. *)
Lemma navigate_logs url timeout_ms s :
  exists nav,
    st_trace (navigate w url timeout_ms s).2 = (st_trace s ++ nav)%list
    /\ Forall is_goto nav /\ (length nav <= 2)%nat.
Proof.
  unfold navigate, goto. unfold_monad. cbn.
  destruct (pw_goto w url NetworkIdle timeout_ms) as [e |]; cbn.
  - case_bool_decide; cbn.
    + exists [EvGoto url NetworkIdle timeout_ms; EvGoto url Load timeout_ms].
      rewrite <- app_assoc.
      split_and!; [by destruct (pw_goto w url Load timeout_ms)
                  | by repeat constructor | cbn; lia].
    + exists [EvGoto url NetworkIdle timeout_ms].
      split_and!; [done | by repeat constructor | cbn; lia].
  - exists [EvGoto url NetworkIdle timeout_ms].
    split_and!; [done | by repeat constructor | cbn; lia].
Qed.

End RenderMore.

(* ===================================================================== *)
(** * Further properties: the submitter *)
(* ===================================================================== *)

Section SubmitMore.

Context (w : World).

(** What is left of [deliver] once the payload is known to be a dict and
    the submit_url to be true: the POST and the reading of its reply. *)
Lemma deliver_post_run email secret solution submit_url lp dp ls d1 h t :
  h !! lp = Some (ODict dp) ->
  let h1 := <[lp := ODict (with_identity email secret dp)]> h in
  truthy h1 submit_url = true ->
  as_dict h1 solution = Some (ls, d1) ->
  let h2 :=
    <[lp := ODict (with_attachment h1 (dict_get d1 "attachment_base64")
                                   (with_identity email secret dp))]> h in
  deliver w email secret solution submit_url (VRef lp) (State h t)
  = (let* resp := lift (requests_post w submit_url (VRef lp) h2) in
     let* resp_json := response_json resp in
     ret (jsonify (submission_body resp_json (post_status_code resp)
                                   submit_url solution) 200))
      (State h2 (t ++ [EvHttpPost submit_url (VRef lp) h2])).
Proof.
  intros Hlp h1 Hurl Hsol h2.
  assert (h1 !! lp = Some (ODict (with_identity email secret dp))) as Hlp1
    by by eapply lookup_setitem_eq.
  assert (h2 = <[lp := ODict (with_attachment h1 (dict_get d1 "attachment_base64")
                                (with_identity email secret dp))]> h1) as Hh2.
  { subst h2 h1. by rewrite list_insert_insert_eq. }
  unfold deliver.
  rewrite (bind_inr _ _ _ _ _ (get_heap_run h t)).
  rewrite (as_dict_ref _ _ _ Hlp).
  rewrite (deliver_writes _ _ _ _ _ _ _ Hlp). fold h1.
  rewrite (bind_inr _ _ _ _ _ (py_bool_run _ _ _)).
  rewrite Hurl. cbn [negb].
  rewrite (bind_inr _ _ _ _ _ (py_get_run _ "attachment_base64" _ _ _ _ Hsol)).
  rewrite (bind_inr _ _ _ _ _ (py_bool_run _ _ _)).
  assert ((if truthy h1 (dict_get d1 "attachment_base64")
           then dict_setitem lp "attachment_base64"
                             (dict_get d1 "attachment_base64")
           else ret tt) (State h1 t) = (inr tt, State h2 t)) as Hatt.
  { rewrite Hh2. unfold with_attachment.
    destruct (truthy h1 (dict_get d1 "attachment_base64")).
    - by rewrite (dict_setitem_run _ _ _ _ _ _ Hlp1).
    - unfold ret. by rewrite (list_insert_id _ _ _ Hlp1). }
  rewrite (bind_inr _ _ _ _ _ Hatt).
  rewrite (bind_inr _ _ _ _ _ (get_heap_run h2 t)).
  unfold bind at 1, emit at 1. reflexivity.
Qed.

(** The three ways [deliver] can go. *)
Lemma deliver_shape email secret solution submit_url payload ls d h t :
  as_dict h solution = Some (ls, d) ->
  (as_dict h payload = None
   /\ deliver w email secret solution submit_url payload (State h t)
      = (inr (jsonify [("error", VStr "no_payload_from_model");
                       ("model_output", solution)] 500), State h t))
  \/ exists lp dp,
       payload = VRef lp /\ h !! lp = Some (ODict dp)
       /\ ((truthy (<[lp := ODict (with_identity email secret dp)]> h) submit_url
            = false
            /\ deliver w email secret solution submit_url payload (State h t)
               = (inr (jsonify [("result", VStr "no_submit_url");
                                ("solution", solution)] 200),
                  State (<[lp := ODict (with_identity email secret dp)]> h) t))
           \/ (truthy (<[lp := ODict (with_identity email secret dp)]> h) submit_url
               = true
               /\ exists x,
                    (forall k, k ∉ written_keys -> x !! k = dp !! k)
                    /\ x !! "email" = Some email /\ x !! "secret" = Some secret
                    /\ deliver w email secret solution submit_url payload
                               (State h t)
                       = (let* resp :=
                            lift (requests_post w submit_url (VRef lp)
                                                (<[lp := ODict x]> h)) in
                          let* resp_json := response_json resp in
                          ret (jsonify (submission_body resp_json
                                          (post_status_code resp)
                                          submit_url solution) 200))
                           (State (<[lp := ODict x]> h)
                                  (t ++ [EvHttpPost submit_url (VRef lp)
                                                    (<[lp := ODict x]> h)])))).
Proof.
  intros Hsol. destruct (as_dict h payload) as [[lp dp] |] eqn:Hp.
  - right. apply as_dict_lookup in Hp as [-> Hlp]. exists lp, dp.
    split_and!; [done | done |].
    set (x1 := with_identity email secret dp).
    destruct (truthy (<[lp := ODict x1]> h) submit_url) eqn:Hurl.
    + right. split; [done |].
      pose proof (deliver_post_run email secret solution _ lp dp ls _ h t Hlp Hurl
                    (as_dict_setitem _ _ _ _ _ _ x1 Hsol Hlp)) as Hrun.
      cbv zeta in Hrun. fold x1 in Hrun.
      set (x2 := with_attachment _ _ x1) in Hrun.
      exists x2. split_and!; [| | | exact Hrun]; subst x2 x1.
      * intros k Hk. unfold written_keys in Hk.
        rewrite with_attachment_other, with_identity_other; [done | | |];
          intros ->; apply Hk; set_solver.
      * rewrite with_attachment_other by done. apply with_identity_email.
      * rewrite with_attachment_other by done. apply with_identity_secret.
    + left. split; [done |]. by apply deliver_no_url.
  - left. split; [done |]. by apply deliver_not_dict.
Qed.


(** After the POST the trace is as it was, and the heap has only grown. *)
Lemma reply_run (r : result post_response) submit_url solution h t :
  exists ext,
    ((let* resp := lift r in
      let* resp_json := response_json resp in
      ret (jsonify (submission_body resp_json (post_status_code resp)
                                    submit_url solution) 200)) (State h t)).2
    = State (h ++ ext) t.
Proof.
  destruct r as [e | resp].
  - rewrite (bind_inl _ _ _ _ _ (lift_run (inl e) _)). exists [].
    by rewrite app_nil_r.
  - rewrite (bind_inr _ _ _ _ _ (lift_run (inr resp) _)).
    destruct (response_json_run resp h t) as (v & ext & E).
    rewrite (bind_inr _ _ _ _ _ E). by exists ext.
Qed.

(** [submit] is [deliver], for the payload of the model or for the one
    made up from the answer. *)
Lemma submit_unfold email secret solution ls d h t :
  as_dict h solution = Some (ls, d) ->
  submit w email secret solution (State h t)
  = if is_none (dict_get d "payload") && negb (is_none (dict_get d "answer"))
       && truthy h (dict_get d "submit_url")
    then deliver w email secret solution (dict_get d "submit_url")
                 (VRef (length h))
                 (State (h ++ [ODict (synthesized email secret
                                        (dict_get d "answer"))]) t)
    else deliver w email secret solution (dict_get d "submit_url")
                 (dict_get d "payload") (State h t).
Proof.
  intros Hsol. unfold submit.
  rewrite (bind_inr _ _ _ _ _ (get_heap_run h t)). rewrite Hsol.
  rewrite (bind_inr _ _ _ _ _ (py_get_run _ "payload" _ _ _ _ Hsol)).
  rewrite (bind_inr _ _ _ _ _ (py_get_run _ "submit_url" _ _ _ _ Hsol)).
  rewrite (bind_inr _ _ _ _ _ (py_get_run _ "answer" _ _ _ _ Hsol)).
  rewrite (bind_inr _ _ _ _ _ (py_bool_run _ _ _)).
  destruct (is_none _ && _ && _).
  - by rewrite (bind_inr _ _ _ _ _ (alloc_run _ h t)).
  - unfold bind at 1, ret at 1. done.
Qed.

Lemma submit_not_dict email secret solution s :
  as_dict (st_heap s) solution = None ->
  submit w email secret solution s
  = (inr (jsonify [("error", VStr "model_failed")] 500), s).
Proof.
  destruct s as [h t]. cbn [st_heap]. intros H. unfold submit.
  rewrite (bind_inr _ _ _ _ _ (get_heap_run h t)). by rewrite H.
Qed.

Lemma deliver_posts_once email secret solution submit_url payload ls d h t :
  as_dict h solution = Some (ls, d) ->
  exists evs,
    st_trace (deliver w email secret solution submit_url payload (State h t)).2
    = (t ++ evs)%list
    /\ (length evs <= 1)%nat
    /\ Forall (fun ev => exists lp hp, ev = EvHttpPost submit_url (VRef lp) hp) evs.
Proof.
  intros Hsol.
  destruct (deliver_shape email secret solution submit_url payload ls d h t Hsol)
    as [[_ ->] | (lp & dp & -> & Hlp & [[_ ->] | (Hurl & x & _ & _ & _ & ->)])].
  - exists []. rewrite app_nil_r. split_and!; [done | cbn; lia | done].
  - exists []. rewrite app_nil_r. split_and!; [done | cbn; lia | done].
  - destruct (reply_run (requests_post w submit_url (VRef lp) (<[lp := ODict x]> h))
                submit_url solution (<[lp := ODict x]> h)
                (t ++ [EvHttpPost submit_url (VRef lp) (<[lp := ODict x]> h)]))
      as (ext & ->).
    eexists. split_and!; [done | cbn; lia |].
    constructor; [| done]. by eexists _, _.
Qed.

(** X9. A run of the submitter makes at most one HTTP call, no retry
    and nothing else; when it makes one, it is a POST to the submit_url
    of the solution. *)
Theorem submit_posts_once (email secret solution : val) (s : state) :
  exists evs,
    st_trace (submit w email secret solution s).2 = (st_trace s ++ evs)%list
    /\ (length evs <= 1)%nat
    /\ Forall (fun ev =>
                 exists ls d lp hp,
                   as_dict (st_heap s) solution = Some (ls, d)
                   /\ ev = EvHttpPost (dict_get d "submit_url") (VRef lp) hp)
              evs.
Proof.
  destruct s as [h t]. cbn [st_heap st_trace].
  destruct (as_dict h solution) as [[ls d] |] eqn:Hsol.
  - rewrite (submit_unfold _ _ _ _ _ _ _ Hsol).
    assert (forall payload h',
               as_dict h' solution = Some (ls, d) ->
               exists evs,
                 st_trace (deliver w email secret solution
                             (dict_get d "submit_url") payload (State h' t)).2
                 = (t ++ evs)%list
                 /\ (length evs <= 1)%nat
                 /\ Forall (fun ev =>
                              exists ls0 d0 lp hp,
                                Some (ls, d) = Some (ls0, d0)
                                /\ ev = EvHttpPost (dict_get d0 "submit_url")
                                                   (VRef lp) hp) evs) as Hd.
    { intros payload h' Hsol'.
      destruct (deliver_posts_once email secret solution
                  (dict_get d "submit_url") payload ls d h' t Hsol')
        as (evs & E & Hlen & Hevs).
      exists evs. split_and!; [done | done |].
      eapply Forall_impl; [exact Hevs |].
      intros ev (lp & hp & ->). by exists ls, d, lp, hp. }
    destruct (is_none _ && _ && _).
    + apply Hd. apply as_dict_lookup in Hsol as [-> Hls].
      by eapply as_dict_ref, lookup_app_l_Some.
    + by apply Hd.
  - rewrite (submit_not_dict email secret solution (State h t) Hsol).
    exists []. rewrite app_nil_r. split_and!; [done | cbn; lia | done].
Qed.

(** What [deliver] does to an object of the heap: nothing, or, to the
    payload, a change of the written keys only. *)
Lemma deliver_frame email secret solution submit_url payload ls d h t l o :
  as_dict h solution = Some (ls, d) ->
  h !! l = Some o ->
  st_heap (deliver w email secret solution submit_url payload (State h t)).2 !! l
  = Some o
  \/ (payload = VRef l
      /\ exists dp dp',
           o = ODict dp
           /\ st_heap (deliver w email secret solution submit_url payload
                               (State h t)).2 !! l = Some (ODict dp')
           /\ forall k, k ∉ written_keys -> dp' !! k = dp !! k).
Proof.
  intros Hsol Hl.
  assert (forall lp dp x ext,
             h !! lp = Some (ODict dp) ->
             (forall k, k ∉ written_keys -> x !! k = dp !! k) ->
             (<[lp := ODict x]> h ++ ext)%list !! l = Some o
             \/ (VRef lp = VRef l
                 /\ exists dp0 dp',
                      o = ODict dp0
                      /\ (<[lp := ODict x]> h ++ ext)%list !! l = Some (ODict dp')
                      /\ forall k, k ∉ written_keys -> dp' !! k = dp0 !! k))
    as Hcase.
  { intros lp dp x ext Hlp Hx. destruct (decide (lp = l)) as [-> |].
    - right. split; [done |]. exists dp, x.
      split_and!; [congruence | | done].
      apply lookup_app_l_Some. by eapply lookup_setitem_eq.
    - left. apply lookup_app_l_Some. by rewrite lookup_setitem_ne. }
  destruct (deliver_shape email secret solution submit_url payload ls d h t Hsol)
    as [[_ ->] | (lp & dp & -> & Hlp & [[_ ->] | (Hurl & x & Hx & _ & _ & ->)])].
  - by left.
  - cbn [snd st_heap].
    specialize (Hcase lp dp (with_identity email secret dp) [] Hlp).
    rewrite app_nil_r in Hcase. apply Hcase.
    intros k Hk. unfold written_keys in Hk.
    apply with_identity_other; intros ->; apply Hk; set_solver.
  - destruct (reply_run (requests_post w submit_url (VRef lp) (<[lp := ODict x]> h))
                submit_url solution (<[lp := ODict x]> h)
                (t ++ [EvHttpPost submit_url (VRef lp) (<[lp := ODict x]> h)]))
      as (ext & ->).
    cbn [st_heap]. exact (Hcase lp dp x ext Hlp Hx).
Qed.

(** X10. The submitter changes one object at most: an object of the
    heap is after the run what it was before, unless it is the payload
    that the solution holds, and then only its email, secret and
    attachment_base64 entries may differ. In particular the solution
    itself is never given the payload that is made up from the answer. *)
Theorem submit_frame (email secret solution : val) (s : state) (l : loc)
    (o : obj) :
  st_heap s !! l = Some o ->
  st_heap (submit w email secret solution s).2 !! l = Some o
  \/ exists ls d dp dp',
       as_dict (st_heap s) solution = Some (ls, d)
       /\ dict_get d "payload" = VRef l
       /\ o = ODict dp
       /\ st_heap (submit w email secret solution s).2 !! l = Some (ODict dp')
       /\ forall k, k ∉ written_keys -> dp' !! k = dp !! k.
Proof.
  destruct s as [h t]. cbn [st_heap]. intros Hl.
  destruct (as_dict h solution) as [[ls d] |] eqn:Hsol.
  - rewrite (submit_unfold _ _ _ _ _ _ _ Hsol).
    destruct (is_none _ && _ && _).
    + assert (as_dict (h ++ [ODict (synthesized email secret
                                      (dict_get d "answer"))]) solution
              = Some (ls, d)) as Hsol'.
      { apply as_dict_lookup in Hsol as [-> Hls].
        by eapply as_dict_ref, lookup_app_l_Some. }
      destruct (deliver_frame email secret solution (dict_get d "submit_url")
                  (VRef (length h)) ls d _ t l o Hsol'
                  (lookup_app_l_Some _ _ _ _ Hl)) as [H | (Heq & _)];
        [by left |].
      injection Heq as <-. apply lookup_lt_Some in Hl. lia.
    + destruct (deliver_frame email secret solution (dict_get d "submit_url")
                  (dict_get d "payload") ls d h t l o Hsol Hl)
        as [H | (Heq & dp & dp' & -> & H1 & H2)]; [by left |].
      right. by exists ls, d, dp, dp'.
  - rewrite (submit_not_dict email secret solution (State h t) Hsol). by left.
Qed.

(** X11. A solution whose payload is neither an object nor something
    that can be made up (it is a string, a number or a list; or it is
    null and the answer is null or the submit_url is false) ends in
    no_payload_from_model with status 500: nothing is posted and nothing
    is changed. *)
Theorem submit_without_payload (email secret solution : val) (s : state)
    (ls : loc) (d : gmap string val) :
  as_dict (st_heap s) solution = Some (ls, d) ->
  as_dict (st_heap s) (dict_get d "payload") = None ->
  dict_get d "payload" <> VNone \/ dict_get d "answer" = VNone
  \/ truthy (st_heap s) (dict_get d "submit_url") = false ->
  submit w email secret solution s
  = (inr (jsonify [("error", VStr "no_payload_from_model");
                   ("model_output", solution)] 500), s).
Proof.
  destruct s as [h t]. cbn [st_heap]. intros Hsol Hp Hwhy.
  rewrite (submit_unfold _ _ _ _ _ _ _ Hsol).
  assert (is_none (dict_get d "payload") && negb (is_none (dict_get d "answer"))
          && truthy h (dict_get d "submit_url") = false) as ->.
  { destruct Hwhy as [H | [-> | ->]].
    - by destruct (dict_get d "payload").
    - by rewrite andb_false_r.
    - by rewrite andb_false_r. }
  by apply deliver_not_dict.
Qed.

(** X12. With a payload object of its own, a solution that is not its
    own payload, and a non-empty string as submit_url: an exception of the
    POST leaves the submitter; a reply is answered with status 200
    whatever the status of the reply, which is reported under
    submit_status; the reply's JSON is reported under submit_response,
    and a reply that is not JSON is reported as a new dict of its status
    and text. What was posted is the payload with the identity fields,
    and the attachment when the solution has one. *)
Theorem submit_reports_reply (email secret : val) (s : state) (ls lp : loc)
    (d dp : gmap string val) (u : string) :
  st_heap s !! ls = Some (ODict d) ->
  dict_get d "payload" = VRef lp ->
  st_heap s !! lp = Some (ODict dp) ->
  ls <> lp ->
  dict_get d "submit_url" = VStr u -> u <> EmptyString ->
  let hp := <[lp := ODict (posted_body email secret (st_heap s) lp d dp)]>
              (st_heap s) in
  let tp := (st_trace s ++ [EvHttpPost (VStr u) (VRef lp) hp])%list in
  (forall e,
      requests_post w (VStr u) (VRef lp) hp = inl e ->
      submit w email secret (VRef ls) s = (inl e, State hp tp))
  /\ (forall resp,
         requests_post w (VStr u) (VRef lp) hp = inr resp ->
         exists v h',
           submit w email secret (VRef ls) s
           = (inr (jsonify (submission_body v (post_status_code resp)
                                            (VStr u) (VRef ls)) 200),
              State h' tp)
           /\ match post_json resp with
              | inr j => (v, h') = alloc_json j hp
              | inl _ => v = VRef (length hp)
                         /\ h' = (hp ++ [ODict (raw_reply resp)])%list
              end).
Proof.
  destruct s as [h t]. intros Hls Hpay Hlp Hne Hurl Hu hp tp.
  cbn [st_heap st_trace] in *.
  pose proof (as_dict_ref _ _ _ Hls) as Hsol.
  assert (submit w email secret (VRef ls) (State h t)
          = (let* resp := lift (requests_post w (VStr u) (VRef lp) hp) in
             let* resp_json := response_json resp in
             ret (jsonify (submission_body resp_json (post_status_code resp)
                                           (VStr u) (VRef ls)) 200))
              (State hp tp)) as ->.
  { rewrite (submit_unfold _ _ _ _ _ _ _ Hsol). rewrite Hpay, Hurl.
    cbn [is_none andb].
    assert (as_dict (<[lp := ODict (with_identity email secret dp)]> h) (VRef ls)
            = Some (ls, d)) as Hsol1.
    { rewrite (as_dict_setitem _ _ _ _ _ _ _ Hsol Hlp).
      by rewrite decide_False by done. }
    apply (deliver_post_run email secret (VRef ls) (VStr u) lp dp ls d h t Hlp);
      [| exact Hsol1].
    by destruct u. }
  split.
  - intros e ->. by rewrite (bind_inl _ _ _ _ _ (lift_run (inl e) _)).
  - intros resp ->. rewrite (bind_inr _ _ _ _ _ (lift_run (inr resp) _)).
    unfold response_json, raw_reply.
    destruct (post_json resp) as [e | j].
    + rewrite (bind_inr _ _ _ _ _ (alloc_run _ _ _)). eauto.
    + unfold bind at 1, load_json. cbn [st_heap st_trace].
      destruct (alloc_json j hp) as [v h']. eauto.
Qed.

End SubmitMore.

Lemma submit_frame_witness :
  st_heap (submit (example_world reply_blue) (VStr "a@b.com") (VStr "s")
                  (VRef 1) with_instruction).2 !! 1%nat
  = Some (ODict (dict_of_pairs [("answer", VStr "blue"); ("payload", VRef 0);
                                ("submit_url", VNone)]))
  \/ exists ls d dp dp',
       as_dict (st_heap with_instruction) (VRef 1) = Some (ls, d)
       /\ dict_get d "payload" = VRef 1
       /\ ODict (dict_of_pairs [("answer", VStr "blue"); ("payload", VRef 0);
                                ("submit_url", VNone)]) = ODict dp
       /\ st_heap (submit (example_world reply_blue) (VStr "a@b.com")
                          (VStr "s") (VRef 1) with_instruction).2 !! 1%nat
          = Some (ODict dp')
       /\ forall k, k ∉ written_keys -> dp' !! k = dp !! k.
Proof.
  apply (submit_frame (example_world reply_blue) (VStr "a@b.com") (VStr "s")
           (VRef 1) with_instruction 1).
  by vm_compute.
Defined.

Lemma submit_without_payload_witness :
  submit (example_world reply_blue) (VStr "a@b.com") (VStr "s") (VRef 0)
         with_text_payload
  = (inr (jsonify [("error", VStr "no_payload_from_model");
                   ("model_output", VRef 0)] 500), with_text_payload).
Proof.
  apply (submit_without_payload (example_world reply_blue) (VStr "a@b.com")
           (VStr "s") (VRef 0) with_text_payload 0
           (dict_of_pairs [("answer", VStr "blue"); ("payload", VStr "blue");
                           ("submit_url", VStr "https://x/submit")])).
  - by vm_compute.
  - by vm_compute.
  - left. by vm_compute.
Defined.

Lemma submit_reports_reply_witness :
  exists v h',
    submit (example_world reply_blue) (VStr "a@b.com") (VStr "s") (VRef 1)
           with_instruction_to_post
    = (inr (jsonify (submission_body v 200 (VStr "https://x/submit") (VRef 1))
                    200),
       State h'
         [EvHttpPost (VStr "https://x/submit") (VRef 0)
            [ODict (dict_of_pairs [("answer", VStr "blue");
                                   ("email", VStr "a@b.com");
                                   ("secret", VStr "s")]);
             ODict (dict_of_pairs [("answer", VStr "blue"); ("payload", VRef 0);
                                   ("submit_url", VStr "https://x/submit")])]]).
Proof.
  destruct (proj2 (submit_reports_reply (example_world reply_blue)
                     (VStr "a@b.com") (VStr "s") with_instruction_to_post 1 0
                     (dict_of_pairs [("answer", VStr "blue"); ("payload", VRef 0);
                                     ("submit_url", VStr "https://x/submit")])
                     (dict_of_pairs [("answer", VStr "blue")])
                     "https://x/submit"
                     ltac:(by vm_compute) ltac:(by vm_compute)
                     ltac:(by vm_compute) ltac:(lia) ltac:(by vm_compute)
                     ltac:(done))
              (PostResponse 200 (inr (JObj [("correct", JBool true)])) "{}")
              eq_refl)
    as (v & h' & E & _).
  exists v, h'. rewrite E. by vm_compute.
Defined.

(* ===================================================================== *)
(** * Further properties: the endpoint *)
(* ===================================================================== *)

(** ** Requests in the heap *)

Lemma represents_extend h ext v x :
  represents h v x -> represents (h ++ ext) v x.
Proof.
  unfold represents. intros [Hv Ht].
  destruct (json_scalar x) as [sv |] eqn:Hs.
  - subst v. split; [done |]. rewrite <- Ht.
    destruct x; try done; injection Hs as <-; done.
  - destruct Hv as (l & -> & Hl). split.
    + exists l. split; [done |]. rewrite length_app. lia.
    + rewrite <- Ht. unfold truthy. by rewrite lookup_app_l.
Qed.

Lemma alloc_all_length {A B} (f : A -> heap -> B * heap) xs h :
  length (alloc_all f xs h).1 = length xs.
Proof.
  revert h. induction xs as [|x xs IH]; intros h; cbn; [done |].
  destruct (f x h) as [v h1]. specialize (IH h1).
  destruct (alloc_all f xs h1) as [vs h2]. cbn in *. by rewrite IH.
Qed.

Lemma dict_of_pairs_lookup (ps : list (string * val)) k :
  dict_of_pairs ps !! k = last_value ps k.
Proof.
  unfold dict_of_pairs.
  assert (forall acc : gmap string val,
             foldl (fun d kv => <[kv.1 := kv.2]> d) acc ps !! k
             = match last_value ps k with
               | Some v => Some v
               | None => acc !! k
               end) as H.
  { induction ps as [|[k' v] ps IH]; intros acc; cbn [foldl last_value]; [done |].
    rewrite IH. destruct (last_value ps k); [done |]. cbn [fst snd].
    destruct (String.eqb_spec k' k) as [-> |].
    - apply lookup_insert_eq.
    - by rewrite lookup_insert_ne. }
  rewrite H. by destruct (last_value ps k).
Qed.

Lemma dict_of_pairs_empty (ps : list (string * val)) :
  dict_of_pairs ps = ∅ <-> ps = [].
Proof.
  split; [| by intros ->].
  destruct ps as [|[k v] ps]; [done |]. intros H.
  pose proof (dict_of_pairs_lookup ((k, v) :: ps) k) as E.
  rewrite H, lookup_empty in E. cbn [last_value] in E.
  rewrite String.eqb_refl in E. by destruct (last_value ps k).
Qed.

Lemma alloc_json_obj kvs h :
  alloc_json (JObj kvs) h
  = ((VRef (length (alloc_all alloc_pair kvs h).2)),
     ((alloc_all alloc_pair kvs h).2
      ++ [ODict (dict_of_pairs (alloc_all alloc_pair kvs h).1)])%list).
Proof.
  cbn [alloc_json]. fold alloc_pair.
  by destruct (alloc_all alloc_pair kvs h).
Qed.

(** The object built for a document stands for it. *)
Lemma alloc_json_represents x h :
  represents (alloc_json x h).2 (alloc_json x h).1 x.
Proof.
  destruct x as [| b | n | f | s | xs | kvs]; try (by split).
  - cbn [alloc_json]. pose proof (alloc_all_length alloc_json xs h) as Hlen.
    destruct (alloc_all alloc_json xs h) as [vs h']. cbn [fst snd] in *. split.
    + exists (length h'). split; [done |]. rewrite length_app. cbn. lia.
    + unfold truthy. rewrite list_lookup_middle by done.
      destruct vs, xs; done.
  - rewrite alloc_json_obj.
    pose proof (alloc_all_length alloc_pair kvs h) as Hlen.
    destruct (alloc_all alloc_pair kvs h) as [ps h']. cbn [fst snd] in *. split.
    + exists (length h'). split; [done |]. rewrite length_app. cbn. lia.
    + unfold truthy. rewrite list_lookup_middle by done. cbn [json_truthy].
      destruct ps as [|p ps], kvs as [|kv kvs]; try done.
      rewrite bool_decide_eq_false_2; [done |].
      intros H%dict_of_pairs_empty. done.
Qed.

(** The pairs built for the pairs of an object. *)
Lemma alloc_pairs kvs :
  forall h,
    (exists ext, (alloc_all alloc_pair kvs h).2 = (h ++ ext)%list)
    /\ Forall2 (fun kv p =>
                  p.1 = kv.1
                  /\ represents (alloc_all alloc_pair kvs h).2 p.2 kv.2)
               kvs (alloc_all alloc_pair kvs h).1.
Proof.
  induction kvs as [|[k x] kvs IH]; intros h; cbn [alloc_all].
  - split; [exists []; by rewrite app_nil_r | constructor].
  - cbn [alloc_pair].
    pose proof (alloc_json_represents x h) as Hx.
    destruct (alloc_json_extends x h) as (e1 & E1).
    destruct (alloc_json x h) as [v h1]. cbn [fst snd] in *. subst h1.
    destruct (IH (h ++ e1)%list) as ((e2 & E2) & Hrest).
    destruct (alloc_all alloc_pair kvs (h ++ e1)%list) as [ps h2].
    cbn [fst snd] in *. subst h2. split.
    + exists (e1 ++ e2)%list. by rewrite app_assoc.
    + constructor; [| done]. split; [done |]. by apply represents_extend.
Qed.

Lemma last_value_related {A B} (R : A -> B -> Prop)
    (kvs : list (string * A)) (ps : list (string * B)) k :
  Forall2 (fun kv p => p.1 = kv.1 /\ R kv.2 p.2) kvs ps ->
  match last_value kvs k with
  | None => last_value ps k = None
  | Some x => exists v, last_value ps k = Some v /\ R x v
  end.
Proof.
  induction 1 as [|[k1 x] [k2 v] kvs ps [Hk Hr] _ IH]; cbn [last_value]; [done |].
  cbn in Hk, Hr. subst k2.
  destruct (last_value kvs k) as [y |].
  - destruct IH as (v' & -> & ?). eauto.
  - rewrite IH. destruct (String.eqb k1 k); eauto.
Qed.

(** A request object in the heap: a dict at the end of the heap, whose
    entries stand for the fields of the request. *)
Lemma alloc_json_object kvs h :
  exists l d,
    (alloc_json (JObj kvs) h).1 = VRef l
    /\ (alloc_json (JObj kvs) h).2 !! l = Some (ODict d)
    /\ (d = ∅ <-> kvs = [])
    /\ forall k,
         match last_value kvs k with
         | None => d !! k = None
         | Some x =>
             exists v, d !! k = Some v
                       /\ represents (alloc_json (JObj kvs) h).2 v x
         end.
Proof.
  rewrite alloc_json_obj. cbn [fst snd].
  destruct (alloc_pairs kvs h) as (_ & Hps).
  pose proof (alloc_all_length alloc_pair kvs h) as Hlen.
  destruct (alloc_all alloc_pair kvs h) as [ps h']. cbn [fst snd] in *.
  exists (length h'), (dict_of_pairs ps).
  split_and!; [done | by apply list_lookup_middle | |].
  - rewrite dict_of_pairs_empty. destruct ps, kvs; done.
  - intros k.
    pose proof (last_value_related (fun x v => represents h' v x) kvs ps k Hps)
      as Hk.
    rewrite dict_of_pairs_lookup.
    destruct (last_value kvs k) as [x |]; [| done].
    destruct Hk as (v & -> & Hr). exists v. split; [done |].
    by apply represents_extend.
Qed.

Lemma load_json_exact j h t :
  load_json j (State h t)
  = (inr (alloc_json j h).1, State (alloc_json j h).2 t).
Proof. unfold load_json. cbn. by destruct (alloc_json j h). Qed.

Lemma py_get_raises v k h t :
  as_dict h v = None ->
  py_get v k (State h t)
  = (inl (Exn AttributeError "object has no attribute 'get'"), State h t).
Proof.
  intros H. unfold py_get.
  rewrite (bind_inr _ _ _ _ _ (get_heap_run h t)). by rewrite H.
Qed.

(** ** The handler *)

Lemma secret_matches_represents h v x expected :
  represents h v x ->
  secret_matches v expected
  = match x, expected with
    | JStr s, Some q => String.eqb s q
    | JNull, None => true
    | _, _ => false
    end.
Proof.
  intros [Hv _]. destruct x; cbn in Hv; try (subst v; done).
  - destruct Hv as (l & -> & _). by destruct expected.
  - destruct Hv as (l & -> & _). by destruct expected.
Qed.

Lemma refusal_coherent code status :
  status ∈ [400%Z; 403%Z; 500%Z] -> coherent_response (refusal code status).
Proof.
  intros H. right. split; [done |]. exists code.
  unfold refusal, jsonify. cbn [resp_body]. by rewrite dict_of_pairs_lookup.
Qed.

Lemma server_error_coherent e : coherent_response (server_error e).
Proof.
  right. split; [cbn; set_solver |]. exists "server_error".
  unfold server_error, jsonify. cbn [resp_body]. by rewrite dict_of_pairs_lookup.
Qed.

Section Endpoint.

Context (lib : Lib) (w : World).

(** The handler on a request that is an object with at least one field:
    the secret is compared, then the url and the email are looked at,
    then the pipeline runs inside the catch-all. *)
Lemma quiz_endpoint_object kvs :
  request_get_json w = inr (JObj kvs) -> kvs <> [] ->
  exists email secret url,
    quiz_endpoint lib w initial
    = if negb (request_secret_ok kvs (QUIZ_SECRET w)) then
        (inr (refusal "invalid_secret" 403),
         State (alloc_json (JObj kvs) []).2 [])
      else if negb (field_truthy kvs "url") || negb (field_truthy kvs "email")
      then (inr (refusal "missing_fields" 400),
            State (alloc_json (JObj kvs) []).2 [])
      else try_except (solve lib w email secret url)
                      (fun e => ret (server_error e))
                      (State (alloc_json (JObj kvs) []).2 []).
Proof.
  intros Hreq Hne.
  destruct (alloc_json_object kvs []) as (l & d & Hv & Hl & Hempty & Hfields).
  set (h1 := (alloc_json (JObj kvs) []).2) in *.
  assert (load_json (JObj kvs) initial = (inr (VRef l), State h1 [])) as Hload.
  { unfold initial. rewrite load_json_exact. by rewrite Hv. }
  pose proof (as_dict_ref _ _ _ Hl) as Hdict.
  assert (truthy h1 (VRef l) = true) as Hdata.
  { unfold truthy. rewrite Hl. rewrite bool_decide_eq_false_2; [done |].
    intros H%Hempty. done. }
  assert (forall k, truthy h1 (dict_get d k) = field_truthy kvs k) as Htruthy.
  { intros k. specialize (Hfields k). unfold field_truthy, dict_get.
    destruct (last_value kvs k) as [x |].
    - destruct Hfields as (v & -> & _ & Ht). done.
    - by rewrite Hfields. }
  assert (secret_matches (dict_get d "secret") (QUIZ_SECRET w)
          = request_secret_ok kvs (QUIZ_SECRET w)) as Hsecret.
  { specialize (Hfields "secret"). unfold request_secret_ok, dict_get.
    destruct (last_value kvs "secret") as [x |].
    - destruct Hfields as (v & -> & Hr). cbn [default from_option id].
      rewrite (secret_matches_represents _ _ _ _ Hr).
      by destruct x, (QUIZ_SECRET w).
    - rewrite Hfields. by destruct (QUIZ_SECRET w). }
  exists (dict_get d "email"), (dict_get d "secret"), (dict_get d "url").
  unfold quiz_endpoint. rewrite Hreq.
  rewrite (bind_inr _ _ _ _ _ Hload).
  rewrite (bind_inr _ _ _ _ _ (py_bool_run _ _ _)). rewrite Hdata. cbn [negb].
  rewrite (bind_inr _ _ _ _ _ (py_get_run _ "email" _ _ _ _ Hdict)).
  rewrite (bind_inr _ _ _ _ _ (py_get_run _ "secret" _ _ _ _ Hdict)).
  rewrite (bind_inr _ _ _ _ _ (py_get_run _ "url" _ _ _ _ Hdict)).
  rewrite Hsecret. destruct (request_secret_ok kvs (QUIZ_SECRET w)); [| done].
  cbn [negb].
  rewrite (bind_inr _ _ _ _ _ (py_bool_run _ _ _)).
  rewrite (bind_inr _ _ _ _ _ (py_bool_run _ _ _)).
  rewrite !Htruthy.
  by destruct (negb (field_truthy kvs "url") || negb (field_truthy kvs "email")).
Qed.

(** X13. A request that is an object with at least one field, whose
    secret is not the configured one (a different string, a value that is
    not a string, or a missing secret when one is configured), is answered
    403 invalid_secret; with the right secret, such a request whose url or
    email is missing, null or empty is answered 400 missing_fields. In
    both cases no page is opened and no call leaves the handler. (An
    object without fields is answered as an empty body, see X14.) *)
Theorem quiz_endpoint_refuses (kvs : list (string * json)) :
  request_get_json w = inr (JObj kvs) -> kvs <> [] ->
  (request_secret_ok kvs (QUIZ_SECRET w) = false ->
   quiz_endpoint lib w initial
   = (inr (refusal "invalid_secret" 403), State (alloc_json (JObj kvs) []).2 []))
  /\ (request_secret_ok kvs (QUIZ_SECRET w) = true ->
      field_truthy kvs "url" = false \/ field_truthy kvs "email" = false ->
      quiz_endpoint lib w initial
      = (inr (refusal "missing_fields" 400),
         State (alloc_json (JObj kvs) []).2 [])).
Proof.
  intros Hreq Hne.
  destruct (quiz_endpoint_object kvs Hreq Hne) as (email & secret & url & ->).
  split.
  - by intros ->.
  - intros -> H. cbn [negb].
    by destruct H as [-> | ->]; [| rewrite orb_true_r].
Qed.

(** X14. A body that cannot be read as JSON, or that is null, false,
    zero, an empty string, an empty list or an empty object, is answered
    400 invalid_json; a body that is any other JSON value but an object (a
    non-empty list or string, a number, true) makes the handler raise an
    AttributeError that nothing catches. In neither case does a call
    leave the handler. *)
Theorem quiz_endpoint_body :
  (forall e,
      request_get_json w = inl e ->
      quiz_endpoint lib w initial = (inr (refusal "invalid_json" 400), initial))
  /\ (forall j,
         request_get_json w = inr j -> json_truthy j = false ->
         (quiz_endpoint lib w initial).1 = inr (refusal "invalid_json" 400)
         /\ st_trace (quiz_endpoint lib w initial).2 = [])
  /\ (forall j,
         request_get_json w = inr j -> json_truthy j = true -> not_object j ->
         (quiz_endpoint lib w initial).1
         = inl (Exn AttributeError "object has no attribute 'get'")
         /\ st_trace (quiz_endpoint lib w initial).2 = []).
Proof.
  split_and!.
  - intros e Hreq. unfold quiz_endpoint. by rewrite Hreq.
  - intros j Hreq Hj. unfold quiz_endpoint. rewrite Hreq.
    pose proof (alloc_json_represents j []) as [_ Ht].
    rewrite (bind_inr _ _ _ _ _ (load_json_exact j [] [])).
    rewrite (bind_inr _ _ _ _ _ (py_bool_run _ _ _)).
    rewrite Ht, Hj. by split.
  - intros j Hreq Hj Hno. unfold quiz_endpoint. rewrite Hreq.
    pose proof (alloc_json_represents j []) as [_ Ht].
    pose proof (alloc_json_not_object j [] Hno) as Hd.
    rewrite (bind_inr _ _ _ _ _ (load_json_exact j [] [])).
    rewrite (bind_inr _ _ _ _ _ (py_bool_run _ _ _)).
    rewrite Ht, Hj. cbn [negb].
    by rewrite (bind_inl _ _ _ _ _ (py_get_raises _ "email" _ _ Hd)).
Qed.


Lemma deliver_coherent email secret solution submit_url payload ls d h t r s' :
  as_dict h solution = Some (ls, d) ->
  deliver w email secret solution submit_url payload (State h t) = (inr r, s') ->
  coherent_response r.
Proof.
  intros Hsol.
  destruct (deliver_shape w email secret solution submit_url payload ls d h t Hsol)
    as [[_ ->] | (lp & dp & -> & Hlp & [[_ ->] | (Hurl & x & _ & _ & _ & ->)])].
  - intros [= <- _]. right. split; [cbn; set_solver |].
    exists "no_payload_from_model". unfold jsonify. cbn [resp_body].
    by rewrite dict_of_pairs_lookup.
  - intros [= <- _]. left. split; [done |]. unfold jsonify. cbn [resp_body].
    by rewrite dict_of_pairs_lookup.
  - destruct (requests_post w _ _ _) as [e | resp].
    + by rewrite (bind_inl _ _ _ _ _ (lift_run (inl e) _)).
    + rewrite (bind_inr _ _ _ _ _ (lift_run (inr resp) _)).
      destruct (response_json_run resp (<[lp := ODict x]> h)
                  (t ++ [EvHttpPost submit_url (VRef lp) (<[lp := ODict x]> h)]))
        as (v & ext & E).
      rewrite (bind_inr _ _ _ _ _ E). intros [= <- _].
      left. split; [done |]. unfold jsonify, submission_body. cbn [resp_body].
      by rewrite dict_of_pairs_lookup.
Qed.

Lemma submit_coherent email secret solution s r s' :
  submit w email secret solution s = (inr r, s') -> coherent_response r.
Proof.
  destruct s as [h t].
  destruct (as_dict h solution) as [[ls d] |] eqn:Hsol.
  - rewrite (submit_unfold w _ _ _ _ _ _ _ Hsol).
    destruct (is_none _ && _ && _).
    + apply as_dict_lookup in Hsol as [-> Hls].
      eapply deliver_coherent, as_dict_ref, lookup_app_l_Some, Hls.
    + by eapply deliver_coherent.
  - rewrite (submit_not_dict w email secret solution (State h t) Hsol).
    intros [= <- _]. by apply refusal_coherent; set_solver.
Qed.

Lemma solve_coherent email secret url s r s' :
  solve lib w email secret url s = (inr r, s') -> coherent_response r.
Proof.
  unfold solve. unfold bind at 1.
  destruct (render_page_and_collect lib w url 30000 s) as [[e | pd] s1]; [done |].
  destruct (call_gemini_returns lib w (pd_html pd) (pd_text pd)
              (pd_collected_files pd) s1) as (v & s2 & Hcall & _).
  rewrite (bind_inr _ _ _ _ _ Hcall). apply submit_coherent.
Qed.

(** X15. Once a request is let in, the handler answers whatever
    happens: an exception of the pipeline (the browser, the page, the
    POST) becomes 500 server_error with the text of the exception. And
    every request that is an object gets a response that is coherent:
    status 200 without an "error" entry, or status 400, 403 or 500 with
    one. *)
Theorem quiz_endpoint_answers :
  (forall email secret url s,
      exists r s',
        try_except (solve lib w email secret url)
                   (fun e => ret (server_error e)) s = (inr r, s')
        /\ coherent_response r
        /\ forall e s2,
             solve lib w email secret url s = (inl e, s2) ->
             r = server_error e /\ s' = s2)
  /\ (forall kvs,
         request_get_json w = inr (JObj kvs) ->
         exists r s',
           quiz_endpoint lib w initial = (inr r, s') /\ coherent_response r).
Proof.
  assert (forall email secret url s,
             exists r s',
               try_except (solve lib w email secret url)
                          (fun e => ret (server_error e)) s = (inr r, s')
               /\ coherent_response r
               /\ forall e s2,
                    solve lib w email secret url s = (inl e, s2) ->
                    r = server_error e /\ s' = s2) as Hcatch.
  { intros email secret url s. unfold try_except.
    destruct (solve lib w email secret url s) as [[e | r] s1] eqn:Hs.
    - exists (server_error e), s1.
      split_and!; [done | apply server_error_coherent |].
      by intros e' s2 [= <- <-].
    - exists r, s1. split_and!; [done | by eapply solve_coherent | done]. }
  split; [exact Hcatch |].
  intros kvs Hreq. destruct kvs as [|kv kvs].
  - exists (refusal "invalid_json" 400), (State [ODict ∅] []).
    split; [| by apply refusal_coherent; set_solver].
    unfold quiz_endpoint. by rewrite Hreq.
  - destruct (quiz_endpoint_object (kv :: kvs) Hreq ltac:(done))
      as (email & secret & url & ->).
    destruct (request_secret_ok _ _); cbn [negb].
    + destruct (negb _ || negb _).
      * eexists _, _. split; [done |]. by apply refusal_coherent; set_solver.
      * destruct (Hcatch email secret url
                    (State (alloc_json (JObj (kv :: kvs)) []).2 []))
          as (r & s' & E & Hr & _).
        eauto.
    + eexists _, _. split; [done |]. by apply refusal_coherent; set_solver.
Qed.

End Endpoint.

Lemma quiz_endpoint_refuses_witness :
  quiz_endpoint py_lib
    (with_request (example_world reply_blue) (inr (JObj request_wrong_secret)))
    initial
  = (inr (refusal "invalid_secret" 403),
     State (alloc_json (JObj request_wrong_secret) []).2 [])
  /\ quiz_endpoint py_lib
       (with_request (example_world reply_blue) (inr (JObj request_without_url)))
       initial
     = (inr (refusal "missing_fields" 400),
        State (alloc_json (JObj request_without_url) []).2 []).
Proof.
  split.
  - apply (quiz_endpoint_refuses py_lib
             (with_request (example_world reply_blue)
                           (inr (JObj request_wrong_secret)))
             request_wrong_secret eq_refl ltac:(done)).
    by vm_compute.
  - apply (quiz_endpoint_refuses py_lib
             (with_request (example_world reply_blue)
                           (inr (JObj request_without_url)))
             request_without_url eq_refl ltac:(done)).
    + by vm_compute.
    + left. by vm_compute.
Defined.

(* ===================================================================== *)
(** * Further properties: the reasoning client *)
(* ===================================================================== *)

Lemma items_text_cons item items :
  items_text (item :: items)
  = match item_text item with
    | Some t => Some t
    | None => items_text items
    end.
Proof.
  destruct item; cbn [items_text item_text]; try done.
  by destruct (content_text kvs).
Qed.

(** The loop over the items of the output stops at the first item that
    gives a text. *)
Lemma items_text_first items t :
  items_text items = Some t
  <-> exists pre item post,
        items = (pre ++ item :: post)%list
        /\ Forall (fun i => item_text i = None) pre
        /\ item_text item = Some t.
Proof.
  induction items as [|a items IH].
  - split; [done |]. intros (pre & item & post & E & _). by destruct pre.
  - rewrite items_text_cons. destruct (item_text a) as [t' |] eqn:Ha.
    + split.
      * intros [= ->]. by exists [], a, items.
      * intros (pre & item & post & E & Hpre & Hitem).
        destruct pre as [|b pre]; cbn in E; injection E as -> ->.
        -- congruence.
        -- apply Forall_cons in Hpre as [Hb _]. congruence.
    + rewrite IH. split.
      * intros (pre & item & post & -> & Hpre & Hitem).
        exists (a :: pre), item, post. split_and!; [done | | done].
        by constructor.
      * intros (pre & item & post & E & Hpre & Hitem).
        destruct pre as [|b pre]; cbn in E; injection E as -> ->.
        -- congruence.
        -- apply Forall_cons in Hpre as [_ Hpre]. by exists pre, item, post.
Qed.

#[local] Arguments items_text : simpl never.

(** X16. Reading the text of a response of the model raises only when
    the getter of its text raises something other than an AttributeError.
    A text that is true is returned as it is, whatever else the response
    holds. Without one, the first item of an output list that gives a
    text decides, the items before it being skipped; and when output and
    generations are missing or their getters raise, the result is
    str(resp), or the empty string when that raises. *)
Theorem extract_text_outcomes (resp : sdk_response) :
  (forall e,
      _extract_text_from_gemini_response resp = inl e
      <-> r_text resp = Raises e /\ exn_cls e <> AttributeError)
  /\ (forall v,
         r_text resp = Value v -> pyobj_truthy v = true ->
         _extract_text_from_gemini_response resp = inr v)
  /\ (forall pre item post t,
         no_direct_text resp ->
         r_output resp = Value (PList (pre ++ item :: post)) ->
         Forall (fun i => item_text i = None) pre -> item_text item = Some t ->
         _extract_text_from_gemini_response resp = inr t)
  /\ (no_direct_text resp ->
      unreadable (r_output resp) -> unreadable (r_generations resp) ->
      _extract_text_from_gemini_response resp = inr (PStr (str_or_empty resp))).
Proof.
  unfold _extract_text_from_gemini_response, no_direct_text, str_or_empty.
  split_and!.
  - intros e.
    destruct (r_text resp) as [| v | e'];
      [| destruct (pyobj_truthy v) | case_bool_decide as Hc];
      repeat match goal with
             | |- context [match ?x with _ => _ end] => destruct x
             end;
      (split; [intros H | intros [H1 H2]]);
      first [ discriminate | congruence
            | by injection H as -> | by injection H1 as -> ].
  - intros v -> ->. done.
  - intros pre item post t Hno Hout Hpre Hitem.
    assert (output_text (getattr_or_none (r_output resp)) = Some t) as Ho.
    { rewrite Hout. cbn [getattr_or_none]. unfold output_text.
      assert (pyobj_truthy (PList (pre ++ item :: post)) = true) as ->
        by by destruct pre.
      apply items_text_first. by exists pre, item, post. }
    destruct (r_text resp) as [| v | e'].
    + by rewrite Ho.
    + rewrite Hno. by rewrite Ho.
    + rewrite bool_decide_eq_true_2 by done. by rewrite Ho.
  - intros Hno Hout Hgen.
    assert (output_text (getattr_or_none (r_output resp)) = None) as Ho
      by by destruct (r_output resp).
    assert (generations_text (getattr_or_none (r_generations resp)) = None) as Hg
      by by destruct (r_generations resp).
    destruct (r_text resp) as [| v | e'].
    + rewrite Ho, Hg. by destruct (r_str resp).
    + rewrite Hno, Ho, Hg. by destruct (r_str resp).
    + rewrite bool_decide_eq_true_2 by done. rewrite Ho, Hg.
      by destruct (r_str resp).
Qed.

Section ReasoningMore.

Context (lib : Lib) (w : World).

(** X17. When the model answers with a text whose span decodes, the
    reasoning client returns the decoded document itself, built in the
    heap after what was there, which it leaves as it is; the backend is
    called once, with the request made of the page and the files. *)
Theorem call_gemini_for_solution_decodes (page_html page_text : string)
    (files : list file_entry) (s : state) (resp : sdk_response) (raw : string)
    (j : json) :
  generate_content w (user_input lib page_html page_text files) = inr resp ->
  _extract_text_from_gemini_response resp = inr (PStr raw) ->
  json_loads lib (json_span raw) = inr j ->
  call_gemini_for_solution lib w page_html page_text files s
  = (inr (alloc_json j (st_heap s)).1,
     State (alloc_json j (st_heap s)).2
           (st_trace s ++ [EvGenerate (user_input lib page_html page_text files)]))
  /\ represents (alloc_json j (st_heap s)).2 (alloc_json j (st_heap s)).1 j
  /\ exists ext, (alloc_json j (st_heap s)).2 = (st_heap s ++ ext)%list.
Proof.
  intros Hgen Htext Hjson. split_and!.
  - unfold call_gemini_for_solution, ask_model, parse_reply. unfold_monad. cbn.
    rewrite Hgen, Htext. cbn. rewrite Hjson. cbn.
    by destruct (alloc_json j (st_heap s)).
  - apply alloc_json_represents.
  - apply alloc_json_extends.
Qed.

End ReasoningMore.

Lemma first_output_text_example :
  _extract_text_from_gemini_response
    (SdkResponse (Raises (Exn AttributeError "text"))
       (Value (PList [PStr "skipped"; PDict [("role", PStr "model")];
                      PDict [("content", PList [PDict [("text", PStr "{}")]]);
                             ("text", PStr "other")]]))
       Absent (inr "response"))
  = inr (PStr "{}").
Proof. reflexivity. Qed.

Lemma call_gemini_for_solution_decodes_witness :
  (call_gemini_for_solution py_lib (example_world reply_blue) "<html>" "text" []
                            initial).1
  = inr (VRef 0)
  /\ st_heap (call_gemini_for_solution py_lib (example_world reply_blue)
                                       "<html>" "text" [] initial).2
     = [ODict (dict_of_pairs [("answer", VStr "blue");
                              ("submit_url", VStr "https://x/test");
                              ("payload", VNone)])].
Proof.
  destruct (call_gemini_for_solution_decodes py_lib (example_world reply_blue)
              "<html>" "text" [] initial
              (SdkResponse (Value (PStr reply_blue)) Absent Absent
                           (inr "response"))
              reply_blue
              (JObj [("answer", JStr "blue");
                     ("submit_url", JStr "https://x/test");
                     ("payload", JNull)])
              eq_refl ltac:(by vm_compute) ltac:(by vm_compute))
    as (E & _).
  rewrite E. split; by vm_compute.
Defined.

(* ===================================================================== *)
(** * Further properties: the order of the calls *)
(* ===================================================================== *)

Section PipelineMore.

Context (lib : Lib) (w : World).

(** Rendering logs the page loads, then the downloads. *)
Lemma render_page_and_collect_logs url timeout_ms s :
  exists nav dl,
    st_trace (render_page_and_collect lib w url timeout_ms s).2
    = (st_trace s ++ nav ++ dl)%list
    /\ Forall is_goto nav /\ (length nav <= 2)%nat /\ Forall is_download dl.
Proof.
  assert (exists nav dl : list event,
             st_trace s = (st_trace s ++ nav ++ dl)%list
             /\ Forall is_goto nav /\ (length nav <= 2)%nat
             /\ Forall is_download dl) as Hnone.
  { exists [], []. rewrite !app_nil_r. split_and!; [done | done | cbn; lia | done]. }
  unfold render_page_and_collect.
  destruct (pw_new_page w) as [e |].
  { by rewrite (bind_inl _ _ _ _ _ (eq_refl : lift_unit (Some e) s = (inl e, s))). }
  rewrite (bind_inr _ _ _ _ _ (eq_refl : lift_unit None s = (inr tt, s))).
  destruct url as [| | | | u |]; try exact Hnone.
  destruct (navigate_logs w u timeout_ms s) as (nav & Hnav & Hgoto & Hlen).
  unfold bind.
  destruct (navigate w u timeout_ms s) as [[e | []] s1]; cbn [snd] in *.
  - exists nav, []. rewrite app_nil_r. by split_and!.
  - destruct (capture_logs lib w u s1) as (dl & Hdl & Hdown).
    exists nav, dl. rewrite Hdl, Hnav, <- app_assoc. by split_and!.
Qed.

(** The submitter logs at most one POST. *)
Lemma submit_posts email secret solution s :
  exists post,
    st_trace (submit w email secret solution s).2 = (st_trace s ++ post)%list
    /\ Forall is_post post /\ (length post <= 1)%nat.
Proof.
  destruct s as [h t]. cbn [st_trace].
  assert (forall submit_url payload ls d h',
             as_dict h' solution = Some (ls, d) ->
             exists post,
               st_trace (deliver w email secret solution submit_url payload
                                 (State h' t)).2 = (t ++ post)%list
               /\ Forall is_post post /\ (length post <= 1)%nat) as Hd.
  { intros submit_url payload ls d h' Hsol.
    destruct (deliver_posts_once w email secret solution submit_url payload
                ls d h' t Hsol) as (evs & E & Hlen & Hevs).
    exists evs. split_and!; [done | | done].
    eapply Forall_impl; [exact Hevs |]. by intros ev (lp & hp & ->). }
  destruct (as_dict h solution) as [[ls d] |] eqn:Hsol.
  - rewrite (submit_unfold w _ _ _ _ _ _ _ Hsol).
    destruct (is_none _ && _ && _).
    + apply as_dict_lookup in Hsol as [-> Hls].
      eapply Hd, as_dict_ref, lookup_app_l_Some, Hls.
    + by eapply Hd.
  - rewrite (submit_not_dict w email secret solution (State h t) Hsol).
    exists []. rewrite app_nil_r. split_and!; [done | done | cbn; lia].
Qed.

(** The calls of the pipeline, in order. *)
Lemma solve_in_order email secret url s :
  exists nav dl gen post,
    st_trace (solve lib w email secret url s).2
    = (st_trace s ++ nav ++ dl ++ gen ++ post)%list
    /\ Forall is_goto nav /\ (length nav <= 2)%nat
    /\ Forall is_download dl
    /\ Forall is_generate gen /\ (length gen <= 1)%nat
    /\ Forall is_post post /\ (length post <= 1)%nat
    /\ (gen = [] -> post = [])
    /\ (forall r s', solve lib w email secret url s = (inr r, s') ->
                     length gen = 1%nat).
Proof.
  destruct (render_page_and_collect_logs url 30000 s)
    as (nav & dl & Hrender & Hgoto & Hlen & Hdown).
  unfold solve.
  destruct (render_page_and_collect lib w url 30000 s) as [[e | pd] s1] eqn:Hr;
    cbn [snd] in Hrender.
  - rewrite (bind_inl _ _ _ _ _ Hr).
    exists nav, dl, [], []. rewrite !app_nil_r.
    split_and!; cbn; first [done | lia].
  - rewrite (bind_inr _ _ _ _ _ Hr).
    destruct (call_gemini_returns lib w (pd_html pd) (pd_text pd)
                (pd_collected_files pd) s1) as (v & s2 & Hcall & Hgen).
    rewrite (bind_inr _ _ _ _ _ Hcall).
    destruct (submit_posts email secret v s2) as (post & Hpost & Hposts & Hone).
    exists nav, dl,
      [EvGenerate (user_input lib (pd_html pd) (pd_text pd)
                              (pd_collected_files pd))], post.
    rewrite Hpost, Hgen, Hrender. rewrite <- !app_assoc.
    split_and!; cbn; first [done | lia | by repeat constructor].
Qed.

(** The handler logs nothing, or what the pipeline logs. *)
Lemma quiz_endpoint_trace :
  st_trace (quiz_endpoint lib w initial).2 = []
  \/ exists email secret url h,
       st_trace (quiz_endpoint lib w initial).2
       = st_trace (solve lib w email secret url (State h [])).2.
Proof.
  unfold quiz_endpoint. destruct (request_get_json w) as [e | j]; [by left |].
  rewrite (bind_inr _ _ _ _ _ (load_json_exact j [] [])).
  set (data := (alloc_json j []).1). set (h := (alloc_json j []).2).
  rewrite (bind_inr _ _ _ _ _ (py_bool_run _ _ _)).
  destruct (truthy h data); cbn [negb]; [| by left].
  destruct (as_dict h data) as [[l d] |] eqn:Hd.
  - rewrite (bind_inr _ _ _ _ _ (py_get_run _ "email" _ _ _ _ Hd)).
    rewrite (bind_inr _ _ _ _ _ (py_get_run _ "secret" _ _ _ _ Hd)).
    rewrite (bind_inr _ _ _ _ _ (py_get_run _ "url" _ _ _ _ Hd)).
    destruct (secret_matches _ _); cbn [negb]; [| by left].
    rewrite (bind_inr _ _ _ _ _ (py_bool_run _ _ _)).
    rewrite (bind_inr _ _ _ _ _ (py_bool_run _ _ _)).
    destruct (negb _ || negb _); [by left |].
    right. exists (dict_get d "email"), (dict_get d "secret"),
             (dict_get d "url"), h.
    unfold try_except.
    by destruct (solve lib w _ _ _ _) as [[e | r] s1].
  - left. by rewrite (bind_inl _ _ _ _ _ (py_get_raises _ "email" _ _ Hd)).
Qed.

(** X18. Whatever the request, the page, the model and the servers do,
    the calls that leave the handler come in this order: at most two
    loads of the page, then the downloads, then at most one call to the
    model, then at most one POST; there is no POST without a call to the
    model before it. *)
Theorem quiz_endpoint_in_order :
  exists nav dl gen post,
    st_trace (quiz_endpoint lib w initial).2 = (nav ++ dl ++ gen ++ post)%list
    /\ Forall is_goto nav /\ (length nav <= 2)%nat
    /\ Forall is_download dl
    /\ Forall is_generate gen /\ (length gen <= 1)%nat
    /\ Forall is_post post /\ (length post <= 1)%nat
    /\ (gen = [] -> post = []).
Proof.
  destruct quiz_endpoint_trace as [-> | (email & secret & url & h & ->)].
  - exists [], [], [], []. split_and!; cbn; first [done | lia].
  - destruct (solve_in_order email secret url (State h []))
      as (nav & dl & gen & post & E & H).
    exists nav, dl, gen, post. rewrite E. cbn [st_trace app].
    split_and!; tauto.
Qed.

End PipelineMore.

(* ===================================================================== *)
(** * Further properties: reading the page and the documents *)
(* ===================================================================== *)

Section PageMore.

Context (lib : Lib) (w : World).

(** X19. The extraction of the text of a PDF raises exactly when its
    temporary file cannot be written, and then with the exception of the
    write; whatever happens it leaves the state as it is and makes no
    call. *)
Theorem extract_text_from_pdf_bytes_raises_iff (pdf_bytes : bytes) (s : state) :
  (forall e s',
      extract_text_from_pdf_bytes w pdf_bytes s = (inl e, s')
      <-> tmp_write w pdf_bytes = Some e /\ s' = s)
  /\ (extract_text_from_pdf_bytes w pdf_bytes s).2 = s.
Proof.
  destruct (tmp_write w pdf_bytes) as [e0 |] eqn:Htmp.
  - assert (extract_text_from_pdf_bytes w pdf_bytes s = (inl e0, s)) as ->.
    { unfold extract_text_from_pdf_bytes. unfold_monad. by rewrite Htmp. }
    split; [| done]. intros e s'. split.
    + by intros [= -> ->].
    + by intros [[= ->] ->].
  - destruct (extract_text_returns w pdf_bytes s Htmp) as (r & ->).
    split; [| done]. intros e s'. split; [done | by intros [? _]].
Qed.

(** X20. A page that cannot be read ends the rendering with the
    exception of the read, before anything is downloaded: its content,
    the search for its body, the text of its body, the list of its
    anchors. The text of the body is asked for only when there is a
    body. And for every page that was read, with or without a body, an
    exception while closing the browser is raised after the downloads,
    whatever was collected. *)
Theorem capture_propagates (url : string) (s : state) (e : exn) :
  (pw_content w = inl e -> capture lib w url s = (inl e, s))
  /\ (forall html,
         pw_content w = inr html -> pw_query_body w = inl e ->
         capture lib w url s = (inl e, s))
  /\ (forall html,
         pw_content w = inr html -> pw_query_body w = inr true ->
         pw_inner_text_body w = inl e ->
         capture lib w url s = (inl e, s))
  /\ (forall html has_body,
         pw_content w = inr html -> pw_query_body w = inr has_body ->
         (has_body = true -> exists text, pw_inner_text_body w = inr text) ->
         pw_anchors w = inl e ->
         capture lib w url s = (inl e, s))
  /\ (forall html has_body anchors,
         pw_content w = inr html -> pw_query_body w = inr has_body ->
         (has_body = true -> exists text, pw_inner_text_body w = inr text) ->
         pw_anchors w = inr anchors -> pw_close w = Some e ->
         capture lib w url s = (inl e, (collect lib w url anchors s).2))
  /\ (forall html anchors,
         pw_content w = inr html -> pw_query_body w = inr false ->
         pw_anchors w = inr anchors -> pw_close w = None ->
         exists files,
           capture lib w url s
           = (inr (PageData html EmptyString files),
              (collect lib w url anchors s).2)).
Proof.
  unfold capture. split_and!.
  - intros H. unfold_monad. by rewrite H.
  - intros html Hc Hb. unfold_monad. by rewrite Hc, Hb.
  - intros html Hc Hb Ht. unfold_monad. by rewrite Hc, Hb, Ht.
  - intros html has_body Hc Hb Ht Ha. unfold_monad. rewrite Hc, Hb.
    destruct has_body; [destruct (Ht eq_refl) as (text & ->) |]; by rewrite Ha.
  - intros html has_body anchors Hc Hb Ht Ha Hcl. unfold_monad. rewrite Hc, Hb.
    destruct has_body; [destruct (Ht eq_refl) as (text & ->) |];
      rewrite Ha, Hcl;
      by destruct (collect_returns lib w url anchors s) as (files & s' & -> & _).
  - intros html anchors Hc Hb Ha Hcl. unfold_monad. rewrite Hc, Hb, Ha, Hcl.
    destruct (collect_returns lib w url anchors s) as (files & s' & -> & _).
    by exists files.
Qed.

End PageMore.
